(** * The LangGraph content pipeline of [agents/langgraph_workflow.py]

    A shallow embedding of the six-node pipeline (structure probe, program
    synthesis, in-process execution, summary, script, social copy) together
    with its entry point [run_langgraph_workflow], and the properties of the
    orchestration that the design document states about it.

    Everything outside the module is an oracle of the environment [Env]:
    the HTTP fetch and markup parse, the generation backend, the behaviour of
    the construction of the backend client, a synthesized program when it is
    run, [json.dumps] and [repr].  A Python exception that is an instance of
    [Exception], the class every guard of the module names, is a value
    [Exc msg] with [msg = str(e)]; one that is not ([SystemExit],
    [KeyboardInterrupt]) is [Exit msg] and passes every guard; a computation
    that never returns is [Hang].  Text is held as UTF-8. *)

From Stdlib Require Import String Ascii List Bool Arith ZArith Lia DecimalString.
Import ListNotations.
Local Open Scope string_scope.
Local Open Scope list_scope.

(** ** Python text primitives used by the module *)

Module Py.

(** The characters [str.strip] removes are those for which [str.isspace]
    holds: U+0009 to U+000D, U+001C to U+0020, U+0085, U+00A0, U+1680, U+2000
    to U+200A, U+2028, U+2029, U+202F, U+205F and U+3000.  In UTF-8 they take
    one, two or three bytes. *)
Definition is_space (c : ascii) : bool :=
  let n := nat_of_ascii c in
  ((9 <=? n)%nat && (n <=? 13)%nat) || ((28 <=? n)%nat && (n <=? 32)%nat).

(** U+0085 and U+00A0 *)
Definition is_space2 (c1 c2 : ascii) : bool :=
  let a := nat_of_ascii c1 in
  let b := nat_of_ascii c2 in
  (a =? 194)%nat && ((b =? 133)%nat || (b =? 160)%nat).

(** U+1680, U+2000 to U+200A, U+2028, U+2029, U+202F, U+205F and U+3000 *)
Definition is_space3 (c1 c2 c3 : ascii) : bool :=
  let a := nat_of_ascii c1 in
  let b := nat_of_ascii c2 in
  let c := nat_of_ascii c3 in
  ((a =? 225)%nat && (b =? 154)%nat && (c =? 128)%nat)
  || ((a =? 226)%nat && (b =? 128)%nat
      && (((128 <=? c)%nat && (c <=? 138)%nat)
          || (c =? 168)%nat || (c =? 169)%nat || (c =? 175)%nat))
  || ((a =? 226)%nat && (b =? 129)%nat && (c =? 159)%nat)
  || ((a =? 227)%nat && (b =? 128)%nat && (c =? 128)%nat).

Fixpoint lstrip (s : string) : string :=
  match s with
  | EmptyString => EmptyString
  | String c1 r1 =>
      if is_space c1 then lstrip r1
      else
        match r1 with
        | EmptyString => s
        | String c2 r2 =>
            if is_space2 c1 c2 then lstrip r2
            else
              match r2 with
              | EmptyString => s
              | String c3 r3 => if is_space3 c1 c2 c3 then lstrip r3 else s
              end
        end
  end.

(** The text holds white space only. *)
Definition blank (s : string) : bool :=
  match lstrip s with
  | EmptyString => true
  | String _ _ => false
  end.

(** The text up to the white space it ends with. *)
Fixpoint rstrip (s : string) : string :=
  match s with
  | EmptyString => EmptyString
  | String c r => if blank s then EmptyString else String c (rstrip r)
  end.

Definition strip (s : string) : string := rstrip (lstrip s).

(** [needle in hay] *)
Definition contains (needle hay : string) : bool :=
  match index 0 needle hay with
  | Some _ => true
  | None => false
  end.

(** [s[a:b]] for non-negative [a] and [b] *)
Definition slice (a b : nat) (s : string) : string := substring a (b - a) s.

Definition str_nat (n : nat) : string := NilZero.string_of_uint (Nat.to_uint n).

Definition str_bool (b : bool) : string := if b then "True" else "False".

Definition nonempty (s : string) : bool :=
  match s with
  | EmptyString => false
  | String _ _ => true
  end.

Fixpoint join (sep : string) (l : list string) : string :=
  match l with
  | [] => EmptyString
  | [x] => x
  | x :: r => x ++ sep ++ join sep r
  end.

Definition dquote : string := String (ascii_of_nat 34) EmptyString.

(** Values a synthesized program's [main] can hand back; [PyOpaque] is any
    other object, known only by its truth value. *)
#[warnings="-register-all"]
Inductive PyVal : Type :=
| PyNone
| PyBool (b : bool)
| PyInt (z : Z)
| PyStr (s : string)
| PyList (items : list PyVal)
| PyDict (items : list (string * PyVal))
| PyOpaque (truth : bool).

(** [bool(v)] *)
Definition truthy (v : PyVal) : bool :=
  match v with
  | PyNone => false
  | PyBool b => b
  | PyInt z => negb (Z.eqb z 0)
  | PyStr s => nonempty s
  | PyList items => match items with [] => false | _ => true end
  | PyDict items => match items with [] => false | _ => true end
  | PyOpaque t => t
  end.

End Py.

Import Py.

(** ** Outcomes, the world and the monad of the pipeline *)

(** What a call into the environment does when it cannot block for ever. *)
Inductive Try (A : Type) : Type :=
| Returns (a : A)
| Raises (msg : string).
Arguments Returns {A} a.
Arguments Raises {A} msg.

(** What a piece of the pipeline does: it returns, raises an instance of
    [Exception], never returns, or raises a fault that is not an instance of
    [Exception] ([SystemExit], [KeyboardInterrupt]). *)
Inductive Res (A : Type) : Type :=
| Ok (a : A)
| Exc (msg : string)
| Hang
| Exit (msg : string).
Arguments Ok {A} a.
Arguments Exc {A} msg.
Arguments Hang {A}.
Arguments Exit {A} msg.

(** Running a synthesized program: [exec(code, globals)] followed by the
    lookup and the call of [main].  [ExecRaised] is an instance of
    [Exception]; [ExecExits] is a fault that is not ([sys.exit()] in the
    program). *)
Inductive ExecOutcome : Type :=
| MainReturned (v : PyVal)
| NoMain
| ExecRaised (msg : string)
| ExecDiverges
| ExecExits (msg : string).

(** The facts [analyze_website_structure] reads off a parsed page. *)
Record Page : Type := mkPage {
  page_title : option string;          (* soup.find('title'), its get_text() *)
  page_select : string -> bool;        (* bool(soup.select(selector)) *)
  page_has_json_ld : bool;
  page_has_meta_description : bool;
  page_lang : option string;           (* soup.find('html', {'lang': True}) *)
  page_total_elements : nat;
  page_has_structured_data : bool
}.

(** A progress callback: the messages it was given before, the new message,
    and whether the call returns or raises. *)
Definition Callback : Type := list string -> string -> Try unit.

Record Env : Type := mkEnv {
  (* requests.get(url, timeout=10), raise_for_status, BeautifulSoup(...) *)
  requests_get : string -> Try Page;
  (* urlparse(url).netloc *)
  urlparse_netloc : string -> Try string;
  (* get_llm(): ChatOpenAI(...) built from the settings, which a run does
     not change: the call gives the same outcome each time *)
  get_llm : Try unit;
  (* llm.invoke([SystemMessage, HumanMessage]).content, given the earlier calls *)
  llm_invoke : list (string * string) -> string -> string -> Try string;
  (* exec(code, exec_globals); exec_globals['main'](url), given the programs
     run before in the same interpreter *)
  run_program : list (string * string) -> string -> string -> ExecOutcome;
  (* json.dumps(successful_data, ensure_ascii=False, indent=2) *)
  json_dumps : list (string * PyVal) -> Try string;
  (* repr of a str *)
  repr_str : string -> string
}.

(** The observable calls of one run, oldest first. *)
Record World : Type := mkWorld {
  fetch_log : list string;
  llm_log : list (string * string);
  exec_log : list (string * string);
  progress_log : list string
}.

Definition empty_world : World := mkWorld [] [] [] [].

Definition log_fetch (url : string) (w : World) : World :=
  mkWorld (fetch_log w ++ [url]) (llm_log w) (exec_log w) (progress_log w).

Definition log_llm (sys human : string) (w : World) : World :=
  mkWorld (fetch_log w) (llm_log w ++ [(sys, human)]) (exec_log w) (progress_log w).

Definition log_exec (code url : string) (w : World) : World :=
  mkWorld (fetch_log w) (llm_log w) (exec_log w ++ [(code, url)]) (progress_log w).

Definition log_progress (msg : string) (w : World) : World :=
  mkWorld (fetch_log w) (llm_log w) (exec_log w) (progress_log w ++ [msg]).

Definition M (A : Type) : Type := World -> Res A * World.

Definition ret {A : Type} (a : A) : M A := fun w => (Ok a, w).

Definition bind {A B : Type} (m : M A) (k : A -> M B) : M B :=
  fun w =>
    match m w with
    | (Ok a, w') => k a w'
    | (Exc e, w') => (Exc e, w')
    | (Hang, w') => (Hang, w')
    | (Exit e, w') => (Exit e, w')
    end.

(** [try: m except Exception as e: h e] *)
Definition try_catch {A : Type} (m : M A) (h : string -> M A) : M A :=
  fun w =>
    match m w with
    | (Exc e, w') => h e w'
    | r => r
    end.

Definition of_try {A : Type} (t : Try A) : M A :=
  fun w =>
    match t with
    | Returns a => (Ok a, w)
    | Raises e => (Exc e, w)
    end.

Declare Scope pipeline_scope.
Delimit Scope pipeline_scope with pipeline.
Notation "x <- m ;; k" := (bind m (fun x => k))
  (at level 61, m at next level, right associativity) : pipeline_scope.
Notation "m ;;; k" := (bind m (fun _ => k))
  (at level 61, right associativity) : pipeline_scope.
Local Open Scope pipeline_scope.

(** ** Records of the run state *)

Inductive MetaInfo : Type :=
| MetaPage (domain : string) (has_json_ld has_meta_description : bool)
           (lang : option string) (total_elements : nat)
           (has_structured_data : bool)
| MetaError (error : string).

Record WebsiteStructure : Type := mkWebsiteStructure {
  ws_url : string;
  ws_title : string;
  main_content_selectors : list string;
  text_selectors : list string;
  image_selectors : list string;
  link_selectors : list string;
  meta_info : MetaInfo;
  suggested_approach : string
}.

(** An entry of [website_analyses] *)
Record Analysis : Type := mkAnalysis {
  wa_url : string;
  wa_structure : option WebsiteStructure;
  analysis_success : bool;
  wa_error : option string
}.

(** An entry of [scraping_codes] *)
Record ScrapingCode : Type := mkScrapingCode {
  sc_url : string;
  sc_code : option string;
  generation_success : bool;
  sc_error : option string;
  sc_structure_info : option string
}.

(** An entry of [scraped_data] *)
Record ScrapedData : Type := mkScrapedData {
  sd_url : string;
  sd_data : PyVal;
  execution_success : bool;
  sd_error : option string
}.

Record WorkflowState : Type := mkWorkflowState {
  topic : string;
  trend_urls : list string;
  website_analyses : list Analysis;
  scraping_codes : list ScrapingCode;
  scraped_data : list ScrapedData;
  summary : string;
  video_script : string;
  social_media : string;
  progress_callback : option Callback;
  error_messages : list string
}.

Definition set_website_analyses (l : list Analysis) (st : WorkflowState) : WorkflowState :=
  mkWorkflowState (topic st) (trend_urls st) l (scraping_codes st) (scraped_data st)
    (summary st) (video_script st) (social_media st) (progress_callback st)
    (error_messages st).

Definition set_scraping_codes (l : list ScrapingCode) (st : WorkflowState) : WorkflowState :=
  mkWorkflowState (topic st) (trend_urls st) (website_analyses st) l (scraped_data st)
    (summary st) (video_script st) (social_media st) (progress_callback st)
    (error_messages st).

Definition set_scraped_data (l : list ScrapedData) (st : WorkflowState) : WorkflowState :=
  mkWorkflowState (topic st) (trend_urls st) (website_analyses st) (scraping_codes st) l
    (summary st) (video_script st) (social_media st) (progress_callback st)
    (error_messages st).

Definition set_summary (s : string) (st : WorkflowState) : WorkflowState :=
  mkWorkflowState (topic st) (trend_urls st) (website_analyses st) (scraping_codes st)
    (scraped_data st) s (video_script st) (social_media st) (progress_callback st)
    (error_messages st).

Definition set_video_script (s : string) (st : WorkflowState) : WorkflowState :=
  mkWorkflowState (topic st) (trend_urls st) (website_analyses st) (scraping_codes st)
    (scraped_data st) (summary st) s (social_media st) (progress_callback st)
    (error_messages st).

Definition set_social_media (s : string) (st : WorkflowState) : WorkflowState :=
  mkWorkflowState (topic st) (trend_urls st) (website_analyses st) (scraping_codes st)
    (scraped_data st) (summary st) (video_script st) s (progress_callback st)
    (error_messages st).

(** The dictionary [run_langgraph_workflow] returns. *)
Record Bundle : Type := mkBundle {
  b_video_script : string;
  b_social_media : string;
  b_summary : string;
  scraped_data_count : nat;
  processed_urls : list string
}.

(** ** Calls into the environment *)

Definition http_get (env : Env) (url : string) : M Page :=
  fun w =>
    match requests_get env url with
    | Returns p => (Ok p, log_fetch url w)
    | Raises e => (Exc e, log_fetch url w)
    end.

Definition llm_call (env : Env) (sys human : string) : M string :=
  fun w =>
    match llm_invoke env (llm_log w) sys human with
    | Returns s => (Ok s, log_llm sys human w)
    | Raises e => (Exc e, log_llm sys human w)
    end.

(** [Ok (Some v)]: [main] returned [v]; [Ok None]: no [main] was defined. *)
Definition exec_call (env : Env) (code url : string) : M (option PyVal) :=
  fun w =>
    match run_program env (exec_log w) code url with
    | MainReturned v => (Ok (Some v), log_exec code url w)
    | NoMain => (Ok None, log_exec code url w)
    | ExecRaised e => (Exc e, log_exec code url w)
    | ExecDiverges => (Hang, log_exec code url w)
    | ExecExits e => (Exit e, log_exec code url w)
    end.

(** [if state.get('progress_callback'): state['progress_callback'](msg)] *)
Definition notify (cb : option Callback) (msg : string) : M unit :=
  match cb with
  | None => ret tt
  | Some f =>
      fun w =>
        match f (progress_log w) msg with
        | Returns _ => (Ok tt, log_progress msg w)
        | Raises e => (Exc e, log_progress msg w)
        end
  end.

(** ** [analyze_website_structure] *)

Definition main_content_candidates : list string :=
  ["main"; "article"; ".content"; ".main-content"; "#content"; ".post"; ".entry"].

Definition text_candidates : list string :=
  ["p"; "h1"; "h2"; "h3"; ".text"; ".description"; ".summary"].

Definition image_candidates : list string :=
  ["img"; ".image"; ".photo"; "figure img"].

Definition link_candidates : list string :=
  ["a[href]"; ".link"; ".more-link"].

(** [for selector in candidates: if soup.select(selector): acc.append(selector)] *)
Fixpoint collect_selectors (page : Page) (candidates acc : list string) : list string :=
  match candidates with
  | [] => acc
  | selector :: rest =>
      collect_selectors page rest
        (if page_select page selector then acc ++ [selector] else acc)
  end.

(** Truth value of a list. *)
Definition nonempty_list {A : Type} (l : list A) : bool :=
  match l with
  | [] => false
  | _ :: _ => true
  end.

Definition degraded_structure (url e : string) : WebsiteStructure :=
  mkWebsiteStructure url "Analysis failed" [] ["p"; "h1"; "h2"; "h3"] ["img"] ["a"]
    (MetaError e) "general-scraping".

Definition analyze_website_structure (env : Env) (url : string) : M WebsiteStructure :=
  try_catch
    (page <- http_get env url ;;
     let title_text :=
       match page_title page with
       | Some t => strip t
       | None => "No title found"
       end in
     let main_content := collect_selectors page main_content_candidates [] in
     let text := collect_selectors page text_candidates [] in
     let image := collect_selectors page image_candidates [] in
     let link := collect_selectors page link_candidates [] in
     domain <- of_try (urlparse_netloc env url) ;;
     let meta :=
       MetaPage domain (page_has_json_ld page) (page_has_meta_description page)
         (page_lang page) (page_total_elements page) (page_has_structured_data page) in
     let approach :=
       if page_has_json_ld page then "json-ld"
       else if nonempty_list main_content then "content-selector"
       else if nonempty_list text then "text-extraction"
       else "general-scraping" in
     ret (mkWebsiteStructure url title_text (firstn 3 main_content) (firstn 5 text)
            (firstn 3 image) (firstn 3 link) meta approach))
    (fun e => ret (degraded_structure url e)).

(** ** Node 1: [analyze_urls_node] *)

Definition analyze_one (env : Env) (url : string) : M Analysis :=
  try_catch
    (analysis <- analyze_website_structure env url ;;
     ret (mkAnalysis url (Some analysis) true None))
    (fun e => ret (mkAnalysis url None false (Some e))).

Fixpoint analyze_loop (env : Env) (urls : list string) (acc : list Analysis)
  : M (list Analysis) :=
  match urls with
  | [] => ret acc
  | url :: rest =>
      a <- analyze_one env url ;;
      analyze_loop env rest (acc ++ [a])
  end.

Definition analyze_urls_node (env : Env) (st : WorkflowState) : M WorkflowState :=
  notify (progress_callback st) "🔍 正在分析趨勢網站結構..." ;;;
  analyses <- analyze_loop env (firstn 3 (trend_urls st)) [] ;;
  ret (set_website_analyses analyses st).

(** ** Node 2: [generate_scraping_code_node] *)

(** [str(l)] for a list of [str] *)
Definition str_list (env : Env) (l : list string) : string :=
  "[" ++ join ", " (map (repr_str env) l) ++ "]".

(** [str(meta_info)] *)
Definition str_meta (env : Env) (m : MetaInfo) : string :=
  match m with
  | MetaPage domain json_ld meta_description lang total structured =>
      "{'domain': " ++ repr_str env domain
      ++ ", 'has_json_ld': " ++ str_bool json_ld
      ++ ", 'has_meta_description': " ++ str_bool meta_description
      ++ ", 'page_lang': " ++ match lang with Some t => t | None => "None" end
      ++ ", 'total_elements': " ++ str_nat total
      ++ ", 'has_structured_data': " ++ str_bool structured ++ "}"
  | MetaError e => "{'error': " ++ repr_str env e ++ "}"
  end.

Definition analysis_text_of (env : Env) (structure : WebsiteStructure) : string :=
  "
URL: " ++ ws_url structure ++ "
標題: " ++ ws_title structure ++ "
建議方法: " ++ suggested_approach structure ++ "
主要內容選擇器: " ++ str_list env (main_content_selectors structure) ++ "
文本選擇器: " ++ str_list env (text_selectors structure) ++ "
圖片選擇器: " ++ str_list env (image_selectors structure) ++ "
Meta信息: " ++ str_meta env (meta_info structure) ++ "
            ".

(** [code_agent_prompt.format(analysis=analysis_text)] *)
Definition code_agent_prompt (analysis : string) : string :=
  "你是一個專業的爬蟲程式碼生成專家。根據提供的網站結構分析，生成高效的Python爬蟲程式碼。

要求：
1. 生成的程式碼必須是完整可執行的
2. 包含錯誤處理和重試機制
3. 提取網站的主要內容、標題、文本、圖片URL等
4. 返回結構化的JSON格式數據
5. 使用requests和BeautifulSoup庫

網站結構分析結果：
" ++ analysis ++ "

請生成針對此網站的爬蟲程式碼，程式碼應該包含一個main函數，接受url參數並返回爬取結果。".

(** The body between the first [```python] fence and the next fence, when
    both are there; the whole response otherwise. *)
Definition extract_code (generated_code : string) : string :=
  if contains "```python" generated_code then
    match index 0 "```python" generated_code with
    | Some found =>
        let code_start := found + 9 in
        match index code_start "```" generated_code with
        | Some code_end => strip (slice code_start code_end generated_code)
        | None => generated_code
        end
    | None => generated_code
    end
  else generated_code.

(** [HumanMessage(content=f"為 {structure.url} 生成爬蟲程式碼")] *)
Definition code_request (structure : WebsiteStructure) : string :=
  "為 " ++ ws_url structure ++ " 生成爬蟲程式碼".

Definition get_default (o : option string) (default : string) : string :=
  match o with
  | Some e => e
  | None => default
  end.

Definition generate_one (env : Env) (website_analysis : Analysis) : M ScrapingCode :=
  if negb (analysis_success website_analysis) then
    ret (mkScrapingCode (wa_url website_analysis) None false
           (Some (get_default (wa_error website_analysis) "Unknown error")) None)
  else
    try_catch
      (structure <-
         match wa_structure website_analysis with
         | Some s => ret s
         | None => of_try (Raises "'NoneType' object has no attribute 'url'")
         end ;;
       let analysis_text := analysis_text_of env structure in
       generated_code <-
         llm_call env (code_agent_prompt analysis_text) (code_request structure) ;;
       ret (mkScrapingCode (ws_url structure) (Some (extract_code generated_code)) true
              None (Some analysis_text)))
      (fun e => ret (mkScrapingCode (wa_url website_analysis) None false (Some e) None)).

Fixpoint generate_loop (env : Env) (analyses : list Analysis) (acc : list ScrapingCode)
  : M (list ScrapingCode) :=
  match analyses with
  | [] => ret acc
  | website_analysis :: rest =>
      c <- generate_one env website_analysis ;;
      generate_loop env rest (acc ++ [c])
  end.

Definition generate_scraping_code_node (env : Env) (st : WorkflowState) : M WorkflowState :=
  notify (progress_callback st) "🤖 Code Agent 正在生成爬蟲程式碼..." ;;;
  of_try (get_llm env) ;;;
  codes <- generate_loop env (website_analyses st) [] ;;
  ret (set_scraping_codes codes st).

(** ** Node 3: [execute_scraping_code_node] *)

(** [not code_info['generation_success'] or not code_info['code']] decides
    whether the item is skipped; otherwise the text to run is returned. *)
Definition runnable_code (code_info : ScrapingCode) : option string :=
  if generation_success code_info then
    match sc_code code_info with
    | Some code => if nonempty code then Some code else None
    | None => None
    end
  else None.

Definition execute_one (env : Env) (code_info : ScrapingCode) : M ScrapedData :=
  match runnable_code code_info with
  | None =>
      ret (mkScrapedData (sc_url code_info) PyNone false
             (Some (get_default (sc_error code_info) "No code to execute")))
  | Some code =>
      try_catch
        (r <- exec_call env code (sc_url code_info) ;;
         match r with
         | Some result => ret (mkScrapedData (sc_url code_info) result true None)
         | None =>
             ret (mkScrapedData (sc_url code_info) PyNone false
                    (Some "No main function found in generated code"))
         end)
        (fun e => ret (mkScrapedData (sc_url code_info) PyNone false (Some e)))
  end.

Fixpoint execute_loop (env : Env) (codes : list ScrapingCode) (acc : list ScrapedData)
  : M (list ScrapedData) :=
  match codes with
  | [] => ret acc
  | code_info :: rest =>
      d <- execute_one env code_info ;;
      execute_loop env rest (acc ++ [d])
  end.

Definition execute_scraping_code_node (env : Env) (st : WorkflowState) : M WorkflowState :=
  notify (progress_callback st) "⚙️ Code Executor 正在執行爬蟲程式碼..." ;;;
  data <- execute_loop env (scraping_codes st) [] ;;
  ret (set_scraped_data data st).

(** ** Node 4: [summary_agent_node] *)

(** The loop that keeps the items with [item['execution_success'] and item['data']]. *)
Fixpoint collect_successful (items : list ScrapedData) (acc : list (string * PyVal))
  : list (string * PyVal) :=
  match items with
  | [] => acc
  | item :: rest =>
      collect_successful rest
        (if execution_success item && truthy (sd_data item)
         then acc ++ [(sd_url item, sd_data item)]
         else acc)
  end.

Definition no_data_summary (topic : string) : string :=
  "關於主題 '" ++ topic ++ "' 的爬蟲過程中沒有獲得有效數據，請檢查網站可訪問性或調整爬蟲策略。".

Definition summary_prompt (topic dumped : string) : string :=
  "你是一個專業的內容分析專家。請根據以下爬蟲獲取的數據，為主題 " ++ dquote ++ topic ++ dquote
  ++ " 生成一個全面的摘要報告。

爬蟲數據：
" ++ dumped ++ "

請提供：
1. 主題的核心要點和關鍵信息
2. 重要的統計數據或事實
3. 最新的發展動態
4. 相關的背景信息
5. 值得關注的趋势或影響

要求：
- 內容要準確、客觀
- 重點突出，層次分明
- 適合用於後續的影片腳本創作
- 字數控制在800-1200字之間
".

Definition summary_agent_node (env : Env) (st : WorkflowState) : M WorkflowState :=
  notify (progress_callback st) "📋 Summary Agent 正在整合爬蟲結果..." ;;;
  of_try (get_llm env) ;;;
  let successful_data := collect_successful (scraped_data st) [] in
  if negb (nonempty_list successful_data) then
    ret (set_summary (no_data_summary (topic st)) st)
  else
    dumped <- of_try (json_dumps env successful_data) ;;
    try_catch
      (content <-
         llm_call env (summary_prompt (topic st) dumped)
           ("請為主題 '" ++ topic st ++ "' 生成摘要報告") ;;
       ret (set_summary content st))
      (fun e => ret (set_summary ("摘要生成過程中出現錯誤：" ++ e) st)).

(** ** Node 5: [script_writer_node] *)

Definition script_prompt (topic summary : string) : string :=
  "你是一個專業的影片腳本作家。請根據提供的摘要內容，為主題 " ++ dquote ++ topic ++ dquote
  ++ " 創作一個60秒的影片腳本。

摘要內容：
" ++ summary ++ "

腳本要求：
1. 時長：適合60秒影片（約150-180字）
2. 結構：開場白(10秒) + 主要內容(40秒) + 結論(10秒)
3. 語調：專業但易懂，吸引觀眾
4. 包含：關鍵統計數據、具體事實、行動呼籲
5. 格式：標明時間節點和旁白內容

請創作出引人入勝的影片腳本。
".

Definition script_writer_node (env : Env) (st : WorkflowState) : M WorkflowState :=
  notify (progress_callback st) "🎬 Script Writer 正在創作影片腳本..." ;;;
  of_try (get_llm env) ;;;
  try_catch
    (content <-
       llm_call env (script_prompt (topic st) (summary st))
         ("請為主題 '" ++ topic st ++ "' 創作60秒影片腳本") ;;
     ret (set_video_script content st))
    (fun e => ret (set_video_script ("影片腳本創作過程中出現錯誤：" ++ e) st)).

(** ** Node 6: [social_media_writer_node] *)

Definition social_prompt (topic script summary : string) : string :=
  "你是一個專業的社群媒體內容創作者。請根據影片腳本和摘要內容，為主題 " ++ dquote ++ topic ++ dquote
  ++ " 創作社群媒體貼文。

影片腳本：
" ++ script ++ "

摘要內容：
" ++ summary ++ "

請為以下平台創作內容：

1. **Instagram/Facebook 貼文**：
   - 吸引人的開場
   - 2-3個關鍵點
   - 相關標籤 (#hashtags)
   - 行動呼籲

2. **Twitter/X 推文**：
   - 簡潔有力（280字以內）
   - 包含1-2個要點
   - 相關標籤

3. **LinkedIn 文章**：
   - 專業語調
   - 深度分析
   - 商業價值導向
   - 專業標籤

每個平台的內容要符合其特色和用戶習慣。
".

Definition social_media_writer_node (env : Env) (st : WorkflowState) : M WorkflowState :=
  notify (progress_callback st) "📱 Social Media Writer 正在創作社群媒體內容..." ;;;
  of_try (get_llm env) ;;;
  try_catch
    (content <-
       llm_call env (social_prompt (topic st) (video_script st) (summary st))
         ("請為主題 '" ++ topic st ++ "' 創作多平台社群媒體內容") ;;
     ret (set_social_media content st))
    (fun e => ret (set_social_media ("社群媒體內容創作過程中出現錯誤：" ++ e) st)).

(** ** The graph and its entry point *)

(** [create_langgraph_workflow().invoke]: the six nodes along the edges
    analyze_urls, generate_code, execute_code, summarize, write_script,
    write_social. *)
Definition workflow_invoke (env : Env) (initial_state : WorkflowState) : M WorkflowState :=
  s1 <- analyze_urls_node env initial_state ;;
  s2 <- generate_scraping_code_node env s1 ;;
  s3 <- execute_scraping_code_node env s2 ;;
  s4 <- summary_agent_node env s3 ;;
  s5 <- script_writer_node env s4 ;;
  social_media_writer_node env s5.

Definition initial_state_of (topic : string) (trend_urls : list string)
    (progress_callback : option Callback) : WorkflowState :=
  mkWorkflowState topic trend_urls [] [] [] EmptyString EmptyString EmptyString
    progress_callback [].

Definition result_of (final_state : WorkflowState) : Bundle :=
  mkBundle (video_script final_state) (social_media final_state) (summary final_state)
    (length (filter execution_success (scraped_data final_state)))
    (map wa_url (website_analyses final_state)).

Definition failure_result (e : string) : Bundle :=
  mkBundle ("工作流程執行失敗：" ++ e) ("工作流程執行失敗：" ++ e) EmptyString 0 [].

(** The body of the outer [try] of [run_langgraph_workflow]. *)
Definition run_guarded (env : Env) (topic : string) (trend_urls : list string)
    (progress_callback : option Callback) : M Bundle :=
  notify progress_callback "🚀 啟動 LangGraph 工作流程..." ;;;
  final_state <- workflow_invoke env (initial_state_of topic trend_urls progress_callback) ;;
  notify progress_callback "✅ LangGraph 工作流程執行完成！" ;;;
  ret (result_of final_state).

Definition run_langgraph_workflow (env : Env) (topic : string) (trend_urls : list string)
    (progress_callback : option Callback) : M Bundle :=
  try_catch (run_guarded env topic trend_urls progress_callback)
    (fun e => ret (failure_result e)).

(** ** The executor of [tools/web_scraper_tools.py]

    The conversational workflow runs programs through this function, in a
    subprocess with a time limit. *)

Module WebScraperTools.

(** [subprocess.run([sys.executable, path], capture_output=True, text=True,
    timeout=timeout, ...)], with the writing of the temporary file before
    it. *)
Inductive SubprocessOutcome : Type :=
| Completed (returncode : Z) (out err : string)
| TimeoutExpired
| Failed (msg : string).

Record ExecutionResult : Type := mkExecutionResult {
  success : bool;
  return_code : Z;
  stdout : string;
  stderr : string;
  execution_time : string
}.

Definition default_timeout : nat := 60.

Definition execute_python_code (subprocess_run : string -> nat -> SubprocessOutcome)
    (code : string) (timeout : nat) : ExecutionResult :=
  match subprocess_run code timeout with
  | Completed returncode out err =>
      mkExecutionResult (Z.eqb returncode 0) returncode out err "completed within timeout"
  | TimeoutExpired =>
      mkExecutionResult false (-1) EmptyString
        ("程式碼執行超時 (超過 " ++ str_nat timeout ++ " 秒)")
        ("timeout after " ++ str_nat timeout ++ "s")
  | Failed e =>
      mkExecutionResult false (-1) EmptyString ("執行程式碼時發生錯誤: " ++ e) "failed"
  end.

End WebScraperTools.

(** ** A small environment to run the pipeline on *)

Module Demo.

Definition page : Page :=
  mkPage (Some "  AI news  ")
    (fun selector =>
       existsb (String.eqb selector)
         ["article"; ".content"; "#content"; ".post"; "p"; "h1"; "h2"; "h3";
          ".text"; ".summary"; "img"; "a[href]"])
    false true None 42 false.

Definition quote (s : string) : string := "'" ++ s ++ "'".

(** U+00A0, U+3000 and U+0085 in UTF-8 *)
Definition no_break_space : string :=
  String (ascii_of_nat 194) (String (ascii_of_nat 160) EmptyString).

Definition ideographic_space : string :=
  String (ascii_of_nat 227) (String (ascii_of_nat 128) (String (ascii_of_nat 128) EmptyString)).

Definition next_line : string :=
  String (ascii_of_nat 194) (String (ascii_of_nat 133) EmptyString).

Definition reply : string :=
  "Here you go: ```python
def main(url):
    return {'title': 'AI news'}
``` done".

(** Every page but [https://down.example] is served; the backend answers
    every prompt with [reply]; every program returns a record. *)
Definition env : Env :=
  mkEnv
    (fun url => if String.eqb url "https://down.example"
                then Raises "ConnectionError" else Returns page)
    (fun _ => Returns "news.example")
    (Returns tt)
    (fun _ _ _ => Returns reply)
    (fun _ _ _ => MainReturned (PyDict [("title", PyStr "AI news")]))
    (fun _ => Returns "[...]")
    quote.

(** The same, with a backend that is down. *)
Definition env_backend_down : Env :=
  mkEnv (requests_get env) (urlparse_netloc env) (get_llm env)
    (fun _ _ _ => Raises "backend timeout")
    (run_program env) (json_dumps env) quote.

Definition looping_code : string :=
  "def main(url):
    while True:
        pass".

Definition looping_reply : string :=
  "```python
def main(url):
    while True:
        pass
```".

(** The same, with a backend that synthesizes a program that loops for
    ever. *)
Definition env_looping : Env :=
  mkEnv (requests_get env) (urlparse_netloc env) (get_llm env)
    (fun _ _ _ => Returns looping_reply)
    (fun _ code _ => if String.eqb code looping_code then ExecDiverges
                     else MainReturned (PyDict [("title", PyStr "AI news")]))
    (json_dumps env) quote.

(** The same, with programs whose payload [json.dumps] rejects. *)
Definition env_unserializable : Env :=
  mkEnv (requests_get env) (urlparse_netloc env) (get_llm env) (llm_invoke env)
    (fun _ _ _ => MainReturned (PyOpaque true))
    (fun _ => Raises "Object of type set is not JSON serializable") quote.

(** The same, with programs that return an empty record. *)
Definition env_empty_payloads : Env :=
  mkEnv (requests_get env) (urlparse_netloc env) (get_llm env) (llm_invoke env)
    (fun _ _ _ => MainReturned (PyDict []))
    (json_dumps env) quote.

Definition exiting_code : string :=
  "import sys
def main(url):
    sys.exit(1)".

Definition exiting_reply : string :=
  "```python
import sys
def main(url):
    sys.exit(1)
```".

(** The same, with a backend that synthesizes a program that leaves through
    [sys.exit(1)]. *)
Definition env_exiting : Env :=
  mkEnv (requests_get env) (urlparse_netloc env) (get_llm env)
    (fun _ _ _ => Returns exiting_reply)
    (fun _ code _ => if String.eqb code exiting_code then ExecExits "1"
                     else MainReturned (PyDict [("title", PyStr "AI news")]))
    (json_dumps env) quote.


Definition quiet_callback : Callback := fun _ _ => Returns tt.

(** A callback that raises at the summary milestone only. *)
Definition shy_callback : Callback :=
  fun _ msg =>
    if String.eqb msg "📋 Summary Agent 正在整合爬蟲結果..." then Raises "widget is gone"
    else Returns tt.

Definition raising_callback : Callback := fun _ _ => Raises "widget is gone".

Definition seven_urls : list string :=
  ["https://a.example/1"; "https://a.example/2"; "https://down.example";
   "https://a.example/4"; "https://a.example/5"; "https://a.example/6";
   "https://a.example/7"].

(** A state whose first analysis is flagged as failed and whose second is
    a degraded but successful one. *)
Definition mixed_state : WorkflowState :=
  mkWorkflowState "AI" ["https://x.example"; "https://down.example"]
    [mkAnalysis "https://x.example" None false (Some "boom");
     mkAnalysis "https://down.example"
       (Some (degraded_structure "https://down.example" "ConnectionError")) true None]
    [] [] EmptyString EmptyString EmptyString None [].

(** A state after an execution stage that brought nothing: one program
    failed, the other returned an empty record. *)
Definition fruitless_state : WorkflowState :=
  mkWorkflowState "AI" ["https://x.example"; "https://y.example"] [] []
    [mkScrapedData "https://x.example" PyNone false (Some "boom");
     mkScrapedData "https://y.example" (PyDict []) true None]
    EmptyString EmptyString EmptyString (Some quiet_callback) [].

End Demo.

(** ** Vocabulary of the statements *)

(** A callback that returns whenever it is called (or no callback at all). *)
Definition callback_returns (cb : option Callback) : Prop :=
  forall f, cb = Some f -> forall history msg, f history msg = Returns tt.

(** Every synthesized program that is run comes back to the stage that runs
    it, whatever was run before it: it returns, defines no [main], or raises
    an instance of [Exception]; it neither runs for ever nor leaves through a
    fault that is not an [Exception]. *)
Definition programs_halt (env : Env) : Prop :=
  forall history code url,
    match run_program env history code url with
    | ExecDiverges | ExecExits _ => False
    | _ => True
    end.

(** The backend client can be built. *)
Definition llm_available (env : Env) : Prop := get_llm env = Returns tt.

(** A record of [website_analyses] as node 1 builds it. *)
Definition probed (a : Analysis) : Prop :=
  analysis_success a = true
  /\ exists ws, wa_structure a = Some ws /\ ws_url ws = wa_url a.

(** The record node 1 stores for [url]: the probe's answer, flagged as a
    success. *)
Definition fingerprint_of (env : Env) (url : string) (a : Analysis) : Prop :=
  exists ws, fst (analyze_website_structure env url empty_world) = Ok ws
             /\ ws_url ws = url
             /\ a = mkAnalysis url (Some ws) true None.

(** A record of [website_analyses] that is flagged as a success carries a
    structure, as both branches of node 1 build it. *)
Definition well_formed (a : Analysis) : Prop :=
  analysis_success a = true -> exists ws, wa_structure a = Some ws.

(** A record for which node 2 reaches its backend call: it is flagged as a
    success and holds a structure. *)
Definition attempted (a : Analysis) : bool :=
  analysis_success a
  && match wa_structure a with
     | Some _ => true
     | None => false
     end.

(** What node 2 stores for a record of [website_analyses]. *)
Definition code_for (a : Analysis) (c : ScrapingCode) : Prop :=
  (analysis_success a = false ->
     generation_success c = false /\ sc_code c = None /\ sc_url c = wa_url a)
  /\ (forall ws, analysis_success a = true -> wa_structure a = Some ws ->
        sc_url c = ws_url ws \/ sc_url c = wa_url a).

(** Two worlds that differ in the progress log at most. *)
Definition same_calls (w w' : World) : Prop :=
  fetch_log w' = fetch_log w /\ llm_log w' = llm_log w /\ exec_log w' = exec_log w.

(** [json.dumps] accepts every payload list. *)
Definition dumps_returns (env : Env) : Prop :=
  forall items, exists text, json_dumps env items = Returns text.

(** A computation that leaves the fetch log alone, whatever its outcome. *)
Definition keeps_fetch_log {A : Type} (m : M A) : Prop :=
  forall w, fetch_log (snd (m w)) = fetch_log w.

(** A computation that comes back, with a value or an exception the guards
    catch. *)
Definition comes_back {A : Type} (m : M A) : Prop :=
  forall w,
    match fst (m w) with
    | Hang | Exit _ => False
    | _ => True
    end.

(** The five nodes after the analysis. *)
Definition after_analysis (env : Env) (s1 : WorkflowState) : M WorkflowState :=
  s2 <- generate_scraping_code_node env s1 ;;
  s3 <- execute_scraping_code_node env s2 ;;
  s4 <- summary_agent_node env s3 ;;
  s5 <- script_writer_node env s4 ;;
  social_media_writer_node env s5.

(** Two outcomes that agree up to [R] on the value. *)
Definition res_related {A : Type} (R : A -> A -> Prop) (r1 r2 : Res A) : Prop :=
  match r1, r2 with
  | Ok a1, Ok a2 => R a1 a2
  | Exc e1, Exc e2 => e1 = e2
  | Hang, Hang => True
  | Exit e1, Exit e2 => e1 = e2
  | _, _ => False
  end.

(** Two computations that, started in worlds with the same calls, have
    related outcomes and end in worlds with the same calls. *)
Definition simulates {A : Type} (R : A -> A -> Prop) (m1 m2 : M A) : Prop :=
  forall w1 w2,
    same_calls w1 w2 ->
    res_related R (fst (m1 w1)) (fst (m2 w2))
    /\ same_calls (snd (m1 w1)) (snd (m2 w2)).

(** Two states that differ in their callback at most, both callbacks
    returning. *)
Definition same_but_callback (st1 st2 : WorkflowState) : Prop :=
  topic st1 = topic st2 /\ trend_urls st1 = trend_urls st2
  /\ website_analyses st1 = website_analyses st2
  /\ scraping_codes st1 = scraping_codes st2
  /\ scraped_data st1 = scraped_data st2
  /\ summary st1 = summary st2 /\ video_script st1 = video_script st2
  /\ social_media st1 = social_media st2
  /\ callback_returns (progress_callback st1)
  /\ callback_returns (progress_callback st2).


(** The records and the world the loop of the execution stage gives in a
    fresh interpreter; the empty list when it does not complete. *)
Definition execute_loop_result (env : Env) (l : list ScrapingCode)
  : list ScrapedData * World :=
  match execute_loop env l [] empty_world with
  | (Ok ds, w') => (ds, w')
  | (_, w') => ([], w')
  end.

(** The entry the execution stage adds to the execution log for an item:
    none when the item is skipped. *)
Definition runnable_entry (code_info : ScrapingCode) : list (string * string) :=
  match runnable_code code_info with
  | Some code => [(code, sc_url code_info)]
  | None => []
  end.

(** The world after a notification, whether the callback returned or
    raised. *)
Definition after_notify (cb : option Callback) (msg : string) (w : World) : World :=
  match cb with
  | None => w
  | Some _ => log_progress msg w
  end.


(** The three fan-out stages, up to the end of the execution stage. *)
Definition fan_out (env : Env) (st : WorkflowState) : M WorkflowState :=
  s1 <- analyze_urls_node env st ;;
  s2 <- generate_scraping_code_node env s1 ;;
  execute_scraping_code_node env s2.

(** The three text stages that follow. *)
Definition text_stages (env : Env) (s3 : WorkflowState) : M WorkflowState :=
  s4 <- summary_agent_node env s3 ;;
  s5 <- script_writer_node env s4 ;;
  social_media_writer_node env s5.

(** The human messages of the three text stages. *)
Definition summary_request (topic : string) : string :=
  "請為主題 '" ++ topic ++ "' 生成摘要報告".

Definition script_request (topic : string) : string :=
  "請為主題 '" ++ topic ++ "' 創作60秒影片腳本".

Definition social_request (topic : string) : string :=
  "請為主題 '" ++ topic ++ "' 創作多平台社群媒體內容".

(** The text a guarded backend call leaves: the reply, or the stage's error
    prefix followed by the exception's message. *)
Definition reply_or (prefix : string) (t : Try string) : string :=
  match t with
  | Returns content => content
  | Raises e => prefix ++ e
  end.

(** More environments and states to run the stages on. *)
Module Cases.

(** Programs that behave by their text: one raises, one defines no [main],
    the others return a record. *)
Definition env_mixed_programs : Env :=
  mkEnv (requests_get Demo.env) (urlparse_netloc Demo.env) (get_llm Demo.env)
    (llm_invoke Demo.env)
    (fun _ code _ =>
       if String.eqb code "raise ValueError('boom')" then ExecRaised "boom"
       else if String.eqb code "x = 1" then NoMain
       else MainReturned (PyDict [("title", PyStr "AI news")]))
    (json_dumps Demo.env) Demo.quote.

(** Programs that share the interpreter: one raises after having set a
    global, the other returns the number of programs run before it. *)
Definition env_shared_interpreter : Env :=
  mkEnv (requests_get Demo.env) (urlparse_netloc Demo.env) (get_llm Demo.env)
    (llm_invoke Demo.env)
    (fun history code _ =>
       if String.eqb code "raise ValueError('boom')" then ExecRaised "boom"
       else MainReturned (PyInt (Z.of_nat (length history))))
    (json_dumps Demo.env) Demo.quote.

Definition two_programs : list ScrapingCode :=
  [mkScrapingCode "https://a.example/1" (Some "raise ValueError('boom')") true None None;
   mkScrapingCode "https://a.example/2" (Some "def main(url): return len(seen)") true
     None None].

Definition three_programs : list ScrapingCode :=
  [mkScrapingCode "https://a.example/1" (Some "raise ValueError('boom')") true None None;
   mkScrapingCode "https://a.example/2" (Some "x = 1") true None None;
   mkScrapingCode "https://a.example/3" (Some "def main(url): return {'title': 'AI news'}")
     true None None].

(** A state after an execution stage with one usable payload. *)
Definition fruitful_state : WorkflowState :=
  mkWorkflowState "AI" ["https://x.example"; "https://y.example"] [] []
    [mkScrapedData "https://x.example" PyNone false (Some "boom");
     mkScrapedData "https://y.example" (PyDict [("title", PyStr "AI news")]) true None]
    EmptyString EmptyString EmptyString None [].

End Cases.


(** The payloads the summary stage passes on: URL and data of the items that
    were executed successfully and returned something that counts as data. *)
Definition usable_payloads (items : list ScrapedData) : list (string * PyVal) :=
  map (fun d => (sd_url d, sd_data d))
    (filter (fun d => execution_success d && truthy (sd_data d)) items).


(** A program record whose code, when it has one, is the body extracted from
    a reply the backend gave. *)
Definition came_from_backend (env : Env) (c : ScrapingCode) : Prop :=
  forall code,
    sc_code c = Some code ->
    exists history sys human reply,
      llm_invoke env history sys human = Returns reply /\ code = extract_code reply.


(** The messages a run hands to its callback, in the order of the stages. *)
Definition milestones : list string :=
  ["🚀 啟動 LangGraph 工作流程..."; "🔍 正在分析趨勢網站結構...";
   "🤖 Code Agent 正在生成爬蟲程式碼..."; "⚙️ Code Executor 正在執行爬蟲程式碼...";
   "📋 Summary Agent 正在整合爬蟲結果..."; "🎬 Script Writer 正在創作影片腳本...";
   "📱 Social Media Writer 正在創作社群媒體內容..."; "✅ LangGraph 工作流程執行完成！"].

(** A computation that leaves the progress log alone, whatever its outcome. *)
Definition keeps_progress_log {A : Type} (m : M A) : Prop :=
  forall w, progress_log (snd (m w)) = progress_log w.

(** A computation that hands [msgs] to the callback, in order: all of them
    when it completes, a prefix of them otherwise. *)
Definition emits {A : Type} (msgs : list string) (m : M A) : Prop :=
  forall w,
    exists n,
      progress_log (snd (m w)) = progress_log w ++ firstn n msgs
      /\ n <= length msgs
      /\ ((exists a, fst (m w) = Ok a) -> n = length msgs).


(** What reaches the callback of the messages [msgs]: nothing when there is
    no callback. *)
Definition delivered (cb : option Callback) (msgs : list string) : list string :=
  match cb with
  | Some _ => msgs
  | None => []
  end.

(** Dropping and taking the first [n] characters of a string, and a string
    occurring inside another: the vocabulary of the facts about
    [extract_code]. *)
Fixpoint string_drop (n : nat) (s : string) : string :=
  match n, s with
  | 0, _ => s
  | S n', String _ r => string_drop n' r
  | S _, EmptyString => EmptyString
  end.

Fixpoint string_take (n : nat) (s : string) : string :=
  match n, s with
  | 0, _ => EmptyString
  | S n', String c r => String c (string_take n' r)
  | S _, EmptyString => EmptyString
  end.

Definition occurs (u s : string) : Prop := exists a b, s = (a ++ u ++ b)%string.


(** ** The caller in [app.py] and [app_enhanced.py]

    The LangGraph branch of the generation step: the seed URLs are taken
    from the news items of the selected topic, and the returned bundle is
    accepted when its script and its social copy are both non-empty. *)

Module App.

(** A news item of a trend, as far as the caller reads it: [news.get('url')],
    [None] when the key is absent or holds [None]. *)
Record NewsItem : Type := mkNewsItem {
  news_title : string;
  news_url : option string
}.

(** [[news['url'] for news in news_items if news.get('url')]] *)
Fixpoint available_urls (news_items : list NewsItem) : list string :=
  match news_items with
  | [] => []
  | news :: rest =>
      match news_url news with
      | Some url => if nonempty url then url :: available_urls rest
                    else available_urls rest
      | None => available_urls rest
      end
  end.

(** [trend_urls = [...][:3]] *)
Definition trend_urls_of (news_items : list NewsItem) : list string :=
  firstn 3 (available_urls news_items).

(** [result and result.get('video_script') and result.get('social_media')] *)
Definition accepted (result : Bundle) : bool :=
  nonempty (b_video_script result) && nonempty (b_social_media result).

(** [run_langgraph_workflow(topic=topic, trend_urls=trend_urls,
    progress_callback=progress_callback)] on the selected topic *)
Definition generate (env : Env) (title : string) (news_items : list NewsItem)
    (progress_callback : option Callback) : M Bundle :=
  run_langgraph_workflow env title (trend_urls_of news_items) progress_callback.

End App.


Module AppCases.

(** News items of a topic: one without a URL, one with an empty URL, four
    with a URL. *)
Definition news_items : list App.NewsItem :=
  [App.mkNewsItem "n1" (Some "https://a.example/1");
   App.mkNewsItem "n2" None;
   App.mkNewsItem "n3" (Some EmptyString);
   App.mkNewsItem "n4" (Some "https://down.example");
   App.mkNewsItem "n5" (Some "https://a.example/5");
   App.mkNewsItem "n6" (Some "https://a.example/6")].

(** A backend that answers the script request with an empty text. *)
Definition env_empty_script : Env :=
  mkEnv (requests_get Demo.env) (urlparse_netloc Demo.env) (get_llm Demo.env)
    (fun _ _ human =>
       if String.eqb human (script_request "AI") then Returns EmptyString
       else Returns Demo.reply)
    (run_program Demo.env) (json_dumps Demo.env) Demo.quote.

End AppCases.


(** What a program record tells about its item: a success holds the body
    extracted from a reply to the prompt built from the item's own structure;
    a failure holds no code and an error text, which is the backend's message
    when the backend was called for the item. *)
Definition recorded (env : Env) (a : Analysis) (c : ScrapingCode) : Prop :=
  (generation_success c = true ->
     exists ws reply history,
       wa_structure a = Some ws
       /\ llm_invoke env history (code_agent_prompt (analysis_text_of env ws))
            (code_request ws) = Returns reply
       /\ sc_code c = Some (extract_code reply)
       /\ sc_structure_info c = Some (analysis_text_of env ws)
       /\ sc_url c = ws_url ws)
  /\ (generation_success c = false ->
        sc_code c = None /\ sc_url c = wa_url a
        /\ exists e,
             sc_error c = Some e
             /\ (analysis_success a = true ->
                 exists ws history,
                   wa_structure a = Some ws
                   /\ llm_invoke env history (code_agent_prompt (analysis_text_of env ws))
                        (code_request ws) = Raises e)).


(** ** [tools/trend_fetcher.py]

    The feed is what [requests.get], [raise_for_status], [ET.fromstring] and
    [findall('.//item')] give: the items, an exception, no answer (the
    request has no timeout), or a fault that no guard of the fetcher
    catches. *)

Module TrendFetcher.

(** A Python value that is a [str] or [None]. *)
Definition Text : Type := option string.

(** [element.find(tag)]: [None] when there is no such child, else the
    child's [.text]. *)
Definition Child : Type := option Text.

Record FeedNews : Type := mkFeedNews {
  fn_title : Child;
  fn_url : Child;
  fn_snippet : Child;
  fn_picture : Child;
  fn_source : Child
}.

Record FeedItem : Type := mkFeedItem {
  fi_title : Child;
  fi_link : Child;
  fi_description : Child;
  fi_pubDate : Child;
  fi_approx_traffic : Child;
  fi_picture : Child;
  fi_picture_source : Child;
  fi_news_items : list FeedNews
}.

(** [child.text if child is not None else ""] *)
Definition text_or_blank (c : Child) : Text :=
  match c with
  | Some t => t
  | None => Some EmptyString
  end.

(** [bool(t)] *)
Definition truthy_text (t : Text) : bool :=
  match t with
  | Some s => nonempty s
  | None => false
  end.

(** [t or default] *)
Definition text_or (t : Text) (default : string) : string :=
  match t with
  | Some s => if nonempty s then s else default
  | None => default
  end.

Record News : Type := mkNews {
  n_title : string;
  n_url : Text;
  n_snippet : Text;
  n_picture : Text;
  n_source : Text
}.

Record Trend : Type := mkTrend {
  t_title : Text;
  t_url : Text;
  t_description : Text;
  t_pub_date : Text;
  t_approx_traffic : Text;
  t_picture : Text;
  t_picture_source : Text;
  t_news_items : list News
}.

(** The inner loop over [item.findall('ht:news_item', namespace)] *)
Fixpoint news_loop (news : list FeedNews) (news_items : list News) : list News :=
  match news with
  | [] => news_items
  | news_item :: rest =>
      news_loop rest
        match fn_title news_item with
        | Some title_text =>
            news_items
            ++ [mkNews (text_or title_text EmptyString) (text_or_blank (fn_url news_item))
                  (text_or_blank (fn_snippet news_item))
                  (text_or_blank (fn_picture news_item))
                  (text_or_blank (fn_source news_item))]
        | None => news_items
        end
  end.

(** The loop over [root.findall('.//item')] *)
Fixpoint item_loop (items : list FeedItem) (trends : list Trend) : list Trend :=
  match items with
  | [] => trends
  | item :: rest =>
      let title := text_or_blank (fi_title item) in
      let news_items := news_loop (fi_news_items item) [] in
      item_loop rest
        (if truthy_text title
         then trends
              ++ [mkTrend title (text_or_blank (fi_link item))
                    (text_or_blank (fi_description item))
                    (text_or_blank (fi_pubDate item))
                    (text_or_blank (fi_approx_traffic item))
                    (text_or_blank (fi_picture item))
                    (text_or_blank (fi_picture_source item)) news_items]
         else trends)
  end.

Definition get_google_trends (feed : Res (list FeedItem)) : Res (list Trend) :=
  match feed with
  | Ok items => Ok (firstn 10 (item_loop items []))
  | Exc _ => Ok []
  | Hang => Hang
  | Exit e => Exit e
  end.

(** An entry of the aggregated list *)
Record Ranked : Type := mkRanked {
  r_title : Text;
  r_description : string;
  r_source : string;
  r_url : Text;
  r_pub_date : Text;
  r_approx_traffic : Text;
  r_picture : Text;
  r_picture_source : Text;
  r_news_items : list News;
  r_score : Z
}.

(** [for i, trend_data in enumerate(google_trends): all_trends.append({...})] *)
Fixpoint rank_loop (google_trends : list Trend) (i : nat) (all_trends : list Ranked)
  : list Ranked :=
  match google_trends with
  | [] => all_trends
  | trend_data :: rest =>
      rank_loop rest (S i)
        (all_trends
         ++ [mkRanked (t_title trend_data)
               (text_or (t_description trend_data)
                  ("Google 熱搜趨勢第 " ++ str_nat (i + 1) ++ " 名"))
               "Google Trends" (t_url trend_data) (t_pub_date trend_data)
               (t_approx_traffic trend_data) (t_picture trend_data)
               (t_picture_source trend_data) (t_news_items trend_data)
               (100 - Z.of_nat i * 5)%Z])
  end.

(** The object: times and durations in microseconds. *)
Record Fetcher : Type := mkFetcher {
  cache_duration : Z;
  last_fetch_time : option Z;
  cached_trends : list Ranked
}.

(** [TrendFetcher(cache_duration_hours)] *)
Definition init (cache_duration_hours : Z) : Fetcher :=
  mkFetcher (cache_duration_hours * 3600000000)%Z None [].

(** [not force_refresh and self.last_fetch_time and
    (now - self.last_fetch_time < self.cache_duration)] *)
Definition cache_is_fresh (self : Fetcher) (force_refresh : bool) (now : Z) : bool :=
  negb force_refresh
  && match last_fetch_time self with
     | Some last => (now - last <? cache_duration self)%Z
     | None => false
     end.

(** [get_aggregated_trends(force_refresh)] at time [now], the feed having
    been requested [fetches] times before; [feeds n] is the feed at the
    request number [n].  The result, the object and the number of requests
    after the call. *)
Definition get_aggregated_trends (feeds : nat -> Res (list FeedItem)) (self : Fetcher)
    (fetches : nat) (force_refresh : bool) (now : Z)
  : Res (list Ranked) * Fetcher * nat :=
  if cache_is_fresh self force_refresh now then
    (Ok (cached_trends self), self, fetches)
  else
    match get_google_trends (feeds fetches) with
    | Ok google_trends =>
        let all_trends :=
          if nonempty_list google_trends then rank_loop google_trends 0 [] else [] in
        let cached := firstn 10 all_trends in
        (Ok cached, mkFetcher (cache_duration self) (Some now) cached, S fetches)
    | Exc e => (Exc e, self, S fetches)
    | Hang => (Hang, self, S fetches)
    | Exit e => (Exit e, self, S fetches)
    end.

(** A feed item with a title and two news entries, one of them untitled;
    an item with an empty title; an item with no title element. *)
Definition sample_items : list FeedItem :=
  [mkFeedItem (Some (Some "AI")) (Some (Some "https://t.example/1")) (Some None) None
     (Some (Some "2000+")) None None
     [mkFeedNews (Some (Some "n1")) (Some (Some "https://a.example/1")) None None None;
      mkFeedNews None (Some (Some "https://a.example/2")) None None None;
      mkFeedNews (Some None) None None None None];
   mkFeedItem (Some (Some EmptyString)) None None None None None None [];
   mkFeedItem None None None None None None None [];
   mkFeedItem (Some (Some "Chips")) None (Some (Some "about chips")) None None None None []].

(** A feed that answers once and is down afterwards. *)
Definition feeds_once : nat -> Res (list FeedItem) :=
  fun n => match n with 0 => Ok sample_items | _ => Exc "ConnectionError" end.

(** A feed that is down at first and answers afterwards. *)
Definition feeds_later : nat -> Res (list FeedItem) :=
  fun n => match n with 0 => Exc "ConnectionError" | _ => Ok sample_items end.

End TrendFetcher.


(** Vocabulary for the trend fetcher *)

(** Every trend of the list has a non-empty title. *)
Definition all_titled (trends : list TrendFetcher.Trend) : Prop :=
  forall t, In t trends -> TrendFetcher.truthy_text (TrendFetcher.t_title t) = true.

(** The list is a ranking: at most ten entries, the entry at position [i]
    has the score [100 - 5 i], the source label, a title and a description. *)
Definition well_ranked (l : list TrendFetcher.Ranked) : Prop :=
  length l <= 10
  /\ forall i x, nth_error l i = Some x ->
       TrendFetcher.r_score x = (100 - 5 * Z.of_nat i)%Z
       /\ TrendFetcher.r_source x = "Google Trends"
       /\ nonempty (TrendFetcher.r_description x) = true
       /\ TrendFetcher.truthy_text (TrendFetcher.r_title x) = true.

(** The feed items that have a non-empty title *)
Definition titled_items (items : list TrendFetcher.FeedItem) : list TrendFetcher.FeedItem :=
  filter (fun item => TrendFetcher.truthy_text (TrendFetcher.text_or_blank (TrendFetcher.fi_title item)))
    items.


(** ** [tools/web_search.py] *)

Module WebSearch.

(** What the parsed page answers to the lookups of [scrape_url_content]:
    for each element looked up, [None] when [soup.find] finds none, else the
    text that [get_text] gives for it.  [class_div_text name] is the first
    [div] with a class that contains [name]; [body_text] is the body once
    the script, style, nav, header, footer and aside elements are
    decomposed. *)
Record Soup : Type := mkSoup {
  title_text : option string;
  article_text : option string;
  class_div_text : string -> option string;
  main_text : option string;
  body_text : option string
}.

Record Page : Type := mkPage {
  pg_title : string;
  pg_url : string;
  pg_content : string
}.

Definition class_names : list string :=
  ["content"; "main-content"; "article-content"; "post-content"; "entry-content"].

(** The loop over the class names, left at the first [div] found. *)
Fixpoint class_loop (soup : Soup) (names : list string) (content_text : string) : string :=
  match names with
  | [] => content_text
  | class_name :: rest =>
      match class_div_text soup class_name with
      | Some t => t
      | None => class_loop soup rest content_text
      end
  end.

(** A byte that continues a UTF-8 sequence *)
Definition is_continuation (c : ascii) : bool :=
  let n := nat_of_ascii c in (128 <=? n)%nat && (n <? 192)%nat.

(** [s[:n]], counted in code points, on well-formed UTF-8 *)
Fixpoint take_chars (n : nat) (s : string) : string :=
  match s with
  | EmptyString => EmptyString
  | String c r =>
      if is_continuation c then String c (take_chars n r)
      else match n with
           | 0 => EmptyString
           | S m => String c (take_chars m r)
           end
  end.

(** [scrape_url_content(url)]; [page] is what the request, the status check
    and the parser give. *)
Definition scrape_url_content (page : Try Soup) (url : string) : option Page :=
  match page with
  | Raises _ => None
  | Returns soup =>
      let title :=
        match title_text soup with
        | Some t => strip t
        | None => EmptyString
        end in
      let content_text :=
        match article_text soup with
        | Some t => t
        | None => EmptyString
        end in
      let content_text :=
        if nonempty content_text then content_text
        else class_loop soup class_names content_text in
      let content_text :=
        if nonempty content_text then content_text
        else match main_text soup with
             | Some t => t
             | None => content_text
             end in
      let content_text :=
        if nonempty content_text then content_text
        else match body_text soup with
             | Some t => t
             | None => content_text
             end in
      let content_text :=
        if nonempty content_text then take_chars 2000 content_text else content_text in
      let content_text :=
        if nonempty content_text then content_text else "無法提取內容" in
      Some (mkPage (if nonempty title then title else "無標題") url content_text)
  end.

(** The requests sent and the seconds slept so far *)
Record Net : Type := mkNet {
  requested : list string;
  slept : nat
}.

(** [for i, url in enumerate(urls_to_scrape, 1)]; [fetch n url] is the
    answer to the request for [url] sent after [n] others. *)
Fixpoint scrape_loop (fetch : nat -> string -> Try Soup) (urls_to_scrape : list string)
    (i total : nat) (results : list Page) (net : Net) : list Page * Net :=
  match urls_to_scrape with
  | [] => (results, net)
  | url :: rest =>
      let content := scrape_url_content (fetch (length (requested net)) url) url in
      let net := mkNet (requested net ++ [url]) (slept net) in
      let results :=
        match content with
        | Some c => results ++ [c]
        | None => results
        end in
      let net := if (i <? total)%nat then mkNet (requested net) (slept net + 1) else net in
      scrape_loop fetch rest (S i) total results net
  end.

(** [scrape_multiple_urls(urls, max_urls)], for [max_urls >= 0] *)
Definition scrape_multiple_urls (fetch : nat -> string -> Try Soup) (urls : list string)
    (max_urls : nat) (net : Net) : list Page * Net :=
  let urls_to_scrape := firstn max_urls urls in
  scrape_loop fetch urls_to_scrape 1 (length urls_to_scrape) [] net.

(** A value of a Tavily result: the key is absent, or holds [None] or text. *)
Definition Field : Type := option (option string).

Record TavilyRes : Type := mkTavilyRes {
  tr_title : Field;
  tr_url : Field;
  tr_content : Field
}.

(** [res.get(key, default)] *)
Definition get_or (v : Field) (default : string) : option string :=
  match v with
  | Some x => x
  | None => Some default
  end.

(** [res.get(key)] *)
Definition get (v : Field) : option string :=
  match v with
  | Some x => x
  | None => None
  end.

(** An entry of the list [search] returns; [sr_source] is [None] while the
    key is absent. *)
Record SearchResult : Type := mkSearchResult {
  sr_title : option string;
  sr_url : option string;
  sr_content : option string;
  sr_source : option string
}.

Definition of_page (p : Page) : SearchResult :=
  mkSearchResult (Some (pg_title p)) (Some (pg_url p)) (Some (pg_content p)) None.

Definition of_tavily (res : TavilyRes) : SearchResult :=
  mkSearchResult (get_or (tr_title res) "No Title") (get (tr_url res))
    (get_or (tr_content res) "No Content") (Some "Tavily").

(** [if 'source' not in result: result['source'] = 'Trending News'] *)
Definition mark_source (result : SearchResult) : SearchResult :=
  match sr_source result with
  | Some _ => result
  | None =>
      mkSearchResult (sr_title result) (sr_url result) (sr_content result)
        (Some "Trending News")
  end.

(** [search(query, max_results, trend_urls)]; [client_search] is
    [self.client.search(...)] followed by [.get('results', [])]. *)
Definition search (fetch : nat -> string -> Try Soup) (tavily_enabled : bool)
    (client_search : string -> nat -> Try (list TavilyRes))
    (query : string) (max_results : nat) (trend_urls : option (list string)) (net : Net)
  : list SearchResult * Net :=
  let all_results : list SearchResult := [] in
  let '(all_results, net) :=
    match trend_urls with
    | Some ((_ :: _) as urls) =>
        let '(trend_results, net) := scrape_multiple_urls fetch urls 3 net in
        (all_results ++ map of_page trend_results, net)
    | _ => (all_results, net)
    end in
  let all_results :=
    if tavily_enabled then
      match client_search query max_results with
      | Returns results => all_results ++ map of_tavily results
      | Raises _ => all_results
      end
    else all_results in
  (map mark_source all_results, net).

(** Number of code points of well-formed UTF-8 text *)
Fixpoint chars (s : string) : nat :=
  match s with
  | EmptyString => 0
  | String c r => if is_continuation c then chars r else S (chars r)
  end.

(** A page with an empty article and two class divs, the first of them empty *)
Definition soup_empty_div : Soup :=
  mkSoup (Some "  News  ") (Some EmptyString)
    (fun name =>
       if String.eqb name "content" then Some EmptyString
       else if String.eqb name "post-content" then Some "the post"
       else None)
    None (Some "the body").

(** The same page with the second class div holding another text *)
Definition soup_empty_div' : Soup :=
  mkSoup (Some "  News  ") (Some EmptyString)
    (fun name =>
       if String.eqb name "content" then Some EmptyString
       else if String.eqb name "post-content" then Some "another post"
       else None)
    None (Some "the body").

(** A site where the second request fails *)
Definition fetch_second_fails : nat -> string -> Try Soup :=
  fun n _ =>
    match n with
    | 1 => Raises "Timeout"
    | _ => Returns soup_empty_div
    end.

Definition four_urls : list string :=
  ["https://a.example/1"; "https://a.example/2"; "https://a.example/3";
   "https://a.example/4"].

Definition tavily_two : string -> nat -> Try (list TavilyRes) :=
  fun _ _ =>
    Returns [mkTavilyRes (Some (Some "T1")) (Some (Some "https://t.example/1")) None;
             mkTavilyRes None None (Some None)].

End WebSearch.

(** Vocabulary for the web search *)

(** The two pages answer alike to every lookup before the class divs, and
    to the class names up to and including [name], where a div is found. *)
Definition same_up_to_div (soup soup' : WebSearch.Soup) (name : string) : Prop :=
  WebSearch.title_text soup = WebSearch.title_text soup'
  /\ WebSearch.article_text soup = WebSearch.article_text soup'
  /\ WebSearch.main_text soup = WebSearch.main_text soup'
  /\ WebSearch.body_text soup = WebSearch.body_text soup'
  /\ exists before after t,
       WebSearch.class_names = before ++ name :: after
       /\ (forall n, In n before ->
             WebSearch.class_div_text soup n = None
             /\ WebSearch.class_div_text soup' n = None)
       /\ WebSearch.class_div_text soup name = Some t
       /\ WebSearch.class_div_text soup' name = Some t.

(** [trend_urls] read as a list: [None] counts as the empty list. *)
Definition urls_of (trend_urls : option (list string)) : list string :=
  match trend_urls with
  | Some urls => urls
  | None => []
  end.

(** Every request for a page is answered with a page. *)
Definition always_answers (fetch : nat -> string -> Try WebSearch.Soup) : Prop :=
  forall n url, exists soup, fetch n url = Returns soup.

(** * Properties *)

(** ** Reasoning about the monad *)

Section MonadFacts.

Context {A B : Type}.

Lemma bind_ok (m : M A) (k : A -> M B) (w w1 : World) (a : A) :
  m w = (Ok a, w1) -> bind m k w = k a w1.
Proof. unfold bind; intros ->; reflexivity. Qed.

Lemma bind_exc (m : M A) (k : A -> M B) (w w1 : World) (e : string) :
  m w = (Exc e, w1) -> bind m k w = (Exc e, w1).
Proof. unfold bind; intros ->; reflexivity. Qed.

Lemma bind_hang (m : M A) (k : A -> M B) (w w1 : World) :
  m w = (Hang, w1) -> bind m k w = (Hang, w1).
Proof. unfold bind; intros ->; reflexivity. Qed.

Lemma bind_ok_inv (m : M A) (k : A -> M B) (w w' : World) (b : B) :
  bind m k w = (Ok b, w') ->
  exists a w1, m w = (Ok a, w1) /\ k a w1 = (Ok b, w').
Proof.
  unfold bind; destruct (m w) as [[a | e | | x] w1]; intros H; try discriminate.
  exists a, w1; split; [reflexivity | exact H].
Qed.

Lemma bind_exit (m : M A) (k : A -> M B) (w w1 : World) (e : string) :
  m w = (Exit e, w1) -> bind m k w = (Exit e, w1).
Proof. unfold bind; intros ->; reflexivity. Qed.

Lemma try_catch_ok (m : M A) (h : string -> M A) (w w1 : World) (a : A) :
  m w = (Ok a, w1) -> try_catch m h w = (Ok a, w1).
Proof. unfold try_catch; intros ->; reflexivity. Qed.

Lemma try_catch_exc (m : M A) (h : string -> M A) (w w1 : World) (e : string) :
  m w = (Exc e, w1) -> try_catch m h w = h e w1.
Proof. unfold try_catch; intros ->; reflexivity. Qed.

Lemma try_catch_hang (m : M A) (h : string -> M A) (w w1 : World) :
  m w = (Hang, w1) -> try_catch m h w = (Hang, w1).
Proof. unfold try_catch; intros ->; reflexivity. Qed.

Lemma try_catch_exit (m : M A) (h : string -> M A) (w w1 : World) (e : string) :
  m w = (Exit e, w1) -> try_catch m h w = (Exit e, w1).
Proof. unfold try_catch; intros ->; reflexivity. Qed.

End MonadFacts.


Lemma notify_returns (cb : option Callback) (msg : string) (w : World) :
  callback_returns cb ->
  exists w', notify cb msg w = (Ok tt, w')
             /\ fetch_log w' = fetch_log w /\ llm_log w' = llm_log w
             /\ exec_log w' = exec_log w.
Proof.
  intros Hcb; destruct cb as [f |]; simpl.
  - rewrite (Hcb f eq_refl). eexists; repeat split.
  - eexists; repeat split.
Qed.

(** Whatever the callback does, a notification touches the progress log only
    and never blocks. *)
Lemma notify_frame (cb : option Callback) (msg : string) (w : World) :
  fst (notify cb msg w) <> Hang
  /\ fetch_log (snd (notify cb msg w)) = fetch_log w
  /\ llm_log (snd (notify cb msg w)) = llm_log w
  /\ exec_log (snd (notify cb msg w)) = exec_log w.
Proof.
  destruct cb as [f |]; simpl.
  - destruct (f (progress_log w) msg); simpl; repeat split; discriminate.
  - repeat split; discriminate.
Qed.

(** ** The structure probe *)

Lemma collect_selectors_filter (page : Page) (candidates acc : list string) :
  collect_selectors page candidates acc = acc ++ filter (page_select page) candidates.
Proof.
  revert acc; induction candidates as [| c rest IH]; intros acc; simpl.
  - now rewrite app_nil_r.
  - rewrite IH; destruct (page_select page c); [now rewrite <- app_assoc | reflexivity].
Qed.

Lemma nonempty_list_firstn {A : Type} (n : nat) (l : list A) :
  nonempty_list (firstn (S n) l) = nonempty_list l.
Proof. destruct l; reflexivity. Qed.

Lemma analyze_website_structure_ok (env : Env) (url : string) (w : World) :
  exists ws, analyze_website_structure env url w = (Ok ws, log_fetch url w)
             /\ ws_url ws = url.
Proof.
  unfold analyze_website_structure, try_catch, bind, http_get, of_try, ret.
  destruct (requests_get env url) as [page | e]; [| eexists; split; reflexivity].
  destruct (urlparse_netloc env url) as [domain | e]; eexists; split; reflexivity.
Qed.

Lemma analyze_website_structure_fetch_fault (env : Env) (url e : string) (w : World) :
  requests_get env url = Raises e ->
  analyze_website_structure env url w = (Ok (degraded_structure url e), log_fetch url w).
Proof.
  intros H; unfold analyze_website_structure, try_catch, bind, http_get, of_try, ret.
  now rewrite H.
Qed.

Lemma analyze_website_structure_parse_fault (env : Env) (url e : string) (page : Page)
    (w : World) :
  requests_get env url = Returns page ->
  urlparse_netloc env url = Raises e ->
  analyze_website_structure env url w = (Ok (degraded_structure url e), log_fetch url w).
Proof.
  intros H1 H2; unfold analyze_website_structure, try_catch, bind, http_get, of_try, ret.
  now rewrite H1, H2.
Qed.

Lemma analyze_one_ok (env : Env) (url : string) (w : World) :
  exists ws, analyze_one env url w = (Ok (mkAnalysis url (Some ws) true None), log_fetch url w)
             /\ analyze_website_structure env url w = (Ok ws, log_fetch url w)
             /\ ws_url ws = url.
Proof.
  destruct (analyze_website_structure_ok env url w) as (ws & H & Hu).
  exists ws; repeat split; try assumption.
  unfold analyze_one. erewrite try_catch_ok; [reflexivity |].
  erewrite bind_ok by exact H. reflexivity.
Qed.

Lemma analyze_website_structure_world (env : Env) (url : string) (w1 w2 : World) :
  fst (analyze_website_structure env url w1) = fst (analyze_website_structure env url w2).
Proof.
  destruct (analyze_website_structure_ok env url w1) as (ws1 & H1 & _).
  destruct (analyze_website_structure_ok env url w2) as (ws2 & H2 & _).
  revert H1 H2.
  unfold analyze_website_structure, try_catch, bind, http_get, of_try, ret.
  destruct (requests_get env url) as [page | e]; [| intros; reflexivity].
  destruct (urlparse_netloc env url) as [domain | e]; intros; reflexivity.
Qed.

Lemma fingerprint_of_probed (env : Env) (url : string) (a : Analysis) :
  fingerprint_of env url a -> wa_url a = url /\ probed a.
Proof.
  intros (ws & _ & Hu & ->); split; [reflexivity |].
  split; [reflexivity |]. exists ws; split; [reflexivity | exact Hu].
Qed.

Lemma analyze_loop_ok (env : Env) (urls : list string) (acc : list Analysis) (w : World) :
  exists l, analyze_loop env urls acc w
            = (Ok (acc ++ l),
               mkWorld (fetch_log w ++ urls) (llm_log w) (exec_log w) (progress_log w))
            /\ Forall2 (fingerprint_of env) urls l.
Proof.
  revert acc w; induction urls as [| url rest IH]; intros acc w; simpl.
  - exists []; rewrite !app_nil_r; destruct w; split; constructor.
  - destruct (analyze_one_ok env url w) as (ws & H & Hs & Hu).
    erewrite bind_ok by exact H.
    destruct (IH (acc ++ [mkAnalysis url (Some ws) true None]) (log_fetch url w))
      as (l & Hl & Hf).
    exists (mkAnalysis url (Some ws) true None :: l).
    rewrite Hl; simpl; rewrite <- !app_assoc; simpl.
    split; [reflexivity |].
    constructor; [| exact Hf].
    exists ws; repeat split; [| exact Hu].
    rewrite (analyze_website_structure_world env url empty_world w), Hs; reflexivity.
Qed.

Lemma Forall2_fingerprint_urls (env : Env) (urls : list string) (l : list Analysis) :
  Forall2 (fingerprint_of env) urls l -> map wa_url l = urls /\ Forall probed l.
Proof.
  induction 1 as [| url a urls l Ha _ [IHm IHp]]; [split; constructor |].
  destruct (fingerprint_of_probed env url a Ha) as [Hu Hp].
  simpl; rewrite Hu, IHm; split; [reflexivity | constructor; assumption].
Qed.

Lemma analyze_website_structure_page (env : Env) (url domain : string) (page : Page)
    (w : World) :
  requests_get env url = Returns page ->
  urlparse_netloc env url = Returns domain ->
  let kept := fun candidates => filter (page_select page) candidates in
  analyze_website_structure env url w
  = (Ok (mkWebsiteStructure url
           match page_title page with
           | Some t => strip t
           | None => "No title found"
           end
           (firstn 3 (kept main_content_candidates)) (firstn 5 (kept text_candidates))
           (firstn 3 (kept image_candidates)) (firstn 3 (kept link_candidates))
           (MetaPage domain (page_has_json_ld page) (page_has_meta_description page)
              (page_lang page) (page_total_elements page) (page_has_structured_data page))
           (if page_has_json_ld page then "json-ld"
            else if nonempty_list (kept main_content_candidates) then "content-selector"
            else if nonempty_list (kept text_candidates) then "text-extraction"
            else "general-scraping")),
     log_fetch url w).
Proof.
  intros H1 H2 kept.
  unfold analyze_website_structure, try_catch, bind, http_get, of_try, ret.
  rewrite H1, H2, !collect_selectors_filter. reflexivity.
Qed.

(** ** C4 and C7: what the probe returns *)

(** C4. [analyze_website_structure] never raises: for every URL it returns a
    structure for that URL; when the fetch (or the parsing of the URL) raises
    [e], the structure is the degraded one: strategy general-scraping, the
    default selectors, and [e] kept in [meta_info]; and the list node 1
    builds holds, at each position, a record with the probe's answer for the
    URL at that position. *)
Theorem analyze_website_structure_degrades (env : Env) (url : string) (w : World) :
  (exists ws, analyze_website_structure env url w = (Ok ws, log_fetch url w)
              /\ ws_url ws = url)
  /\ (forall e,
        requests_get env url = Raises e
        \/ (exists page, requests_get env url = Returns page
                         /\ urlparse_netloc env url = Raises e) ->
        exists ws, fst (analyze_website_structure env url w) = Ok ws
                   /\ ws_url ws = url
                   /\ suggested_approach ws = "general-scraping"
                   /\ main_content_selectors ws = []
                   /\ text_selectors ws = ["p"; "h1"; "h2"; "h3"]
                   /\ image_selectors ws = ["img"]
                   /\ link_selectors ws = ["a"]
                   /\ meta_info ws = MetaError e)
  /\ (forall urls,
        exists l, fst (analyze_loop env urls [] w) = Ok l
                  /\ Forall2 (fun u a =>
                                wa_url a = u
                                /\ exists ws, wa_structure a = Some ws
                                              /\ fst (analyze_website_structure env u w) = Ok ws)
                       urls l).
Proof.
  split; [apply analyze_website_structure_ok |].
  split.
  - intros e [H | (page & H1 & H2)]; exists (degraded_structure url e).
    + rewrite (analyze_website_structure_fetch_fault env url e w H).
      repeat split.
    + rewrite (analyze_website_structure_parse_fault env url e page w H1 H2).
      repeat split.
  - intros urls. destruct (analyze_loop_ok env urls [] w) as (l & Hl & Hf).
    exists l; rewrite Hl; split; [reflexivity |].
    clear Hl; induction Hf as [| u a urls l (ws & Hws & Hu & ->) _ IH]; constructor.
    + split; [reflexivity |]. exists ws; split; [reflexivity |].
      now rewrite (analyze_website_structure_world env u w empty_world).
    + exact IH.
Qed.

Lemma analyze_website_structure_degrades_witness :
  requests_get Demo.env "https://down.example" = Raises "ConnectionError"
  /\ exists ws,
       fst (analyze_website_structure Demo.env "https://down.example" empty_world) = Ok ws
       /\ ws_url ws = "https://down.example"
       /\ suggested_approach ws = "general-scraping"
       /\ main_content_selectors ws = []
       /\ text_selectors ws = ["p"; "h1"; "h2"; "h3"]
       /\ image_selectors ws = ["img"]
       /\ link_selectors ws = ["a"]
       /\ meta_info ws = MetaError "ConnectionError".
Proof.
  split; [reflexivity |].
  apply (proj1 (proj2 (analyze_website_structure_degrades
                         Demo.env "https://down.example" empty_world))).
  left; reflexivity.
Defined.

(** C7. On a page that was fetched and parsed, the probe keeps, per role, the
    first 3 (5 for text) candidates that match, in candidate order, and picks
    the strategy by priority: json-ld when a structured-data script block is
    there, else content-selector when a main-content selector was kept, else
    text-extraction when a text selector was kept, else general-scraping. *)
Theorem strategy_priority_and_caps (env : Env) (url domain : string) (page : Page)
    (w : World) :
  requests_get env url = Returns page ->
  urlparse_netloc env url = Returns domain ->
  exists ws,
    fst (analyze_website_structure env url w) = Ok ws
    /\ main_content_selectors ws
       = firstn 3 (filter (page_select page) main_content_candidates)
    /\ text_selectors ws = firstn 5 (filter (page_select page) text_candidates)
    /\ image_selectors ws = firstn 3 (filter (page_select page) image_candidates)
    /\ link_selectors ws = firstn 3 (filter (page_select page) link_candidates)
    /\ length (main_content_selectors ws) <= 3
    /\ length (text_selectors ws) <= 5
    /\ length (image_selectors ws) <= 3
    /\ length (link_selectors ws) <= 3
    /\ suggested_approach ws
       = (if page_has_json_ld page then "json-ld"
          else if nonempty_list (main_content_selectors ws) then "content-selector"
          else if nonempty_list (text_selectors ws) then "text-extraction"
          else "general-scraping").
Proof.
  intros H1 H2.
  rewrite (analyze_website_structure_page env url domain page w H1 H2).
  eexists; split; [reflexivity |]. cbn [main_content_selectors text_selectors
    image_selectors link_selectors suggested_approach].
  repeat split; try apply firstn_le_length.
  now rewrite !nonempty_list_firstn.
Qed.

Lemma strategy_priority_and_caps_witness :
  exists ws,
    fst (analyze_website_structure Demo.env "https://a.example/1" empty_world) = Ok ws
    /\ main_content_selectors ws = ["article"; ".content"; "#content"]
    /\ text_selectors ws = ["p"; "h1"; "h2"; "h3"; ".text"]
    /\ suggested_approach ws = "content-selector".
Proof.
  destruct (strategy_priority_and_caps Demo.env "https://a.example/1" "news.example"
              Demo.page empty_world eq_refl eq_refl)
    as (ws & H & Hm & Ht & _ & _ & _ & _ & _ & _ & Ha).
  exists ws; split; [exact H |].
  split; [exact Hm |]. split; [exact Ht |].
  rewrite Ha, Hm, Ht; reflexivity.
Defined.

(** ** Node 2 *)

Lemma generate_one_skipped (env : Env) (a : Analysis) (w : World) :
  analysis_success a = false ->
  generate_one env a w
  = (Ok (mkScrapingCode (wa_url a) None false
           (Some (get_default (wa_error a) "Unknown error")) None), w).
Proof. intros H; unfold generate_one; rewrite H; reflexivity. Qed.

Lemma generate_one_attempted (env : Env) (a : Analysis) (ws : WebsiteStructure) (w : World) :
  analysis_success a = true ->
  wa_structure a = Some ws ->
  exists c, generate_one env a w
            = (Ok c, log_llm (code_agent_prompt (analysis_text_of env ws))
                       (code_request ws) w)
            /\ (sc_url c = ws_url ws \/ sc_url c = wa_url a).
Proof.
  intros Hs Hw; unfold generate_one, try_catch, bind, llm_call, ret.
  rewrite Hs, Hw; simpl.
  destruct (llm_invoke env (llm_log w) _ _) as [content | e];
    eexists; (split; [reflexivity |]); simpl; auto.
Qed.

Lemma generate_loop_ok (env : Env) (l : list Analysis) (acc : list ScrapingCode)
    (w : World) :
  Forall well_formed l ->
  exists cs calls,
    generate_loop env l acc w
    = (Ok (acc ++ cs),
       mkWorld (fetch_log w) (llm_log w ++ calls) (exec_log w) (progress_log w))
    /\ length calls = length (filter analysis_success l)
    /\ Forall2 code_for l cs.
Proof.
  intros Hwf; revert acc w; induction Hwf as [| a l Ha _ IH]; intros acc w; simpl.
  - exists [], []; rewrite !app_nil_r; destruct w; repeat split; constructor.
  - destruct (analysis_success a) eqn:Hs.
    + destruct (Ha Hs) as (ws & Hw).
      destruct (generate_one_attempted env a ws w Hs Hw) as (c & Hc & Hu).
      erewrite bind_ok by exact Hc.
      destruct (IH (acc ++ [c]) (log_llm (code_agent_prompt (analysis_text_of env ws))
                                   (code_request ws) w))
        as (cs & calls & Hl & Hn & Hf).
      exists (c :: cs), ((code_agent_prompt (analysis_text_of env ws),
                          code_request ws) :: calls).
      rewrite Hl; simpl; rewrite <- !app_assoc; simpl.
      repeat split; [now rewrite Hn | constructor; [| exact Hf]].
      split; [congruence |].
      intros ws' _ Hw'; rewrite Hw in Hw'; injection Hw' as <-; exact Hu.
    + rewrite (bind_ok _ _ _ _ _ (generate_one_skipped env a w Hs)).
      destruct (IH (acc ++ [mkScrapingCode (wa_url a) None false
                              (Some (get_default (wa_error a) "Unknown error")) None]) w)
        as (cs & calls & Hl & Hn & Hf).
      eexists (_ :: cs), calls.
      rewrite Hl; simpl; rewrite <- !app_assoc; simpl.
      repeat split; [exact Hn | constructor; [| exact Hf]].
      split; [intros _; repeat split | congruence].
Qed.

Lemma generate_one_unstructured (env : Env) (a : Analysis) (w : World) :
  analysis_success a = true ->
  wa_structure a = None ->
  generate_one env a w
  = (Ok (mkScrapingCode (wa_url a) None false
           (Some "'NoneType' object has no attribute 'url'") None), w).
Proof.
  intros Hs Hw; unfold generate_one, try_catch, bind, of_try, ret.
  rewrite Hs, Hw; reflexivity.
Qed.

(** The synthesis loop on any list: one backend call per record that is
    flagged and holds a structure. *)
Lemma generate_loop_attempts (env : Env) (l : list Analysis) (acc : list ScrapingCode)
    (w : World) :
  exists cs calls,
    generate_loop env l acc w
    = (Ok (acc ++ cs),
       mkWorld (fetch_log w) (llm_log w ++ calls) (exec_log w) (progress_log w))
    /\ length calls = length (filter attempted l)
    /\ Forall2 code_for l cs.
Proof.
  revert acc w; induction l as [| a l IH]; intros acc w; simpl.
  - exists [], []; rewrite !app_nil_r; destruct w; repeat split; constructor.
  - unfold attempted at 1. destruct (analysis_success a) eqn:Hs; simpl.
    + destruct (wa_structure a) as [ws |] eqn:Hw.
      * destruct (generate_one_attempted env a ws w Hs Hw) as (c & Hc & Hu).
        erewrite bind_ok by exact Hc.
        destruct (IH (acc ++ [c]) (log_llm (code_agent_prompt (analysis_text_of env ws))
                                     (code_request ws) w))
          as (cs & calls & Hl & Hn & Hf).
        exists (c :: cs), ((code_agent_prompt (analysis_text_of env ws),
                            code_request ws) :: calls).
        rewrite Hl; simpl; rewrite <- !app_assoc; simpl.
        repeat split; [now rewrite Hn | constructor; [| exact Hf]].
        split; [congruence |].
        intros ws' _ Hw'; assert (ws' = ws) as -> by congruence; exact Hu.
      * rewrite (bind_ok _ _ _ _ _ (generate_one_unstructured env a w Hs Hw)).
        destruct (IH (acc ++ [mkScrapingCode (wa_url a) None false
                                (Some "'NoneType' object has no attribute 'url'") None]) w)
          as (cs & calls & Hl & Hn & Hf).
        eexists (_ :: cs), calls.
        rewrite Hl; simpl; rewrite <- !app_assoc; simpl.
        repeat split; [exact Hn | constructor; [| exact Hf]].
        split; [congruence | intros ws' _ Hw'; congruence].
    + rewrite (bind_ok _ _ _ _ _ (generate_one_skipped env a w Hs)).
      destruct (IH (acc ++ [mkScrapingCode (wa_url a) None false
                              (Some (get_default (wa_error a) "Unknown error")) None]) w)
        as (cs & calls & Hl & Hn & Hf).
      eexists (_ :: cs), calls.
      rewrite Hl; simpl; rewrite <- !app_assoc; simpl.
      repeat split; [exact Hn | constructor; [| exact Hf]].
      split; [intros _; repeat split | congruence].
Qed.

Lemma attempted_well_formed (l : list Analysis) :
  Forall well_formed l -> filter attempted l = filter analysis_success l.
Proof.
  induction 1 as [| a l Ha _ IH]; simpl; [reflexivity |].
  unfold attempted at 1. destruct (analysis_success a) eqn:Hs; simpl; [| exact IH].
  destruct (Ha Hs) as (ws & ->). now rewrite IH.
Qed.

Lemma probed_well_formed (a : Analysis) : probed a -> well_formed a.
Proof. intros (_ & ws & Hw & _) _; exists ws; exact Hw. Qed.

Lemma filter_all_true {A : Type} (f : A -> bool) (l : list A) :
  Forall (fun a => f a = true) l -> filter f l = l.
Proof.
  induction 1 as [| a l Ha _ IH]; simpl; [reflexivity |].
  now rewrite Ha, IH.
Qed.

Lemma code_for_probed_urls (l : list Analysis) (cs : list ScrapingCode) :
  Forall probed l -> Forall2 code_for l cs -> map sc_url cs = map wa_url l.
Proof.
  intros Hp Hf; induction Hf as [| a c l cs [_ Hc] _ IH]; [reflexivity |].
  inversion Hp as [| ? ? (Hs & ws & Hw & Hu) Hp']; subst.
  simpl; rewrite (IH Hp'); f_equal.
  destruct (Hc ws Hs Hw) as [H | H]; congruence.
Qed.

(** Reading a field of an updated state. *)
Ltac fields :=
  unfold set_website_analyses, set_scraping_codes, set_scraped_data, set_summary,
    set_video_script, set_social_media, initial_state_of in *;
  cbn [topic trend_urls website_analyses scraping_codes scraped_data summary
       video_script social_media progress_callback error_messages] in *.

(** ** Nodes as a notification followed by a body *)

Lemma same_calls_refl (w : World) : same_calls w w.
Proof. repeat split. Qed.

Lemma same_calls_trans (w1 w2 w3 : World) :
  same_calls w1 w2 -> same_calls w2 w3 -> same_calls w1 w3.
Proof. intros (? & ? & ?) (? & ? & ?); repeat split; congruence. Qed.

Lemma notified_cases {A : Type} (cb : option Callback) (msg : string) (body : M A)
    (w : World) :
  (exists w0, same_calls w w0 /\ (notify cb msg ;;; body) w = body w0)
  \/ (exists e w0, same_calls w w0 /\ (notify cb msg ;;; body) w = (Exc e, w0)
                   /\ ~ callback_returns cb).
Proof.
  unfold bind; destruct cb as [f |]; simpl.
  - destruct (f (progress_log w) msg) as [[] | e] eqn:Hf.
    + left; exists (log_progress msg w); split; [repeat split | reflexivity].
    + right; exists e, (log_progress msg w); split; [repeat split |].
      split; [reflexivity |].
      intros Hcb; rewrite (Hcb f eq_refl) in Hf; discriminate.
  - left; exists w; split; [apply same_calls_refl | reflexivity].
Qed.

Lemma notified_ok_inv {A : Type} (cb : option Callback) (msg : string) (body : M A)
    (w w' : World) (a : A) :
  (notify cb msg ;;; body) w = (Ok a, w') ->
  exists w0, same_calls w w0 /\ body w0 = (Ok a, w').
Proof.
  destruct (notified_cases cb msg body w) as [(w0 & Hs & ->) | (e & w0 & _ & -> & _)].
  - intros H; exists w0; split; assumption.
  - discriminate.
Qed.

Lemma notified_total {A : Type} (cb : option Callback) (msg : string) (body : M A)
    (w : World) :
  callback_returns cb ->
  exists w0, same_calls w w0 /\ (notify cb msg ;;; body) w = body w0.
Proof.
  intros Hcb.
  destruct (notified_cases cb msg body w) as [H | (e & w0 & _ & _ & Hn)];
    [exact H | contradiction].
Qed.

(** [llm = get_llm()] in front of the body of a node *)
Lemma with_llm_ok_inv {A : Type} (env : Env) (body : M A) (w w' : World) (a : A) :
  (of_try (get_llm env) ;;; body) w = (Ok a, w') ->
  llm_available env /\ body w = (Ok a, w').
Proof.
  unfold bind, of_try, llm_available.
  destruct (get_llm env) as [[] | e]; intros H; [| discriminate].
  split; [reflexivity | exact H].
Qed.

Lemma llm_cases (env : Env) : llm_available env \/ exists e, get_llm env = Raises e.
Proof. unfold llm_available; destruct (get_llm env) as [[] | e]; eauto. Qed.

Lemma with_llm_ready {A : Type} (env : Env) (body : M A) (w : World) :
  llm_available env -> (of_try (get_llm env) ;;; body) w = body w.
Proof. unfold bind, of_try, llm_available; intros ->; reflexivity. Qed.

Lemma with_llm_down {A : Type} (env : Env) (body : M A) (w : World) (e : string) :
  get_llm env = Raises e -> (of_try (get_llm env) ;;; body) w = (Exc e, w).
Proof. unfold bind, of_try; intros ->; reflexivity. Qed.

Lemma Forall2_nth_error_l {A B : Type} (R : A -> B -> Prop) (l : list A) (l' : list B)
    (i : nat) (a : A) :
  Forall2 R l l' -> nth_error l i = Some a ->
  exists b, nth_error l' i = Some b /\ R a b.
Proof.
  intros H; revert i; induction H as [| x y l l' Hxy _ IH]; intros [| i] Hi;
    simpl in *; try discriminate.
  - injection Hi as <-; exists y; split; [reflexivity | exact Hxy].
  - apply IH; exact Hi.
Qed.

(** ** Node 1 and node 2 as wholes *)

Lemma analyze_urls_node_ok (env : Env) (st st' : WorkflowState) (w w' : World) :
  analyze_urls_node env st w = (Ok st', w') ->
  exists l, st' = set_website_analyses l st
            /\ Forall2 (fingerprint_of env) (firstn 3 (trend_urls st)) l
            /\ fetch_log w' = fetch_log w ++ firstn 3 (trend_urls st)
            /\ llm_log w' = llm_log w /\ exec_log w' = exec_log w.
Proof.
  intros H; apply notified_ok_inv in H; destruct H as (w0 & (Hf & Hl & He) & H).
  destruct (analyze_loop_ok env (firstn 3 (trend_urls st)) [] w0) as (l & Hloop & HF).
  rewrite (bind_ok _ _ _ _ _ Hloop) in H; unfold ret in H.
  injection H as <- <-; exists l; simpl; rewrite Hf.
  repeat split; assumption.
Qed.

Lemma analyze_urls_node_total (env : Env) (st : WorkflowState) (w : World) :
  callback_returns (progress_callback st) ->
  exists st' w', analyze_urls_node env st w = (Ok st', w').
Proof.
  intros Hcb; unfold analyze_urls_node.
  destruct (notified_total _ "🔍 正在分析趨勢網站結構..."
              (analyses <- analyze_loop env (firstn 3 (trend_urls st)) [] ;;
               ret (set_website_analyses analyses st)) w Hcb) as (w0 & _ & ->).
  destruct (analyze_loop_ok env (firstn 3 (trend_urls st)) [] w0) as (l & Hloop & _).
  rewrite (bind_ok _ _ _ _ _ Hloop); unfold ret; eauto.
Qed.

Lemma generate_node_ok (env : Env) (st st' : WorkflowState) (w w' : World) :
  Forall well_formed (website_analyses st) ->
  generate_scraping_code_node env st w = (Ok st', w') ->
  exists cs calls,
    st' = set_scraping_codes cs st
    /\ Forall2 code_for (website_analyses st) cs
    /\ llm_log w' = llm_log w ++ calls
    /\ length calls = length (filter analysis_success (website_analyses st))
    /\ fetch_log w' = fetch_log w /\ exec_log w' = exec_log w.
Proof.
  intros Hwf H; apply notified_ok_inv in H; destruct H as (w0 & (Hf & Hl & He) & H).
  apply with_llm_ok_inv in H; destruct H as [_ H].
  destruct (generate_loop_ok env (website_analyses st) [] w0 Hwf)
    as (cs & calls & Hloop & Hn & HF).
  rewrite (bind_ok _ _ _ _ _ Hloop) in H; unfold ret in H.
  injection H as <- <-; exists cs, calls; simpl; rewrite Hf, Hl, He.
  repeat split; assumption.
Qed.

Lemma generate_node_total (env : Env) (st : WorkflowState) (w : World) :
  Forall well_formed (website_analyses st) ->
  callback_returns (progress_callback st) ->
  llm_available env ->
  exists st' w', generate_scraping_code_node env st w = (Ok st', w').
Proof.
  intros Hwf Hcb Hllm; unfold generate_scraping_code_node.
  match goal with
  | |- context [bind (notify ?cb ?msg) (fun _ => ?body)] =>
      destruct (notified_total cb msg body w Hcb) as (w0 & _ & ->)
  end.
  rewrite (with_llm_ready _ _ _ Hllm).
  destruct (generate_loop_ok env (website_analyses st) [] w0 Hwf)
    as (cs & calls & Hloop & _).
  rewrite (bind_ok _ _ _ _ _ Hloop); unfold ret; eauto.
Qed.

Lemma generate_node_attempts (env : Env) (st st' : WorkflowState) (w w' : World) :
  generate_scraping_code_node env st w = (Ok st', w') ->
  exists cs calls,
    st' = set_scraping_codes cs st
    /\ Forall2 code_for (website_analyses st) cs
    /\ llm_log w' = llm_log w ++ calls
    /\ length calls = length (filter attempted (website_analyses st)).
Proof.
  intros H; apply notified_ok_inv in H; destruct H as (w0 & (Hf & Hl & He) & H).
  apply with_llm_ok_inv in H; destruct H as [_ H].
  destruct (generate_loop_attempts env (website_analyses st) [] w0)
    as (cs & calls & Hloop & Hn & HF).
  rewrite (bind_ok _ _ _ _ _ Hloop) in H; unfold ret in H.
  injection H as <- <-; exists cs, calls; simpl; rewrite Hl.
  repeat split; assumption.
Qed.

Lemma generate_node_completes (env : Env) (st : WorkflowState) (w : World) :
  callback_returns (progress_callback st) ->
  llm_available env ->
  exists st' w', generate_scraping_code_node env st w = (Ok st', w').
Proof.
  intros Hcb Hllm; unfold generate_scraping_code_node.
  match goal with
  | |- context [bind (notify ?cb ?msg) (fun _ => ?body)] =>
      destruct (notified_total cb msg body w Hcb) as (w0 & _ & ->)
  end.
  rewrite (with_llm_ready _ _ _ Hllm).
  destruct (generate_loop_attempts env (website_analyses st) [] w0)
    as (cs & calls & Hloop & _).
  rewrite (bind_ok _ _ _ _ _ Hloop); unfold ret; eauto.
Qed.

(** A synthesis stage that raises has called the backend for no item. *)
Lemma generate_node_stopped (env : Env) (st : WorkflowState) (w : World) (e : string) :
  fst (generate_scraping_code_node env st w) = Exc e ->
  llm_log (snd (generate_scraping_code_node env st w)) = llm_log w.
Proof.
  unfold generate_scraping_code_node.
  match goal with
  | |- context [bind (notify ?cb ?msg) (fun _ => ?body)] =>
      destruct (notified_cases cb msg body w)
        as [(w0 & (_ & Hl & _) & ->) | (e' & w0 & (_ & Hl & _) & -> & _)]
  end; [| intros _; exact Hl].
  destruct (llm_cases env) as [Hllm | (e' & Hllm)].
  - rewrite (with_llm_ready _ _ _ Hllm).
    destruct (generate_loop_attempts env (website_analyses st) [] w0)
      as (cs & calls & Hloop & _).
    rewrite (bind_ok _ _ _ _ _ Hloop); unfold ret; simpl; discriminate.
  - rewrite (with_llm_down _ _ _ _ Hllm); intros _; exact Hl.
Qed.

(** ** C3 and C10: when the generation backend is called *)

(** C3, as the code has it.  Whenever the synthesis stage completes, a
    record whose analysis is flagged as failed gets, at the same index, a
    program record with [generation_success] false and no code, and the item
    makes no backend call; the number of backend calls of the stage is the
    number of records that are flagged as successfully analysed and hold a
    structure, which on a list as the analysis stage builds it is every
    flagged record.  The stage completes when the callback returns and the
    backend client can be built; when the stage raises instead, it has made no
    backend call. *)
Theorem short_circuit_on_failed_analysis (env : Env) (st : WorkflowState) (w : World) :
  (forall st' w',
     generate_scraping_code_node env st w = (Ok st', w') ->
     (exists calls,
        llm_log w' = llm_log w ++ calls
        /\ length calls = length (filter attempted (website_analyses st)))
     /\ length (scraping_codes st') = length (website_analyses st)
     /\ forall i a,
          nth_error (website_analyses st) i = Some a ->
          analysis_success a = false ->
          (exists c, nth_error (scraping_codes st') i = Some c
                     /\ generation_success c = false /\ sc_code c = None
                     /\ sc_url c = wa_url a)
          /\ forall w0, snd (generate_one env a w0) = w0)
  /\ (Forall well_formed (website_analyses st) ->
      filter attempted (website_analyses st)
      = filter analysis_success (website_analyses st))
  /\ (callback_returns (progress_callback st) -> llm_available env ->
      exists st' w', generate_scraping_code_node env st w = (Ok st', w'))
  /\ (forall e,
        fst (generate_scraping_code_node env st w) = Exc e ->
        llm_log (snd (generate_scraping_code_node env st w)) = llm_log w).
Proof.
  split; [| split; [apply attempted_well_formed | split]].
  - intros st' w' H.
    destruct (generate_node_attempts env st st' w w' H) as (cs & calls & -> & HF & Hl & Hn).
    split; [exists calls; split; assumption |].
    split; [simpl; symmetry; eapply Forall2_length; exact HF |].
    intros i a Hi Hs; split.
    + destruct (Forall2_nth_error_l _ _ _ _ _ HF Hi) as (c & Hc & Hcode & _).
      exists c; split; [exact Hc | apply Hcode; exact Hs].
    + intros w0; now rewrite (generate_one_skipped env a w0 Hs).
  - apply generate_node_completes.
  - apply generate_node_stopped.
Qed.

Lemma no_callback_returns : callback_returns None.
Proof. intros f H; discriminate. Qed.

Lemma quiet_callback_returns : callback_returns (Some Demo.quiet_callback).
Proof. intros f H; injection H as <-; reflexivity. Qed.

Lemma short_circuit_on_failed_analysis_witness :
  exists st' w',
    generate_scraping_code_node Demo.env Demo.mixed_state empty_world = (Ok st', w')
    /\ length (llm_log w') = 1
    /\ exists c, nth_error (scraping_codes st') 0 = Some c /\ generation_success c = false.
Proof.
  destruct (short_circuit_on_failed_analysis Demo.env Demo.mixed_state empty_world)
    as (Hdone & _ & Hlive & _).
  destruct (Hlive no_callback_returns eq_refl) as (st' & w' & H).
  destruct (Hdone st' w' H) as ((calls & Hl & Hn) & _ & Hi).
  exists st', w'; split; [exact H |].
  split; [rewrite Hl, length_app, Hn; reflexivity |].
  destruct (Hi 0 _ eq_refl eq_refl) as ((c & Hc & Hg & _) & _).
  exists c; split; assumption.
Defined.

(** C3, as stated, fails when the failure of the probe is the failure of its
    fetch: the page of [https://down.example] cannot be fetched, the probe
    degrades, the record is flagged as a success all the same, and the
    synthesis stage calls the backend for it and stores a program. *)
Lemma degraded_probe_still_synthesized :
  requests_get Demo.env "https://down.example" = Raises "ConnectionError"
  /\ exists s1 w1 s2 w2,
       analyze_urls_node Demo.env
         (initial_state_of "AI" ["https://down.example"] None) empty_world = (Ok s1, w1)
       /\ map analysis_success (website_analyses s1) = [true]
       /\ generate_scraping_code_node Demo.env s1 w1 = (Ok s2, w2)
       /\ map generation_success (scraping_codes s2) = [true]
       /\ length (llm_log w1) = 0
       /\ length (llm_log w2) = 1.
Proof.
  split; [reflexivity |].
  eexists _, _, _, _.
  split; [reflexivity |]. split; [reflexivity |].
  split; [reflexivity |]. repeat split.
Qed.

(** C10. The probe never raises, so the branch of the analysis stage that
    would flag a failure is never taken: after the stage every record of
    [website_analyses] is flagged [analysis_success = True], one record per
    processed URL; so
    each record makes the synthesis stage call the generation backend once,
    and a synthesis stage that completes has made as many calls as there are
    processed URLs, degraded fingerprints included; the two stages complete
    when the callback returns and the backend client can be built. *)
Theorem analysis_flag_always_true (env : Env) (st : WorkflowState) (w : World) :
  (forall url w0 e, fst (analyze_website_structure env url w0) <> Exc e)
  /\ (forall st1 w1,
     analyze_urls_node env st w = (Ok st1, w1) ->
     Forall (fun a => analysis_success a = true) (website_analyses st1)
     /\ map wa_url (website_analyses st1) = firstn 3 (trend_urls st)
     /\ (forall a w0, In a (website_analyses st1) ->
           exists sys human,
             llm_log (snd (generate_one env a w0)) = llm_log w0 ++ [(sys, human)])
     /\ forall st2 w2,
          generate_scraping_code_node env st1 w1 = (Ok st2, w2) ->
          exists calls, llm_log w2 = llm_log w1 ++ calls
                        /\ length calls = length (firstn 3 (trend_urls st)))
  /\ (callback_returns (progress_callback st) -> llm_available env ->
      exists st1 w1 st2 w2,
        analyze_urls_node env st w = (Ok st1, w1)
        /\ generate_scraping_code_node env st1 w1 = (Ok st2, w2)).
Proof.
  split; [| split].
  - intros url w0 e.
    destruct (analyze_website_structure_ok env url w0) as (ws & -> & _); discriminate.
  - intros st1 w1 H.
    destruct (analyze_urls_node_ok env st st1 w w1 H) as (l & -> & HF & _).
    destruct (Forall2_fingerprint_urls env _ _ HF) as [Hm Hp]; fields.
    assert (Hall : Forall (fun a => analysis_success a = true) l).
    { eapply Forall_impl; [| exact Hp]. intros a [Hs _]; exact Hs. }
    split; [exact Hall |]. split; [exact Hm |]. split.
    + intros a w0 Hin.
      destruct (proj1 (Forall_forall _ _) Hp a Hin) as (Hs & ws & Hw & _).
      destruct (generate_one_attempted env a ws w0 Hs Hw) as (c & -> & _).
      simpl; eauto.
    + intros st2 w2 H2.
      destruct (generate_node_ok env (set_website_analyses l st) st2 w1 w2
                  (Forall_impl _ probed_well_formed Hp) H2)
        as (cs & calls & _ & _ & Hl & Hn & _); fields.
      exists calls; split; [exact Hl |].
      rewrite Hn, (filter_all_true _ _ Hall), <- Hm. symmetry; apply length_map.
  - intros Hcb Hllm.
    destruct (analyze_urls_node_total env st w Hcb) as (st1 & w1 & H1).
    destruct (analyze_urls_node_ok env st st1 w w1 H1) as (l & -> & HF & _).
    destruct (Forall2_fingerprint_urls env _ _ HF) as [_ Hp].
    destruct (generate_node_total env (set_website_analyses l st) w1
                (Forall_impl _ probed_well_formed Hp) Hcb Hllm) as (st2 & w2 & H2).
    exists (set_website_analyses l st), w1, st2, w2; split; assumption.
Qed.

Lemma analysis_flag_always_true_witness :
  exists st1 w1 st2 w2,
    analyze_urls_node Demo.env
      (initial_state_of "AI" ["https://down.example"] None) empty_world = (Ok st1, w1)
    /\ generate_scraping_code_node Demo.env st1 w1 = (Ok st2, w2)
    /\ Forall (fun a => analysis_success a = true) (website_analyses st1)
    /\ length (llm_log w2) = 1.
Proof.
  pose proof (analysis_flag_always_true Demo.env
                (initial_state_of "AI" ["https://down.example"] None) empty_world)
    as (_ & Hsafe & Hlive).
  destruct (Hlive no_callback_returns eq_refl) as (st1 & w1 & st2 & w2 & H1 & H2).
  exists st1, w1, st2, w2; split; [exact H1 |]. split; [exact H2 |].
  destruct (Hsafe st1 w1 H1) as (Hall & _ & _ & Hcalls).
  split; [exact Hall |].
  destruct (Hcalls st2 w2 H2) as (calls & Hl & Hn).
  destruct (analyze_urls_node_ok _ _ _ _ _ H1) as (_ & _ & _ & _ & Hl1 & _).
  rewrite Hl, length_app, Hn, Hl1; reflexivity.
Defined.

(** ** Frames: the fetch log, and coming back *)

Section Frames.

Context {A B : Type}.

Lemma keeps_fetch_log_bind (m : M A) (k : A -> M B) :
  keeps_fetch_log m -> (forall a, keeps_fetch_log (k a)) -> keeps_fetch_log (bind m k).
Proof.
  intros Hm Hk w; unfold bind; specialize (Hm w).
  destruct (m w) as [[a | e | | x] w1]; simpl in *; try exact Hm.
  now rewrite Hk.
Qed.

Lemma keeps_fetch_log_try (m : M A) (h : string -> M A) :
  keeps_fetch_log m -> (forall e, keeps_fetch_log (h e)) -> keeps_fetch_log (try_catch m h).
Proof.
  intros Hm Hh w; unfold try_catch; specialize (Hm w).
  destruct (m w) as [[a | e | | x] w1]; simpl in *; try exact Hm.
  now rewrite Hh.
Qed.

Lemma comes_back_bind (m : M A) (k : A -> M B) :
  comes_back m -> (forall a, comes_back (k a)) -> comes_back (bind m k).
Proof.
  intros Hm Hk w; unfold bind; specialize (Hm w).
  destruct (m w) as [[a | e | | x] w1]; simpl in *;
    [apply Hk | exact I | contradiction | contradiction].
Qed.

Lemma comes_back_try (m : M A) (h : string -> M A) :
  comes_back m -> (forall e, comes_back (h e)) -> comes_back (try_catch m h).
Proof.
  intros Hm Hh w; unfold try_catch; specialize (Hm w).
  destruct (m w) as [[a | e | | x] w1]; simpl in *;
    [exact I | apply Hh | contradiction | contradiction].
Qed.

End Frames.

Lemma keeps_fetch_log_ret {A : Type} (a : A) : keeps_fetch_log (ret a).
Proof. intros w; reflexivity. Qed.

Lemma comes_back_ret {A : Type} (a : A) : comes_back (ret a).
Proof. intros w; exact I. Qed.

Lemma keeps_fetch_log_of_try {A : Type} (t : Try A) : keeps_fetch_log (of_try t).
Proof. intros w; destruct t; reflexivity. Qed.

Lemma comes_back_of_try {A : Type} (t : Try A) : comes_back (of_try t).
Proof. intros w; destruct t; exact I. Qed.

Lemma keeps_fetch_log_notify (cb : option Callback) (msg : string) :
  keeps_fetch_log (notify cb msg).
Proof. intros w; apply notify_frame. Qed.

Lemma comes_back_notify (cb : option Callback) (msg : string) : comes_back (notify cb msg).
Proof.
  intros w; destruct cb as [f |]; simpl; [| exact I].
  destruct (f (progress_log w) msg); exact I.
Qed.

Lemma keeps_fetch_log_llm (env : Env) (sys human : string) :
  keeps_fetch_log (llm_call env sys human).
Proof. intros w; unfold llm_call; destruct (llm_invoke env _ _ _); reflexivity. Qed.

Lemma comes_back_llm (env : Env) (sys human : string) : comes_back (llm_call env sys human).
Proof. intros w; unfold llm_call; destruct (llm_invoke env _ _ _); exact I. Qed.

Lemma keeps_fetch_log_exec (env : Env) (code url : string) :
  keeps_fetch_log (exec_call env code url).
Proof. intros w; unfold exec_call; destruct (run_program env _ code url); reflexivity. Qed.

Lemma comes_back_exec (env : Env) (code url : string) :
  programs_halt env -> comes_back (exec_call env code url).
Proof.
  intros Hh w; unfold exec_call; specialize (Hh (exec_log w) code url).
  destruct (run_program env (exec_log w) code url); simpl; try exact I; contradiction.
Qed.

Create HintDb frames.
#[local] Hint Resolve keeps_fetch_log_ret comes_back_ret keeps_fetch_log_of_try
  comes_back_of_try keeps_fetch_log_notify comes_back_notify keeps_fetch_log_llm
  comes_back_llm keeps_fetch_log_exec comes_back_exec : frames.

Ltac frame :=
  repeat first
    [ apply keeps_fetch_log_bind | apply keeps_fetch_log_try
    | apply comes_back_bind | apply comes_back_try
    | match goal with |- forall _, _ => intro end
    | match goal with
      | |- keeps_fetch_log (match ?x with _ => _ end) => destruct x
      | |- comes_back (match ?x with _ => _ end) => destruct x
      end ];
  auto with frames.

(** ** Node 3 *)

Lemma execute_one_skipped (env : Env) (ci : ScrapingCode) (w : World) :
  runnable_code ci = None ->
  execute_one env ci w
  = (Ok (mkScrapedData (sc_url ci) PyNone false
           (Some (get_default (sc_error ci) "No code to execute"))), w).
Proof. intros H; unfold execute_one; rewrite H; reflexivity. Qed.

(** An item either yields a record for its URL, or never comes back because
    its program does not, or leaves through the fault of its program that no
    guard catches. *)
Lemma execute_one_cases (env : Env) (ci : ScrapingCode) (w : World) :
  (exists d w', execute_one env ci w = (Ok d, w') /\ sd_url d = sc_url ci
                /\ llm_log w' = llm_log w /\ progress_log w' = progress_log w)
  \/ (exists code w', execute_one env ci w = (Hang, w')
                      /\ runnable_code ci = Some code
                      /\ run_program env (exec_log w) code (sc_url ci) = ExecDiverges)
  \/ (exists code e w', execute_one env ci w = (Exit e, w')
                        /\ runnable_code ci = Some code
                        /\ run_program env (exec_log w) code (sc_url ci) = ExecExits e).
Proof.
  unfold execute_one, try_catch, bind, exec_call, ret.
  destruct (runnable_code ci) as [code |] eqn:Hr.
  - destruct (run_program env (exec_log w) code (sc_url ci)) eqn:Hp.
    + left; eexists _, _; repeat split.
    + left; eexists _, _; repeat split.
    + left; eexists _, _; repeat split.
    + right; left; exists code; eexists; repeat split; exact Hp.
    + right; right; exists code, msg; eexists; repeat split; exact Hp.
  - left; eexists _, _; repeat split.
Qed.

Lemma keeps_fetch_log_execute_one (env : Env) (ci : ScrapingCode) :
  keeps_fetch_log (execute_one env ci).
Proof.
  unfold execute_one; frame.
Qed.

Lemma execute_loop_cases (env : Env) (l : list ScrapingCode) (acc : list ScrapedData)
    (w : World) :
  (exists ds w', execute_loop env l acc w = (Ok (acc ++ ds), w')
                 /\ map sd_url ds = map sc_url l
                 /\ llm_log w' = llm_log w /\ progress_log w' = progress_log w)
  \/ (exists r w', execute_loop env l acc w = (r, w')
                   /\ (r = Hang \/ exists e, r = Exit e)
                   /\ ~ programs_halt env).
Proof.
  revert acc w; induction l as [| ci rest IH]; intros acc w; simpl.
  - left; exists [], w; rewrite app_nil_r; repeat split.
  - destruct (execute_one_cases env ci w)
      as [(d & w1 & H & Hu & Hl & Hp)
         | [(code & w1 & H & _ & Hd) | (code & e & w1 & H & _ & Hd)]].
    + rewrite (bind_ok _ _ _ _ _ H).
      destruct (IH (acc ++ [d]) w1)
        as [(ds & w' & H' & Hm & Hl' & Hp') | (r & w' & H' & Hr & Hn)].
      * left; exists (d :: ds), w'; rewrite H', <- app_assoc; simpl.
        repeat split; congruence.
      * right; exists r, w'; repeat split; assumption.
    + right; exists Hang, w1; rewrite (bind_hang _ _ _ _ H).
      split; [reflexivity |]. split; [left; reflexivity |].
      intros Hh; specialize (Hh (exec_log w) code (sc_url ci)); now rewrite Hd in Hh.
    + right; exists (Exit e), w1; rewrite (bind_exit _ _ _ _ _ H).
      split; [reflexivity |]. split; [right; exists e; reflexivity |].
      intros Hh; specialize (Hh (exec_log w) code (sc_url ci)); now rewrite Hd in Hh.
Qed.

Lemma execute_node_ok (env : Env) (st st' : WorkflowState) (w w' : World) :
  execute_scraping_code_node env st w = (Ok st', w') ->
  exists ds, st' = set_scraped_data ds st
             /\ map sd_url ds = map sc_url (scraping_codes st)
             /\ llm_log w' = llm_log w.
Proof.
  intros H; apply notified_ok_inv in H; destruct H as (w0 & (Hf & Hl & He) & H).
  destruct (execute_loop_cases env (scraping_codes st) [] w0)
    as [(ds & w1 & Hloop & Hm & Hl1 & _) | (r & w1 & Hloop & [-> | (e & ->)] & _)].
  - rewrite (bind_ok _ _ _ _ _ Hloop) in H; unfold ret in H.
    injection H as <- <-; exists ds; repeat split; [exact Hm | congruence].
  - rewrite (bind_hang _ _ _ _ Hloop) in H; discriminate.
  - rewrite (bind_exit _ _ _ _ _ Hloop) in H; discriminate.
Qed.

Lemma execute_node_total (env : Env) (st : WorkflowState) (w : World) :
  callback_returns (progress_callback st) ->
  programs_halt env ->
  exists st' w', execute_scraping_code_node env st w = (Ok st', w').
Proof.
  intros Hcb Hh; unfold execute_scraping_code_node.
  destruct (notified_total _ "⚙️ Code Executor 正在執行爬蟲程式碼..."
              (data <- execute_loop env (scraping_codes st) [] ;;
               ret (set_scraped_data data st)) w Hcb) as (w0 & _ & ->).
  destruct (execute_loop_cases env (scraping_codes st) [] w0)
    as [(ds & w1 & Hloop & _) | (r & w1 & _ & _ & Hn)]; [| contradiction].
  rewrite (bind_ok _ _ _ _ _ Hloop); unfold ret; eauto.
Qed.

(** ** Nodes 4 to 6 *)

Lemma collect_successful_filter (items : list ScrapedData) (acc : list (string * PyVal)) :
  collect_successful items acc
  = acc ++ map (fun d => (sd_url d, sd_data d))
             (filter (fun d => execution_success d && truthy (sd_data d)) items).
Proof.
  revert acc; induction items as [| d rest IH]; intros acc; simpl.
  - now rewrite app_nil_r.
  - rewrite IH; destruct (execution_success d && truthy (sd_data d)); simpl;
      [now rewrite <- app_assoc | reflexivity].
Qed.

Lemma collect_successful_none (items : list ScrapedData) :
  (forall d, In d items -> ~ (execution_success d = true /\ truthy (sd_data d) = true)) ->
  collect_successful items [] = [].
Proof.
  intros H; rewrite collect_successful_filter; simpl.
  induction items as [| d rest IH]; simpl; [reflexivity |].
  destruct (execution_success d && truthy (sd_data d)) eqn:Hd.
  - apply andb_true_iff in Hd. exfalso; apply (H d); [left; reflexivity | exact Hd].
  - apply IH; intros d' Hin; apply H; right; exact Hin.
Qed.

(** One guarded backend call: whatever the backend does, a value comes out
    and exactly one call is logged. *)
Lemma guarded_llm_call {A : Type} (env : Env) (sys human : string) (f g : string -> A)
    (w : World) :
  exists a,
    try_catch (content <- llm_call env sys human ;; ret (f content)) (fun e => ret (g e)) w
    = (Ok a, log_llm sys human w)
    /\ exists s, a = f s \/ a = g s.
Proof.
  unfold try_catch, bind, llm_call, ret.
  destruct (llm_invoke env (llm_log w) sys human) as [content | e].
  - exists (f content); split; [reflexivity | exists content; left; reflexivity].
  - exists (g e); split; [reflexivity | exists e; right; reflexivity].
Qed.

Lemma summary_node_ok (env : Env) (st st' : WorkflowState) (w w' : World) :
  summary_agent_node env st w = (Ok st', w') ->
  exists s, st' = set_summary s st.
Proof.
  intros H; apply notified_ok_inv in H; destruct H as (w0 & _ & H).
  apply with_llm_ok_inv in H; destruct H as [_ H].
  cbv zeta in H.
  destruct (negb (nonempty_list (collect_successful (scraped_data st) []))).
  - unfold ret in H; injection H as <- <-; eauto.
  - apply bind_ok_inv in H; destruct H as (dumped & w1 & _ & H).
    destruct (guarded_llm_call env (summary_prompt (topic st) dumped)
                ("請為主題 '" ++ topic st ++ "' 生成摘要報告")
                (fun content => set_summary content st)
                (fun e => set_summary ("摘要生成過程中出現錯誤：" ++ e) st) w1)
      as (a & Ha & s & Hs).
    rewrite Ha in H; injection H as <- <-.
    destruct Hs as [-> | ->]; eauto.
Qed.

Lemma summary_node_total (env : Env) (st : WorkflowState) (w : World) :
  callback_returns (progress_callback st) ->
  llm_available env ->
  dumps_returns env ->
  exists st' w', summary_agent_node env st w = (Ok st', w').
Proof.
  intros Hcb Hllm Hd; unfold summary_agent_node; cbv zeta.
  match goal with
  | |- context [bind (notify ?cb ?msg) (fun _ => ?body)] =>
      destruct (notified_total cb msg body w Hcb) as (w0 & _ & ->)
  end.
  rewrite (with_llm_ready _ _ _ Hllm).
  destruct (negb (nonempty_list (collect_successful (scraped_data st) []))).
  - unfold ret; eauto.
  - destruct (Hd (collect_successful (scraped_data st) [])) as (text & Ht).
    erewrite bind_ok; [| unfold of_try; rewrite Ht; reflexivity].
    destruct (guarded_llm_call env (summary_prompt (topic st) text)
                ("請為主題 '" ++ topic st ++ "' 生成摘要報告")
                (fun content => set_summary content st)
                (fun e => set_summary ("摘要生成過程中出現錯誤：" ++ e) st) w0)
      as (a & Ha & _).
    rewrite Ha; eauto.
Qed.

(** With nothing usable, the summary node sets the fixed message, unless its
    notification or the construction of the client raises; it calls the
    backend in no case. *)
Lemma summary_node_no_data (env : Env) (st : WorkflowState) (w : World) :
  collect_successful (scraped_data st) [] = [] ->
  (exists w0, same_calls w w0
              /\ summary_agent_node env st w
                 = (Ok (set_summary (no_data_summary (topic st)) st), w0))
  \/ (exists e w0, same_calls w w0 /\ summary_agent_node env st w = (Exc e, w0)
                   /\ (~ callback_returns (progress_callback st) \/ ~ llm_available env)).
Proof.
  intros Hnone; unfold summary_agent_node; cbv zeta.
  match goal with
  | |- context [bind (notify ?cb ?msg) (fun _ => ?body)] =>
      destruct (notified_cases cb msg body w) as [(w0 & Hs & ->) | (e & w0 & Hs & -> & Hn)]
  end.
  - destruct (llm_cases env) as [Hllm | (e & Hllm)].
    + left; exists w0; split; [exact Hs |].
      rewrite (with_llm_ready _ _ _ Hllm), Hnone; reflexivity.
    + right; exists e, w0; split; [exact Hs |].
      split; [apply with_llm_down; exact Hllm |].
      right; unfold llm_available; rewrite Hllm; discriminate.
  - right; exists e, w0; repeat split; try apply Hs. left; exact Hn.
Qed.

Lemma script_node_ok (env : Env) (st st' : WorkflowState) (w w' : World) :
  script_writer_node env st w = (Ok st', w') ->
  exists s, st' = set_video_script s st.
Proof.
  intros H; apply notified_ok_inv in H; destruct H as (w0 & _ & H).
  apply with_llm_ok_inv in H; destruct H as [_ H].
  destruct (guarded_llm_call env (script_prompt (topic st) (summary st))
              ("請為主題 '" ++ topic st ++ "' 創作60秒影片腳本")
              (fun content => set_video_script content st)
              (fun e => set_video_script ("影片腳本創作過程中出現錯誤：" ++ e) st) w0)
    as (a & Ha & s & Hs).
  rewrite Ha in H; injection H as <- <-.
  destruct Hs as [-> | ->]; eauto.
Qed.

Lemma script_node_total (env : Env) (st : WorkflowState) (w : World) :
  callback_returns (progress_callback st) ->
  llm_available env ->
  exists s w',
    script_writer_node env st w = (Ok (set_video_script s st), w')
    /\ llm_log w'
       = llm_log w ++ [(script_prompt (topic st) (summary st), script_request (topic st))].
Proof.
  intros Hcb Hllm; unfold script_writer_node.
  match goal with
  | |- context [bind (notify ?cb ?msg) (fun _ => ?body)] =>
      destruct (notified_total cb msg body w Hcb) as (w0 & (_ & Hl & _) & ->)
  end.
  rewrite (with_llm_ready _ _ _ Hllm).
  destruct (guarded_llm_call env (script_prompt (topic st) (summary st))
              ("請為主題 '" ++ topic st ++ "' 創作60秒影片腳本")
              (fun content => set_video_script content st)
              (fun e => set_video_script ("影片腳本創作過程中出現錯誤：" ++ e) st) w0)
    as (a & Ha & s & Hs).
  rewrite Ha.
  destruct Hs as [-> | ->]; eexists _, _; (split; [reflexivity |]);
    simpl; rewrite Hl; reflexivity.
Qed.

Lemma social_node_ok (env : Env) (st st' : WorkflowState) (w w' : World) :
  social_media_writer_node env st w = (Ok st', w') ->
  exists s, st' = set_social_media s st.
Proof.
  intros H; apply notified_ok_inv in H; destruct H as (w0 & _ & H).
  apply with_llm_ok_inv in H; destruct H as [_ H].
  destruct (guarded_llm_call env (social_prompt (topic st) (video_script st) (summary st))
              ("請為主題 '" ++ topic st ++ "' 創作多平台社群媒體內容")
              (fun content => set_social_media content st)
              (fun e => set_social_media ("社群媒體內容創作過程中出現錯誤：" ++ e) st) w0)
    as (a & Ha & s & Hs).
  rewrite Ha in H; injection H as <- <-.
  destruct Hs as [-> | ->]; eauto.
Qed.

Lemma social_node_total (env : Env) (st : WorkflowState) (w : World) :
  callback_returns (progress_callback st) ->
  llm_available env ->
  exists s w',
    social_media_writer_node env st w = (Ok (set_social_media s st), w')
    /\ llm_log w'
       = llm_log w
         ++ [(social_prompt (topic st) (video_script st) (summary st),
              social_request (topic st))].
Proof.
  intros Hcb Hllm; unfold social_media_writer_node.
  match goal with
  | |- context [bind (notify ?cb ?msg) (fun _ => ?body)] =>
      destruct (notified_total cb msg body w Hcb) as (w0 & (_ & Hl & _) & ->)
  end.
  rewrite (with_llm_ready _ _ _ Hllm).
  destruct (guarded_llm_call env (social_prompt (topic st) (video_script st) (summary st))
              ("請為主題 '" ++ topic st ++ "' 創作多平台社群媒體內容")
              (fun content => set_social_media content st)
              (fun e => set_social_media ("社群媒體內容創作過程中出現錯誤：" ++ e) st) w0)
    as (a & Ha & s & Hs).
  rewrite Ha.
  destruct Hs as [-> | ->]; eexists _, _; (split; [reflexivity |]);
    simpl; rewrite Hl; reflexivity.
Qed.

(** ** C5: the summary when nothing was scraped *)

(** C5, as the code has it.  When no record of [scraped_data] has both
    [execution_success] true and a payload that counts as data, the summary
    stage calls the generation backend zero times, whatever the callback and
    the construction of the client do; and when the callback returns and the
    client can be built, it sets the summary to the fixed message around the
    topic, and the script and the social stage then both complete, with one
    backend call each, the script being asked for on that message, and the
    summary unchanged. *)
Theorem empty_success_summary (env : Env) (st : WorkflowState) (w : World) :
  (forall d, In d (scraped_data st) ->
             ~ (execution_success d = true /\ truthy (sd_data d) = true)) ->
  llm_log (snd (summary_agent_node env st w)) = llm_log w
  /\ (callback_returns (progress_callback st) -> llm_available env ->
      exists s4 w4 s5 w5 s6 w6,
        summary_agent_node env st w = (Ok s4, w4)
        /\ summary s4
           = ("關於主題 '" ++ topic st
              ++ "' 的爬蟲過程中沒有獲得有效數據，請檢查網站可訪問性或調整爬蟲策略。")%string
        /\ llm_log w4 = llm_log w
        /\ script_writer_node env s4 w4 = (Ok s5, w5)
        /\ social_media_writer_node env s5 w5 = (Ok s6, w6)
        /\ summary s6 = summary s4
        /\ llm_log w6
           = llm_log w
             ++ [(script_prompt (topic st) (summary s4), script_request (topic st));
                 (social_prompt (topic st) (video_script s5) (summary s4),
                  social_request (topic st))]).
Proof.
  intros Hnone. pose proof (collect_successful_none _ Hnone) as Hc.
  destruct (summary_node_no_data env st w Hc)
    as [(w4 & Hs & H) | (e & w4 & Hs & H & Hn)]; rewrite H; simpl.
  - split; [apply Hs |]. intros Hcb Hllm.
    destruct (script_node_total env (set_summary (no_data_summary (topic st)) st) w4
                Hcb Hllm) as (script & w5 & H5 & Hl5).
    destruct (social_node_total env
                (set_video_script script (set_summary (no_data_summary (topic st)) st))
                w5 Hcb Hllm) as (social & w6 & H6 & Hl6).
    eexists _, w4, _, w5, _, w6.
    split; [reflexivity |]. split; [reflexivity |].
    split; [apply Hs |]. split; [exact H5 |]. split; [exact H6 |].
    split; [reflexivity |].
    destruct Hs as (_ & Hl4 & _).
    rewrite Hl6, Hl5, Hl4, <- app_assoc; reflexivity.
  - split; [apply Hs |]. intros Hcb Hllm. destruct Hn as [Hn | Hn]; contradiction.
Qed.

Lemma empty_success_summary_witness :
  exists s4 w4,
    summary_agent_node Demo.env Demo.fruitless_state empty_world = (Ok s4, w4)
    /\ summary s4
       = "關於主題 'AI' 的爬蟲過程中沒有獲得有效數據，請檢查網站可訪問性或調整爬蟲策略。"
    /\ llm_log w4 = [].
Proof.
  destruct (empty_success_summary Demo.env Demo.fruitless_state empty_world) as [_ H].
  - intros d [<- | [<- | []]] [H1 H2]; discriminate.
  - destruct (H quiet_callback_returns eq_refl)
      as (s4 & w4 & _ & _ & _ & _ & H4 & Hs & Hl & _).
    exists s4, w4; repeat split; assumption.
Defined.

(** C5, as stated, fails for a callback that raises at the summary
    milestone: the three fan-out stages complete with no usable payload, the
    run ends in the failure bundle, whose summary is empty and not the fixed
    message, and the backend has been called for the synthesis only: neither
    the script nor the social stage has run. *)
Lemma raising_callback_leaves_no_summary :
  (exists s3 w3,
     fan_out Demo.env_empty_payloads
       (initial_state_of "AI" ["https://a.example/1"] (Some Demo.shy_callback))
       (log_progress "🚀 啟動 LangGraph 工作流程..." empty_world) = (Ok s3, w3)
     /\ map execution_success (scraped_data s3) = [true]
     /\ collect_successful (scraped_data s3) [] = []
     /\ fst (summary_agent_node Demo.env_empty_payloads s3 w3) = Exc "widget is gone")
  /\ fst (run_langgraph_workflow Demo.env_empty_payloads "AI" ["https://a.example/1"]
            (Some Demo.shy_callback) empty_world)
     = Ok (failure_result "widget is gone")
  /\ b_summary (failure_result "widget is gone") = EmptyString
  /\ map snd (llm_log (snd (run_langgraph_workflow Demo.env_empty_payloads "AI"
                              ["https://a.example/1"] (Some Demo.shy_callback)
                              empty_world)))
     = ["為 https://a.example/1 生成爬蟲程式碼"].
Proof.
  split; [eexists _, _; repeat split | repeat split].
Qed.

(** ** The graph as a whole *)

Lemma keeps_fetch_log_generate_loop (env : Env) (l : list Analysis) (acc : list ScrapingCode) :
  keeps_fetch_log (generate_loop env l acc).
Proof.
  revert acc; induction l as [| a rest IH]; intros acc; simpl; [frame |].
  apply keeps_fetch_log_bind; [| intros c; apply IH].
  unfold generate_one; frame.
Qed.

Lemma keeps_fetch_log_execute_loop (env : Env) (l : list ScrapingCode) (acc : list ScrapedData) :
  keeps_fetch_log (execute_loop env l acc).
Proof.
  revert acc; induction l as [| ci rest IH]; intros acc; simpl; [frame |].
  apply keeps_fetch_log_bind; [apply keeps_fetch_log_execute_one | intros d; apply IH].
Qed.

Lemma comes_back_generate_loop (env : Env) (l : list Analysis) (acc : list ScrapingCode) :
  comes_back (generate_loop env l acc).
Proof.
  revert acc; induction l as [| a rest IH]; intros acc; simpl; [frame |].
  apply comes_back_bind; [| intros c; apply IH].
  unfold generate_one; frame.
Qed.

Lemma comes_back_execute_loop (env : Env) (l : list ScrapingCode) (acc : list ScrapedData) :
  programs_halt env -> comes_back (execute_loop env l acc).
Proof.
  intros Hh; revert acc; induction l as [| ci rest IH]; intros acc; simpl; [frame |].
  apply comes_back_bind; [| intros d; apply IH].
  unfold execute_one; frame.
Qed.

Lemma comes_back_analyze_loop (env : Env) (urls : list string) (acc : list Analysis) :
  comes_back (analyze_loop env urls acc).
Proof.
  intros w; destruct (analyze_loop_ok env urls acc w) as (l & -> & _); exact I.
Qed.

#[local] Hint Resolve keeps_fetch_log_generate_loop keeps_fetch_log_execute_loop
  comes_back_generate_loop comes_back_execute_loop comes_back_analyze_loop : frames.

Lemma keeps_fetch_log_after_analysis (env : Env) (s1 : WorkflowState) :
  keeps_fetch_log (after_analysis env s1).
Proof.
  unfold after_analysis, generate_scraping_code_node, execute_scraping_code_node,
    summary_agent_node, script_writer_node, social_media_writer_node; cbv zeta.
  frame.
Qed.


Lemma nth_error_map_inv {A B : Type} (f : A -> B) (l : list A) (l' : list B) (i : nat)
    (b : B) :
  map f l = l' -> nth_error l' i = Some b ->
  exists a, nth_error l i = Some a /\ f a = b.
Proof.
  intros <-; rewrite nth_error_map.
  destruct (nth_error l i) as [a |]; simpl; intros H; [| discriminate].
  injection H as <-; eauto.
Qed.

(** What a run of the graph that reaches its end has built. *)
Lemma workflow_invoke_ok (env : Env) (st st' : WorkflowState) (w w' : World) :
  workflow_invoke env st w = (Ok st', w') ->
  Forall2 (fingerprint_of env) (firstn 3 (trend_urls st)) (website_analyses st')
  /\ map sc_url (scraping_codes st') = firstn 3 (trend_urls st)
  /\ map sd_url (scraped_data st') = firstn 3 (trend_urls st)
  /\ fetch_log w' = fetch_log w ++ firstn 3 (trend_urls st).
Proof.
  intros H; unfold workflow_invoke in H.
  apply bind_ok_inv in H; destruct H as (s1 & w1 & H1 & H).
  pose proof (keeps_fetch_log_after_analysis env s1 w1) as Hfetch.
  unfold after_analysis in Hfetch; rewrite H in Hfetch; simpl in Hfetch.
  apply bind_ok_inv in H; destruct H as (s2 & w2 & H2 & H).
  apply bind_ok_inv in H; destruct H as (s3 & w3 & H3 & H).
  apply bind_ok_inv in H; destruct H as (s4 & w4 & H4 & H).
  apply bind_ok_inv in H; destruct H as (s5 & w5 & H5 & H6).
  destruct (analyze_urls_node_ok _ _ _ _ _ H1) as (l & -> & HF & Hf1 & _).
  destruct (Forall2_fingerprint_urls env _ _ HF) as [Hm Hp].
  destruct (generate_node_ok env (set_website_analyses l st) s2 w1 w2
              (Forall_impl _ probed_well_formed Hp) H2) as (cs & calls & -> & Hcs & _).
  destruct (execute_node_ok _ _ _ _ _ H3) as (ds & -> & Hds & _).
  destruct (summary_node_ok _ _ _ _ _ H4) as (sm & ->).
  destruct (script_node_ok _ _ _ _ _ H5) as (sc & ->).
  destruct (social_node_ok _ _ _ _ _ H6) as (so & ->).
  fields.
  pose proof (code_for_probed_urls l cs Hp Hcs) as Hcu.
  repeat split; congruence.
Qed.

Lemma workflow_invoke_total (env : Env) (st : WorkflowState) (w : World) :
  callback_returns (progress_callback st) ->
  llm_available env ->
  programs_halt env ->
  dumps_returns env ->
  exists st' w', workflow_invoke env st w = (Ok st', w').
Proof.
  intros Hcb Hllm Hh Hd; unfold workflow_invoke.
  destruct (analyze_urls_node_total env st w Hcb) as (s1 & w1 & H1).
  rewrite (bind_ok _ _ _ _ _ H1).
  destruct (analyze_urls_node_ok _ _ _ _ _ H1) as (l & -> & HF & _).
  destruct (Forall2_fingerprint_urls env _ _ HF) as [_ Hp].
  destruct (generate_node_total env (set_website_analyses l st) w1
              (Forall_impl _ probed_well_formed Hp) Hcb Hllm) as (s2 & w2 & H2).
  rewrite (bind_ok _ _ _ _ _ H2).
  destruct (generate_node_ok env (set_website_analyses l st) s2 w1 w2
              (Forall_impl _ probed_well_formed Hp) H2) as (cs & calls & -> & _).
  destruct (execute_node_total env (set_scraping_codes cs (set_website_analyses l st)) w2
              Hcb Hh) as (s3 & w3 & H3).
  rewrite (bind_ok _ _ _ _ _ H3).
  destruct (execute_node_ok _ _ _ _ _ H3) as (ds & -> & _).
  set (s3 := set_scraped_data ds (set_scraping_codes cs (set_website_analyses l st))).
  destruct (summary_node_total env s3 w3 Hcb Hllm Hd) as (s4 & w4 & H4).
  rewrite (bind_ok _ _ _ _ _ H4).
  destruct (summary_node_ok _ _ _ _ _ H4) as (sm & ->).
  destruct (script_node_total env (set_summary sm s3) w4 Hcb Hllm) as (sc & w5 & H5 & _).
  rewrite (bind_ok _ _ _ _ _ H5).
  destruct (social_node_total env (set_video_script sc (set_summary sm s3)) w5 Hcb Hllm)
    as (so & w6 & H6 & _).
  rewrite H6; eauto.
Qed.

(** ** The entry point *)

Lemma fetch_log_bind_keeps {A B : Type} (m : M A) (k : A -> M B) (w : World) :
  (forall a, keeps_fetch_log (k a)) ->
  fetch_log (snd (bind m k w)) = fetch_log (snd (m w)).
Proof.
  intros Hk; unfold bind; destruct (m w) as [[a | e | | x] w1]; simpl; try reflexivity.
  apply Hk.
Qed.

Lemma analyze_urls_node_fetches (env : Env) (st : WorkflowState) (w : World) :
  fetch_log (snd (analyze_urls_node env st w)) = fetch_log w ++ firstn 3 (trend_urls st)
  \/ fetch_log (snd (analyze_urls_node env st w)) = fetch_log w.
Proof.
  unfold analyze_urls_node.
  match goal with
  | |- context [bind (notify ?cb ?msg) (fun _ => ?body)] =>
      destruct (notified_cases cb msg body w)
        as [(w0 & (Hf & _) & ->) | (e & w0 & (Hf & _) & -> & _)]
  end.
  - left. destruct (analyze_loop_ok env (firstn 3 (trend_urls st)) [] w0) as (l & H & _).
    rewrite (bind_ok _ _ _ _ _ H); simpl; now rewrite Hf.
  - right; exact Hf.
Qed.

Lemma workflow_invoke_fetches (env : Env) (st : WorkflowState) (w : World) :
  fetch_log (snd (workflow_invoke env st w)) = fetch_log w ++ firstn 3 (trend_urls st)
  \/ fetch_log (snd (workflow_invoke env st w)) = fetch_log w.
Proof.
  change (workflow_invoke env st) with (bind (analyze_urls_node env st) (after_analysis env)).
  rewrite fetch_log_bind_keeps by apply keeps_fetch_log_after_analysis.
  apply analyze_urls_node_fetches.
Qed.

Lemma run_world (env : Env) (topic : string) (urls : list string) (cb : option Callback)
    (w : World) :
  snd (run_langgraph_workflow env topic urls cb w) = snd (run_guarded env topic urls cb w).
Proof.
  unfold run_langgraph_workflow, try_catch, ret.
  destruct (run_guarded env topic urls cb w) as [[b | e | | x] w1]; reflexivity.
Qed.

Lemma run_guarded_ok (env : Env) (topic : string) (urls : list string)
    (cb : option Callback) (w w' : World) (b : Bundle) :
  run_guarded env topic urls cb w = (Ok b, w') ->
  exists st' w0 w1, same_calls w w0
                    /\ workflow_invoke env (initial_state_of topic urls cb) w0 = (Ok st', w1)
                    /\ same_calls w1 w'
                    /\ b = result_of st'.
Proof.
  intros H; apply notified_ok_inv in H; destruct H as (w0 & Hs0 & H).
  apply bind_ok_inv in H; destruct H as (st' & w1 & Hw & H).
  apply notified_ok_inv in H; destruct H as (w2 & Hs2 & H).
  unfold ret in H; injection H as <- <-.
  exists st', w0, w1; repeat split; try apply Hs0; try apply Hs2; exact Hw.
Qed.

Lemma run_guarded_total (env : Env) (topic : string) (urls : list string)
    (cb : option Callback) (w : World) :
  callback_returns cb -> llm_available env -> programs_halt env -> dumps_returns env ->
  exists b w', run_guarded env topic urls cb w = (Ok b, w').
Proof.
  intros Hcb Hllm Hh Hd; unfold run_guarded.
  match goal with
  | |- context [bind (notify ?cb ?msg) (fun _ => ?body)] =>
      destruct (notified_total cb msg body w Hcb) as (w0 & _ & ->)
  end.
  destruct (workflow_invoke_total env (initial_state_of topic urls cb) w0 Hcb Hllm Hh Hd)
    as (st' & w1 & H).
  rewrite (bind_ok _ _ _ _ _ H).
  match goal with
  | |- context [bind (notify ?cb ?msg) (fun _ => ?body)] =>
      destruct (notified_total cb msg body w1 Hcb) as (w2 & _ & ->)
  end.
  unfold ret; eauto.
Qed.


(** ** C1: the outer guard *)

(** The executor of the other workflow runs the program in a process of its
    own: a program that leaves through [sys.exit(1)] gives a failure record. *)
Lemma execute_python_code_contains_exit
    (subprocess_run : string -> nat -> WebScraperTools.SubprocessOutcome)
    (code out err : string) :
  subprocess_run code WebScraperTools.default_timeout = WebScraperTools.Completed 1 out err ->
  WebScraperTools.execute_python_code subprocess_run code WebScraperTools.default_timeout
  = WebScraperTools.mkExecutionResult false 1 out err "completed within timeout".
Proof.
  intros H; unfold WebScraperTools.execute_python_code; rewrite H; reflexivity.
Qed.

(** C1, on the code.  The backend answers with a program whose [main] calls
    [sys.exit(1)]; the program extracted from the answer is run in-process,
    the [SystemExit] it raises is not an instance of [Exception], so it passes
    the guard of the execution stage and the outer guard of
    [run_langgraph_workflow]: the caller gets the fault and no bundle. *)
Theorem exiting_program_reaches_the_caller :
  extract_code Demo.exiting_reply = Demo.exiting_code
  /\ fst (execute_one Demo.env_exiting
            (mkScrapingCode "https://a.example/1" (Some Demo.exiting_code) true None None)
            empty_world) = Exit "1"
  /\ fst (run_langgraph_workflow Demo.env_exiting "AI" ["https://a.example/1"] None
            empty_world) = Exit "1"
  /\ forall b,
       fst (run_langgraph_workflow Demo.env_exiting "AI" ["https://a.example/1"] None
              empty_world) <> Ok b.
Proof. repeat split. intros b; discriminate. Qed.


Lemma demo_programs_halt : programs_halt Demo.env.
Proof. intros history code url; exact I. Qed.

Lemma demo_dumps_returns : dumps_returns Demo.env.
Proof. intros items; eexists; reflexivity. Qed.



(** An exception can also escape from the summary node, where [json.dumps]
    is called outside the node's guard: the caller still gets a bundle. *)
Example unserializable_payload_ends_in_failure_bundle :
  fst (run_langgraph_workflow Demo.env_unserializable "AI" Demo.seven_urls None
         empty_world)
  = Ok (failure_result "Object of type set is not JSON serializable").
Proof. reflexivity. Qed.

(** ** C2 and C6: the three lists and the cap *)

(** C2. When the graph reaches its end, [website_analyses], [scraping_codes]
    and [scraped_data] each have as many records as there are processed seed
    URLs (the first three), and at every index the three records carry the
    seed URL of that index, whatever failed for the item; and the graph does
    reach its end when the callback returns, the backend client can be built,
    the programs come back and [json.dumps] accepts the payloads. *)
Theorem index_alignment (env : Env) (topic : string) (urls : list string)
    (cb : option Callback) (w : World) :
  (forall st' w',
     workflow_invoke env (initial_state_of topic urls cb) w = (Ok st', w') ->
     length (website_analyses st') = length (firstn 3 urls)
     /\ length (scraping_codes st') = length (firstn 3 urls)
     /\ length (scraped_data st') = length (firstn 3 urls)
     /\ forall i u,
          nth_error (firstn 3 urls) i = Some u ->
          exists a c d,
            nth_error (website_analyses st') i = Some a /\ wa_url a = u
            /\ nth_error (scraping_codes st') i = Some c /\ sc_url c = u
            /\ nth_error (scraped_data st') i = Some d /\ sd_url d = u)
  /\ (callback_returns cb -> llm_available env -> programs_halt env ->
      dumps_returns env ->
      exists st' w',
        workflow_invoke env (initial_state_of topic urls cb) w = (Ok st', w')).
Proof.
  split; [| apply (workflow_invoke_total env (initial_state_of topic urls cb) w)].
  intros st' w' H.
  destruct (workflow_invoke_ok _ _ _ _ _ H) as (HF & Hc & Hd & _); fields.
  destruct (Forall2_fingerprint_urls env _ _ HF) as [Ha _].
  split; [rewrite <- Ha; symmetry; apply length_map |].
  split; [rewrite <- Hc; symmetry; apply length_map |].
  split; [rewrite <- Hd; symmetry; apply length_map |].
  intros i u Hi.
  destruct (nth_error_map_inv _ _ _ _ _ Ha Hi) as (a & Hai & Hau).
  destruct (nth_error_map_inv _ _ _ _ _ Hc Hi) as (c & Hci & Hcu).
  destruct (nth_error_map_inv _ _ _ _ _ Hd Hi) as (d & Hdi & Hdu).
  exists a, c, d; repeat split; assumption.
Qed.

Lemma backend_down_programs_halt : programs_halt Demo.env_backend_down.
Proof. intros history code url; exact I. Qed.

Lemma backend_down_dumps_returns : dumps_returns Demo.env_backend_down.
Proof. intros items; eexists; reflexivity. Qed.

Lemma index_alignment_witness :
  exists st' w',
    workflow_invoke Demo.env_backend_down
      (initial_state_of "AI" Demo.seven_urls (Some Demo.quiet_callback)) empty_world
    = (Ok st', w')
    /\ exists a c d,
         nth_error (website_analyses st') 2 = Some a /\ wa_url a = "https://down.example"
         /\ nth_error (scraping_codes st') 2 = Some c /\ sc_url c = "https://down.example"
         /\ nth_error (scraped_data st') 2 = Some d /\ sd_url d = "https://down.example".
Proof.
  destruct (index_alignment Demo.env_backend_down "AI" Demo.seven_urls
              (Some Demo.quiet_callback) empty_world) as [Hsafe Hlive].
  destruct (Hlive quiet_callback_returns eq_refl backend_down_programs_halt
              backend_down_dumps_returns) as (st' & w' & H).
  exists st', w'; split; [exact H |].
  destruct (Hsafe st' w' H) as (_ & _ & _ & Hi).
  exact (Hi 2 "https://down.example" eq_refl).
Defined.

(** C6. Only the first three URLs of the input are processed: the pages
    fetched during a run are exactly those three, in order (or none, when the
    run is cut short before the analysis), the returned [processed_urls] is
    that list of at most three (or empty, in the failure bundle), and a run
    that meets no escaping fault (the callback returns, the backend client can
    be built, the programs come back, [json.dumps] accepts the payloads)
    returns exactly the first three. *)
Theorem cap_enforcement (env : Env) (topic : string) (urls : list string)
    (cb : option Callback) (w : World) :
  (forall b,
     fst (run_langgraph_workflow env topic urls cb w) = Ok b ->
     length (processed_urls b) <= 3
     /\ (processed_urls b = firstn 3 urls \/ processed_urls b = []))
  /\ (fetch_log (snd (run_langgraph_workflow env topic urls cb w))
      = fetch_log w ++ firstn 3 urls
      \/ fetch_log (snd (run_langgraph_workflow env topic urls cb w)) = fetch_log w)
  /\ (callback_returns cb -> llm_available env -> programs_halt env ->
      dumps_returns env ->
      exists b,
        fst (run_langgraph_workflow env topic urls cb w) = Ok b
        /\ processed_urls b = firstn 3 urls
        /\ length (processed_urls b) = Nat.min 3 (length urls)
        /\ fetch_log (snd (run_langgraph_workflow env topic urls cb w))
           = fetch_log w ++ firstn 3 urls).
Proof.
  assert (Hok : forall b w',
             run_guarded env topic urls cb w = (Ok b, w') ->
             processed_urls b = firstn 3 urls
             /\ fetch_log w' = fetch_log w ++ firstn 3 urls).
  { intros b w' H.
    destruct (run_guarded_ok _ _ _ _ _ _ _ H)
      as (st' & w0 & w1 & (Hf0 & _) & Hw & (Hf1 & _) & ->).
    destruct (workflow_invoke_ok _ _ _ _ _ Hw) as (HF & _ & _ & Hf); fields.
    destruct (Forall2_fingerprint_urls env _ _ HF) as [Ha _].
    split; [exact Ha | congruence]. }
  split; [| split].
  - intros b. unfold run_langgraph_workflow, try_catch, ret.
    destruct (run_guarded env topic urls cb w) as [[b' | e | | x] w1] eqn:Hg; simpl;
      intros Hb; try discriminate; injection Hb as <-.
    + destruct (Hok b' w1 eq_refl) as [Hp _]. rewrite Hp.
      split; [apply firstn_le_length | left; reflexivity].
    + simpl; split; [lia | right; reflexivity].
  - rewrite run_world. unfold run_guarded.
    match goal with
    | |- context [bind (notify ?cb ?msg) (fun _ => ?body)] =>
        destruct (notified_cases cb msg body w)
          as [(w0 & (Hf & _) & ->) | (e & w0 & (Hf & _) & -> & _)]
    end; [| right; exact Hf].
    rewrite fetch_log_bind_keeps by (intros st'; frame).
    destruct (workflow_invoke_fetches env (initial_state_of topic urls cb) w0) as [H | H];
      rewrite H, Hf; [left | right]; reflexivity.
  - intros Hcb Hllm Hh Hd.
    destruct (run_guarded_total env topic urls cb w Hcb Hllm Hh Hd) as (b & w' & H).
    destruct (Hok b w' H) as [Hp Hf].
    exists b. rewrite run_world. unfold run_langgraph_workflow, try_catch.
    rewrite H; simpl.
    repeat split; try assumption.
    rewrite Hp; apply length_firstn.
Qed.

Lemma cap_enforcement_witness :
  exists b,
    fst (run_langgraph_workflow Demo.env "AI" Demo.seven_urls
           (Some Demo.quiet_callback) empty_world) = Ok b
    /\ processed_urls b
       = ["https://a.example/1"; "https://a.example/2"; "https://down.example"]
    /\ fetch_log (snd (run_langgraph_workflow Demo.env "AI" Demo.seven_urls
                         (Some Demo.quiet_callback) empty_world))
       = ["https://a.example/1"; "https://a.example/2"; "https://down.example"].
Proof.
  destruct (cap_enforcement Demo.env "AI" Demo.seven_urls (Some Demo.quiet_callback)
              empty_world) as (_ & _ & H).
  destruct (H quiet_callback_returns eq_refl demo_programs_halt demo_dumps_returns)
    as (b & Hb & Hp & _ & Hf).
  exists b; repeat split; assumption.
Defined.

(** ** Independence from a callback that returns *)

Section Simulation.

Context {A B : Type}.

Lemma simulates_ret (R : A -> A -> Prop) (a1 a2 : A) :
  R a1 a2 -> simulates R (ret a1) (ret a2).
Proof. intros H w1 w2 Hw; split; [exact H | exact Hw]. Qed.

Lemma simulates_bind (R : A -> A -> Prop) (S : B -> B -> Prop) (m1 m2 : M A)
    (k1 k2 : A -> M B) :
  simulates R m1 m2 ->
  (forall a1 a2, R a1 a2 -> simulates S (k1 a1) (k2 a2)) ->
  simulates S (bind m1 k1) (bind m2 k2).
Proof.
  intros Hm Hk w1 w2 Hw; unfold bind; destruct (Hm w1 w2 Hw) as [Hr Hs].
  destruct (m1 w1) as [[a1 | e1 | | x1] w1'], (m2 w2) as [[a2 | e2 | | x2] w2'];
    simpl in *; try contradiction.
  - apply Hk; assumption.
  - split; assumption.
  - split; assumption.
  - split; assumption.
Qed.

Lemma simulates_try (R : A -> A -> Prop) (m1 m2 : M A) (h1 h2 : string -> M A) :
  simulates R m1 m2 ->
  (forall e, simulates R (h1 e) (h2 e)) ->
  simulates R (try_catch m1 h1) (try_catch m2 h2).
Proof.
  intros Hm Hh w1 w2 Hw; unfold try_catch; destruct (Hm w1 w2 Hw) as [Hr Hs].
  destruct (m1 w1) as [[a1 | e1 | | x1] w1'], (m2 w2) as [[a2 | e2 | | x2] w2'];
    simpl in *; try contradiction.
  - split; assumption.
  - subst e2; apply Hh; assumption.
  - split; assumption.
  - split; assumption.
Qed.

End Simulation.

Lemma res_related_eq {A : Type} (r1 r2 : Res A) : res_related eq r1 r2 -> r1 = r2.
Proof.
  destruct r1, r2; simpl; intros H; try contradiction; congruence.
Qed.

Lemma simulates_bind_eq {A B : Type} (S : B -> B -> Prop) (m1 m2 : M A) (k1 k2 : A -> M B) :
  simulates eq m1 m2 ->
  (forall a, simulates S (k1 a) (k2 a)) ->
  simulates S (bind m1 k1) (bind m2 k2).
Proof.
  intros Hm Hk; apply (simulates_bind eq S); [exact Hm |].
  intros a1 a2 <-; apply Hk.
Qed.

Lemma simulates_of_try {A : Type} (t : Try A) : simulates eq (of_try t) (of_try t).
Proof. intros w1 w2 Hw; destruct t; split; simpl; auto. Qed.

Lemma simulates_http_get (env : Env) (url : string) :
  simulates eq (http_get env url) (http_get env url).
Proof.
  intros w1 w2 (Hf & Hl & He); unfold http_get.
  destruct (requests_get env url); simpl; (split; [reflexivity |]);
    repeat split; simpl; congruence.
Qed.

Lemma simulates_llm_call (env : Env) (sys human : string) :
  simulates eq (llm_call env sys human) (llm_call env sys human).
Proof.
  intros w1 w2 (Hf & Hl & He); unfold llm_call; rewrite Hl.
  destruct (llm_invoke env (llm_log w1) sys human); simpl; (split; [reflexivity |]);
    repeat split; simpl; congruence.
Qed.

Lemma simulates_exec_call (env : Env) (code url : string) :
  simulates eq (exec_call env code url) (exec_call env code url).
Proof.
  intros w1 w2 (Hf & Hl & He); unfold exec_call; rewrite He.
  destruct (run_program env (exec_log w1) code url); simpl;
    (split; [reflexivity || exact I |]); repeat split; simpl; congruence.
Qed.

Lemma simulates_notify (cb1 cb2 : option Callback) (msg : string) :
  callback_returns cb1 -> callback_returns cb2 ->
  simulates eq (notify cb1 msg) (notify cb2 msg).
Proof.
  intros H1 H2 w1 w2 Hw.
  destruct (notify_returns cb1 msg w1 H1) as (w1' & -> & Hf1 & Hl1 & He1).
  destruct (notify_returns cb2 msg w2 H2) as (w2' & -> & Hf2 & Hl2 & He2).
  destruct Hw as (Hf & Hl & He); simpl.
  split; [reflexivity |]. repeat split; congruence.
Qed.

#[local] Hint Resolve simulates_of_try simulates_http_get simulates_llm_call
  simulates_exec_call : frames.

(** Steps through a computation that does not look at the callback. *)
Ltac blind :=
  repeat first
    [ apply simulates_bind_eq | apply simulates_try
    | match goal with |- forall _, _ => intro end
    | match goal with
      | |- simulates _ (match ?x with _ => _ end) (match ?x with _ => _ end) => destruct x
      end
    | apply simulates_ret; reflexivity ];
  auto with frames.

Lemma simulates_analyze_loop (env : Env) (urls : list string) (acc : list Analysis) :
  simulates eq (analyze_loop env urls acc) (analyze_loop env urls acc).
Proof.
  revert acc; induction urls as [| url rest IH]; intros acc; simpl; [blind |].
  apply simulates_bind_eq; [| intros a; apply IH].
  unfold analyze_one, analyze_website_structure; blind.
Qed.

Lemma simulates_generate_loop (env : Env) (l : list Analysis) (acc : list ScrapingCode) :
  simulates eq (generate_loop env l acc) (generate_loop env l acc).
Proof.
  revert acc; induction l as [| a rest IH]; intros acc; simpl; [blind |].
  apply simulates_bind_eq; [| intros c; apply IH].
  unfold generate_one; blind.
Qed.

Lemma simulates_execute_loop (env : Env) (l : list ScrapingCode) (acc : list ScrapedData) :
  simulates eq (execute_loop env l acc) (execute_loop env l acc).
Proof.
  revert acc; induction l as [| ci rest IH]; intros acc; simpl; [blind |].
  apply simulates_bind_eq; [| intros d; apply IH].
  unfold execute_one; blind.
Qed.

Ltac related_states :=
  match goal with
  | H : same_but_callback _ _ |- _ =>
      destruct H as (Ht & Hu & Ha & Hc & Hd & Hsm & Hv & Hso & Hcb1 & Hcb2)
  end.

Ltac still_related :=
  apply simulates_ret; fields; repeat split; fields; congruence || assumption.

Lemma simulates_analyze_urls_node (env : Env) (st1 st2 : WorkflowState) :
  same_but_callback st1 st2 ->
  simulates same_but_callback (analyze_urls_node env st1) (analyze_urls_node env st2).
Proof.
  intros H; related_states; unfold analyze_urls_node; rewrite Hu.
  apply simulates_bind_eq; [apply simulates_notify; assumption | intros _].
  apply simulates_bind_eq; [apply simulates_analyze_loop | intros l].
  still_related.
Qed.

Lemma simulates_generate_node (env : Env) (st1 st2 : WorkflowState) :
  same_but_callback st1 st2 ->
  simulates same_but_callback (generate_scraping_code_node env st1)
    (generate_scraping_code_node env st2).
Proof.
  intros H; related_states; unfold generate_scraping_code_node; rewrite Ha.
  apply simulates_bind_eq; [apply simulates_notify; assumption | intros _].
  apply simulates_bind_eq; [apply simulates_of_try | intros _].
  apply simulates_bind_eq; [apply simulates_generate_loop | intros l].
  still_related.
Qed.

Lemma simulates_execute_node (env : Env) (st1 st2 : WorkflowState) :
  same_but_callback st1 st2 ->
  simulates same_but_callback (execute_scraping_code_node env st1)
    (execute_scraping_code_node env st2).
Proof.
  intros H; related_states; unfold execute_scraping_code_node; rewrite Hc.
  apply simulates_bind_eq; [apply simulates_notify; assumption | intros _].
  apply simulates_bind_eq; [apply simulates_execute_loop | intros l].
  still_related.
Qed.

Lemma simulates_summary_node (env : Env) (st1 st2 : WorkflowState) :
  same_but_callback st1 st2 ->
  simulates same_but_callback (summary_agent_node env st1) (summary_agent_node env st2).
Proof.
  intros H; related_states; unfold summary_agent_node; cbv zeta; rewrite Hd, Ht.
  apply simulates_bind_eq; [apply simulates_notify; assumption | intros _].
  apply simulates_bind_eq; [apply simulates_of_try | intros _].
  destruct (negb (nonempty_list (collect_successful (scraped_data st2) [])));
    [still_related |].
  apply simulates_bind_eq; [apply simulates_of_try | intros dumped].
  apply simulates_try; [| intros e; still_related].
  apply simulates_bind_eq; [apply simulates_llm_call | intros content].
  still_related.
Qed.

Lemma simulates_script_node (env : Env) (st1 st2 : WorkflowState) :
  same_but_callback st1 st2 ->
  simulates same_but_callback (script_writer_node env st1) (script_writer_node env st2).
Proof.
  intros H; related_states; unfold script_writer_node; rewrite Ht, Hsm.
  apply simulates_bind_eq; [apply simulates_notify; assumption | intros _].
  apply simulates_bind_eq; [apply simulates_of_try | intros _].
  apply simulates_try; [| intros e; still_related].
  apply simulates_bind_eq; [apply simulates_llm_call | intros content].
  still_related.
Qed.

Lemma simulates_social_node (env : Env) (st1 st2 : WorkflowState) :
  same_but_callback st1 st2 ->
  simulates same_but_callback (social_media_writer_node env st1)
    (social_media_writer_node env st2).
Proof.
  intros H; related_states; unfold social_media_writer_node; rewrite Ht, Hsm, Hv.
  apply simulates_bind_eq; [apply simulates_notify; assumption | intros _].
  apply simulates_bind_eq; [apply simulates_of_try | intros _].
  apply simulates_try; [| intros e; still_related].
  apply simulates_bind_eq; [apply simulates_llm_call | intros content].
  still_related.
Qed.

Lemma simulates_workflow (env : Env) (st1 st2 : WorkflowState) :
  same_but_callback st1 st2 ->
  simulates same_but_callback (workflow_invoke env st1) (workflow_invoke env st2).
Proof.
  intros H; unfold workflow_invoke.
  eapply simulates_bind; [apply simulates_analyze_urls_node; exact H |]; intros ? ? H1.
  eapply simulates_bind; [apply simulates_generate_node; exact H1 |]; intros ? ? H2.
  eapply simulates_bind; [apply simulates_execute_node; exact H2 |]; intros ? ? H3.
  eapply simulates_bind; [apply simulates_summary_node; exact H3 |]; intros ? ? H4.
  eapply simulates_bind; [apply simulates_script_node; exact H4 |]; intros ? ? H5.
  apply simulates_social_node; exact H5.
Qed.

Lemma result_of_related (st1 st2 : WorkflowState) :
  same_but_callback st1 st2 -> result_of st1 = result_of st2.
Proof. intros H; related_states; unfold result_of; congruence. Qed.

Lemma simulates_run (env : Env) (topic : string) (urls : list string)
    (cb1 cb2 : option Callback) :
  callback_returns cb1 -> callback_returns cb2 ->
  simulates eq (run_langgraph_workflow env topic urls cb1)
    (run_langgraph_workflow env topic urls cb2).
Proof.
  intros H1 H2; unfold run_langgraph_workflow, run_guarded.
  apply simulates_try; [| intros e; apply simulates_ret; reflexivity].
  apply simulates_bind_eq; [apply simulates_notify; assumption | intros _].
  eapply simulates_bind.
  - apply simulates_workflow. repeat split; assumption.
  - intros st1 st2 H.
    apply simulates_bind_eq; [apply simulates_notify; assumption | intros _].
    apply simulates_ret, result_of_related, H.
Qed.

(** ** C9: what a callback can change *)

(** C9, as the code has it.  A callback that returns whenever it is invoked
    does not alter the run: the outcome (the bundle) and the fetches, backend
    calls and program executions are those of the run without a callback. *)
Theorem returning_callback_is_observational (env : Env) (topic : string)
    (urls : list string) (f : Callback) (w : World) :
  callback_returns (Some f) ->
  fst (run_langgraph_workflow env topic urls (Some f) w)
  = fst (run_langgraph_workflow env topic urls None w)
  /\ same_calls (snd (run_langgraph_workflow env topic urls None w))
       (snd (run_langgraph_workflow env topic urls (Some f) w)).
Proof.
  intros Hf.
  destruct (simulates_run env topic urls None (Some f) no_callback_returns Hf w w
              (same_calls_refl w)) as [Hr Hs].
  split; [symmetry; apply res_related_eq; exact Hr | exact Hs].
Qed.

Lemma returning_callback_is_observational_witness :
  fst (run_langgraph_workflow Demo.env "AI" Demo.seven_urls (Some Demo.quiet_callback)
         empty_world)
  = fst (run_langgraph_workflow Demo.env "AI" Demo.seven_urls None empty_world)
  /\ length (progress_log (snd (run_langgraph_workflow Demo.env "AI" Demo.seven_urls
                                  (Some Demo.quiet_callback) empty_world))) = 8.
Proof.
  split; [| reflexivity].
  apply (returning_callback_is_observational Demo.env "AI" Demo.seven_urls
           Demo.quiet_callback empty_world quiet_callback_returns).
Defined.

(** C9, as stated, fails: with a callback that raises, the run stops at the
    first notification and the caller gets the failure bundle; no page is
    fetched and the backend is never called, while the same run without a
    callback fetches three pages and calls the backend six times. *)
Lemma raising_callback_changes_run :
  fst (run_langgraph_workflow Demo.env "AI" Demo.seven_urls (Some Demo.raising_callback)
         empty_world)
  <> fst (run_langgraph_workflow Demo.env "AI" Demo.seven_urls None empty_world)
  /\ fst (run_langgraph_workflow Demo.env "AI" Demo.seven_urls
            (Some Demo.raising_callback) empty_world)
     = Ok (failure_result "widget is gone")
  /\ length (llm_log (snd (run_langgraph_workflow Demo.env "AI" Demo.seven_urls
                             (Some Demo.raising_callback) empty_world))) = 0
  /\ length (llm_log (snd (run_langgraph_workflow Demo.env "AI" Demo.seven_urls None
                             empty_world))) = 6.
Proof.
  split; [| repeat split].
  vm_compute; intros H; discriminate H.
Qed.

(** ** C8: running a synthesized program *)

(** A program that does not come back blocks the execution stage: the stage
    runs it in-process, with no time limit, and never completes. *)
Lemma diverging_program_blocks_loop (env : Env) (l : list ScrapingCode)
    (acc : list ScrapedData) (w : World) (ci : ScrapingCode) (code : string) :
  In ci l ->
  runnable_code ci = Some code ->
  (forall history, run_program env history code (sc_url ci) = ExecDiverges) ->
  forall ds, fst (execute_loop env l acc w) <> Ok ds.
Proof.
  intros Hin Hr Hd; revert acc w; induction l as [| c rest IH]; intros acc w ds;
    [contradiction |].
  simpl. destruct (execute_one_cases env c w)
    as [(d & w1 & H & _) | [(k & w1 & H & _) | (k & e & w1 & H & _)]].
  - rewrite (bind_ok _ _ _ _ _ H).
    destruct Hin as [-> | Hin]; [| apply IH; exact Hin].
    exfalso. revert H. unfold execute_one, try_catch, bind, exec_call.
    rewrite Hr, Hd; discriminate.
  - rewrite (bind_hang _ _ _ _ H); discriminate.
  - rewrite (bind_exit _ _ _ _ _ H); discriminate.
Qed.

Lemma diverging_program_blocks_stage (env : Env) (st : WorkflowState) (w : World)
    (ci : ScrapingCode) (code : string) :
  In ci (scraping_codes st) ->
  runnable_code ci = Some code ->
  (forall history, run_program env history code (sc_url ci) = ExecDiverges) ->
  forall st', fst (execute_scraping_code_node env st w) <> Ok st'.
Proof.
  intros Hin Hr Hd st' H.
  destruct (execute_scraping_code_node env st w) as [r w'] eqn:Hnode; simpl in H; subst r.
  apply notified_ok_inv in Hnode; destruct Hnode as (w0 & _ & Hnode).
  apply bind_ok_inv in Hnode; destruct Hnode as (ds & w1 & Hloop & _).
  apply (diverging_program_blocks_loop env _ [] w0 ci code Hin Hr Hd ds).
  now rewrite Hloop.
Qed.

(** The executor of the other workflow comes back with a failure record when
    the time limit is hit. *)
Lemma execute_python_code_bounded (subprocess_run : string -> nat -> WebScraperTools.SubprocessOutcome)
    (code : string) :
  subprocess_run code WebScraperTools.default_timeout = WebScraperTools.TimeoutExpired ->
  WebScraperTools.execute_python_code subprocess_run code WebScraperTools.default_timeout
  = WebScraperTools.mkExecutionResult false (-1) EmptyString
      "程式碼執行超時 (超過 60 秒)" "timeout after 60s".
Proof.
  intros H; unfold WebScraperTools.execute_python_code; rewrite H; reflexivity.
Qed.

(** C8, on the code.  The backend answers with a program whose [main] loops
    for ever; the program extracted from the answer is run by [exec] and the
    call of [main] with no time limit, so the item, the execution stage and
    the whole run never come back. *)
Theorem execution_has_no_timeout :
  extract_code Demo.looping_reply = Demo.looping_code
  /\ fst (execute_one Demo.env_looping
            (mkScrapingCode "https://a.example/1" (Some Demo.looping_code) true None None)
            empty_world) = Hang
  /\ fst (run_langgraph_workflow Demo.env_looping "AI" ["https://a.example/1"] None
            empty_world) = Hang.
Proof. repeat split. Qed.

(** * Further properties of the pipeline *)

(** ** Exact effects of a notification *)

Lemma notify_world (cb : option Callback) (msg : string) (w : World) :
  snd (notify cb msg w) = after_notify cb msg w.
Proof.
  destruct cb as [f |]; simpl; [| reflexivity].
  destruct (f (progress_log w) msg); reflexivity.
Qed.

Lemma notified_ok_exact {A : Type} (cb : option Callback) (msg : string) (body : M A)
    (w w' : World) (a : A) :
  (notify cb msg ;;; body) w = (Ok a, w') ->
  body (after_notify cb msg w) = (Ok a, w').
Proof.
  unfold bind. pose proof (notify_world cb msg w) as Hw.
  destruct (notify cb msg w) as [[[] | e | | x] w0]; simpl in Hw; subst w0;
    intros H; try discriminate; exact H.
Qed.

Lemma notified_returns_exact {A : Type} (cb : option Callback) (msg : string)
    (body : M A) (w : World) :
  callback_returns cb ->
  (notify cb msg ;;; body) w = body (after_notify cb msg w).
Proof.
  intros Hcb; unfold bind. pose proof (notify_world cb msg w) as Hw.
  destruct (notify_returns cb msg w Hcb) as (w0 & H & _).
  rewrite H in *; simpl in Hw; subst w0; reflexivity.
Qed.

(** ** The execution stage, item by item *)

Lemma execute_one_world (env : Env) (ci : ScrapingCode) (w : World) :
  snd (execute_one env ci w)
  = mkWorld (fetch_log w) (llm_log w) (exec_log w ++ runnable_entry ci) (progress_log w).
Proof.
  unfold execute_one, runnable_entry, try_catch, bind, exec_call, ret.
  destruct (runnable_code ci) as [code |].
  - destruct (run_program env (exec_log w) code (sc_url ci)); reflexivity.
  - simpl; rewrite app_nil_r; destruct w; reflexivity.
Qed.

Lemma execute_loop_ok_exact (env : Env) (l : list ScrapingCode) (acc ds : list ScrapedData)
    (w w' : World) :
  execute_loop env l acc w = (Ok ds, w') ->
  w' = mkWorld (fetch_log w) (llm_log w) (exec_log w ++ flat_map runnable_entry l)
         (progress_log w)
  /\ exists ds', ds = acc ++ ds'
                 /\ Forall2 (fun ci d => exists w0, fst (execute_one env ci w0) = Ok d) l ds'.
Proof.
  revert acc w; induction l as [| ci rest IH]; intros acc w; simpl.
  - unfold ret; intros H; injection H as <- <-.
    rewrite !app_nil_r; destruct w; split; [reflexivity |].
    exists []; rewrite app_nil_r; split; constructor.
  - intros H; apply bind_ok_inv in H; destruct H as (d & w1 & H1 & H).
    pose proof (execute_one_world env ci w) as Hw; rewrite H1 in Hw; simpl in Hw.
    destruct (IH _ _ H) as (-> & ds' & -> & HF); subst w1; simpl.
    split; [now rewrite <- app_assoc |].
    exists (d :: ds'); rewrite <- app_assoc; split; [reflexivity |].
    constructor; [| exact HF].
    exists w; rewrite H1; reflexivity.
Qed.

(** The record of the item at index [i] is the one its program gives after
    the runnable items before it have been run. *)
Lemma execute_loop_nth (env : Env) (l : list ScrapingCode) :
  forall (acc ds : list ScrapedData) (w w' : World) (i : nat) (ci : ScrapingCode),
    execute_loop env l acc w = (Ok ds, w') ->
    nth_error l i = Some ci ->
    exists d,
      nth_error ds (length acc + i) = Some d
      /\ fst (execute_one env ci
                (mkWorld (fetch_log w) (llm_log w)
                   (exec_log w ++ flat_map runnable_entry (firstn i l)) (progress_log w)))
         = Ok d.
Proof.
  induction l as [| c rest IH]; intros acc ds w w' i ci H Hi; [destruct i; discriminate |].
  simpl in H. apply bind_ok_inv in H; destruct H as (d & w1 & H1 & H).
  pose proof (execute_one_world env c w) as Hw; rewrite H1 in Hw; simpl in Hw.
  destruct i as [| j]; simpl in Hi.
  - injection Hi as <-.
    destruct (execute_loop_ok_exact _ _ _ _ _ _ H) as (_ & ds' & -> & _).
    exists d; split.
    + rewrite Nat.add_0_r, <- app_assoc, nth_error_app2 by lia.
      rewrite Nat.sub_diag; reflexivity.
    + simpl; rewrite app_nil_r. destruct w; simpl; rewrite H1; reflexivity.
  - destruct (IH _ _ _ _ j ci H Hi) as (d' & Hd & Hone).
    exists d'; split.
    + rewrite length_app in Hd; simpl in Hd.
      replace (length acc + S j) with (length acc + 1 + j) by lia; exact Hd.
    + subst w1; simpl in Hone; simpl. rewrite <- app_assoc in Hone; exact Hone.
Qed.

Lemma execute_node_ok_exact (env : Env) (st st' : WorkflowState) (w w' : World) :
  execute_scraping_code_node env st w = (Ok st', w') ->
  exists ds,
    st' = set_scraped_data ds st
    /\ Forall2 (fun ci d => exists w0, fst (execute_one env ci w0) = Ok d)
         (scraping_codes st) ds
    /\ fetch_log w' = fetch_log w /\ llm_log w' = llm_log w
    /\ exec_log w' = exec_log w ++ flat_map runnable_entry (scraping_codes st)
    /\ progress_log w'
       = progress_log (after_notify (progress_callback st)
                         "⚙️ Code Executor 正在執行爬蟲程式碼..." w).
Proof.
  intros H; apply notified_ok_exact in H.
  apply bind_ok_inv in H; destruct H as (ds & w1 & Hloop & H).
  unfold ret in H; injection H as <- <-.
  destruct (execute_loop_ok_exact _ _ _ _ _ _ Hloop) as (-> & ds' & -> & HF).
  exists ds'; simpl; repeat split; try exact HF;
    destruct (progress_callback st); reflexivity.
Qed.

(** X1. The execution stage never runs an item whose synthesis failed or
    whose code is empty: when the stage completes, the programs it has run
    are exactly the runnable items, in order, each on its own URL, and a
    skipped item gets a failure record with no data and the earlier error (or
    the text "No code to execute"). *)
Theorem skipped_items_are_not_run (env : Env) (st : WorkflowState) (w : World) :
  callback_returns (progress_callback st) ->
  programs_halt env ->
  exists st' w',
    execute_scraping_code_node env st w = (Ok st', w')
    /\ exec_log w' = exec_log w ++ flat_map runnable_entry (scraping_codes st)
    /\ forall i ci,
         nth_error (scraping_codes st) i = Some ci ->
         generation_success ci = false \/ sc_code ci = None
         \/ sc_code ci = Some EmptyString ->
         runnable_entry ci = []
         /\ exists d, nth_error (scraped_data st') i = Some d
                      /\ sd_url d = sc_url ci
                      /\ execution_success d = false
                      /\ sd_data d = PyNone
                      /\ sd_error d = Some (get_default (sc_error ci) "No code to execute").
Proof.
  intros Hcb Hh.
  destruct (execute_node_total env st w Hcb Hh) as (st' & w' & H).
  exists st', w'; split; [exact H |].
  destruct (execute_node_ok_exact _ _ _ _ _ H) as (ds & -> & HF & _ & _ & He & _).
  split; [exact He |].
  intros i ci Hi Hskip.
  assert (Hr : runnable_code ci = None).
  { unfold runnable_code.
    destruct Hskip as [-> | [-> | ->]]; [reflexivity | |];
      destruct (generation_success ci); reflexivity. }
  split; [unfold runnable_entry; now rewrite Hr |].
  destruct (Forall2_nth_error_l _ _ _ _ _ HF Hi) as (d & Hd & w0 & Hone).
  exists d; split; [exact Hd |].
  rewrite (execute_one_skipped env ci w0 Hr) in Hone; simpl in Hone.
  injection Hone as <-; repeat split.
Qed.

Lemma skipped_items_are_not_run_witness :
  exists st' w',
    execute_scraping_code_node Demo.env
      (set_scraping_codes
         [mkScrapingCode "https://x.example" None false (Some "backend timeout") None;
          mkScrapingCode "https://y.example" (Some "def main(url): return 1") true None None]
         Demo.mixed_state) empty_world = (Ok st', w')
    /\ exec_log w' = [("def main(url): return 1", "https://y.example")].
Proof.
  destruct (skipped_items_are_not_run Demo.env
              (set_scraping_codes
                 [mkScrapingCode "https://x.example" None false (Some "backend timeout") None;
                  mkScrapingCode "https://y.example" (Some "def main(url): return 1") true
                    None None]
                 Demo.mixed_state) empty_world no_callback_returns demo_programs_halt)
    as (st' & w' & H & He & _).
  exists st', w'; split; [exact H | exact He].
Defined.

(** X2. A fault of a program stays with its item.  When the loop of the
    execution stage completes, every item has its record at its own index: a
    skipped item a failure record with the earlier error, an item whose
    program raised an instance of [Exception] a failure record with the
    message, one whose program defined no [main] a failure record saying so,
    and one whose [main] returned a success record with the value; and the
    program of an item was run after the runnable items before it, in the
    interpreter they left, whatever they did. *)
Theorem execution_faults_are_contained (env : Env) (l : list ScrapingCode)
    (ds : list ScrapedData) (w w' : World) (i : nat) (ci : ScrapingCode) :
  execute_loop env l [] w = (Ok ds, w') ->
  nth_error l i = Some ci ->
  exists d,
    nth_error ds i = Some d
    /\ sd_url d = sc_url ci
    /\ match runnable_code ci with
       | None =>
           d = mkScrapedData (sc_url ci) PyNone false
                 (Some (get_default (sc_error ci) "No code to execute"))
       | Some code =>
           match run_program env (exec_log w ++ flat_map runnable_entry (firstn i l))
                   code (sc_url ci) with
           | MainReturned v => d = mkScrapedData (sc_url ci) v true None
           | NoMain =>
               d = mkScrapedData (sc_url ci) PyNone false
                     (Some "No main function found in generated code")
           | ExecRaised e => d = mkScrapedData (sc_url ci) PyNone false (Some e)
           | ExecDiverges | ExecExits _ => False
           end
       end.
Proof.
  intros H Hi.
  destruct (execute_loop_nth env l [] ds w w' i ci H Hi) as (d & Hd & Hone).
  exists d; split; [exact Hd |].
  revert Hone. unfold execute_one, try_catch, bind, exec_call, ret.
  destruct (runnable_code ci) as [code |]; cbn [exec_log fst].
  - destruct (run_program env _ code (sc_url ci)); cbn [fst];
      intros Hone; try discriminate; injection Hone as <-; split; reflexivity.
  - intros Hone; injection Hone as <-; split; reflexivity.
Qed.

Lemma execution_faults_are_contained_witness :
  exists ds w',
    execute_loop Cases.env_shared_interpreter Cases.two_programs [] empty_world = (Ok ds, w')
    /\ map execution_success ds = [false; true]
    /\ map sd_data ds = [PyNone; PyInt 1]
    /\ map sd_data
         (fst (execute_loop_result Cases.env_shared_interpreter (skipn 1 Cases.two_programs)))
       = [PyInt 0].
Proof.
  eexists _, _; split; [reflexivity |].
  destruct (execution_faults_are_contained Cases.env_shared_interpreter Cases.two_programs
              _ empty_world _ 1 _ eq_refl eq_refl) as (d & Hd & _ & Hrec).
  cbn in Hrec. injection Hd as <-. repeat split.
Defined.

(** ** Exact effects of the other nodes *)

Lemma guarded_llm_call_exact {A : Type} (env : Env) (sys human : string)
    (f g : string -> A) (w : World) :
  try_catch (content <- llm_call env sys human ;; ret (f content)) (fun e => ret (g e)) w
  = (Ok match llm_invoke env (llm_log w) sys human with
        | Returns content => f content
        | Raises e => g e
        end, log_llm sys human w).
Proof.
  unfold try_catch, bind, llm_call, ret.
  destruct (llm_invoke env (llm_log w) sys human); reflexivity.
Qed.

Lemma analyze_urls_node_ok_exact (env : Env) (st st' : WorkflowState) (w w' : World) :
  analyze_urls_node env st w = (Ok st', w') ->
  exists l, st' = set_website_analyses l st
            /\ Forall2 (fingerprint_of env) (firstn 3 (trend_urls st)) l
            /\ fetch_log w' = fetch_log w ++ firstn 3 (trend_urls st)
            /\ llm_log w' = llm_log w /\ exec_log w' = exec_log w
            /\ progress_log w'
               = progress_log (after_notify (progress_callback st)
                                 "🔍 正在分析趨勢網站結構..." w).
Proof.
  intros H; apply notified_ok_exact in H.
  destruct (analyze_loop_ok env (firstn 3 (trend_urls st)) []
              (after_notify (progress_callback st) "🔍 正在分析趨勢網站結構..." w))
    as (l & Hloop & HF).
  rewrite (bind_ok _ _ _ _ _ Hloop) in H; unfold ret in H.
  injection H as <- <-; exists l; simpl.
  repeat split; try exact HF; destruct (progress_callback st); reflexivity.
Qed.

Lemma generate_node_ok_exact (env : Env) (st st' : WorkflowState) (w w' : World) :
  Forall well_formed (website_analyses st) ->
  generate_scraping_code_node env st w = (Ok st', w') ->
  exists cs calls,
    st' = set_scraping_codes cs st
    /\ Forall2 code_for (website_analyses st) cs
    /\ llm_log w' = llm_log w ++ calls
    /\ length calls = length (filter analysis_success (website_analyses st))
    /\ fetch_log w' = fetch_log w /\ exec_log w' = exec_log w
    /\ progress_log w'
       = progress_log (after_notify (progress_callback st)
                         "🤖 Code Agent 正在生成爬蟲程式碼..." w).
Proof.
  intros Hwf H; apply notified_ok_exact in H.
  apply with_llm_ok_inv in H; destruct H as [_ H].
  destruct (generate_loop_ok env (website_analyses st) []
              (after_notify (progress_callback st) "🤖 Code Agent 正在生成爬蟲程式碼..." w) Hwf)
    as (cs & calls & Hloop & Hn & HF).
  rewrite (bind_ok _ _ _ _ _ Hloop) in H; unfold ret in H.
  injection H as <- <-; exists cs, calls; simpl.
  repeat split; try assumption; destruct (progress_callback st); reflexivity.
Qed.

Lemma summary_node_ok_exact (env : Env) (st st' : WorkflowState) (w w' : World) :
  summary_agent_node env st w = (Ok st', w') ->
  fetch_log w' = fetch_log w /\ exec_log w' = exec_log w
  /\ progress_log w'
     = progress_log (after_notify (progress_callback st)
                       "📋 Summary Agent 正在整合爬蟲結果..." w)
  /\ ((collect_successful (scraped_data st) [] = []
       /\ st' = set_summary (no_data_summary (topic st)) st
       /\ llm_log w' = llm_log w)
      \/ (collect_successful (scraped_data st) [] <> []
          /\ exists dumped,
               json_dumps env (collect_successful (scraped_data st) []) = Returns dumped
               /\ st' = set_summary
                          (reply_or "摘要生成過程中出現錯誤："
                             (llm_invoke env (llm_log w)
                                (summary_prompt (topic st) dumped)
                                (summary_request (topic st)))) st
               /\ llm_log w'
                  = llm_log w ++ [(summary_prompt (topic st) dumped,
                                   summary_request (topic st))])).
Proof.
  intros H; apply notified_ok_exact in H.
  apply with_llm_ok_inv in H; destruct H as [_ H]; cbv zeta in H.
  set (w0 := after_notify (progress_callback st) "📋 Summary Agent 正在整合爬蟲結果..." w) in *.
  assert (Hw0 : fetch_log w0 = fetch_log w /\ llm_log w0 = llm_log w
                /\ exec_log w0 = exec_log w).
  { unfold w0, after_notify; destruct (progress_callback st); repeat split. }
  destruct Hw0 as (Hf & Hl & He).
  destruct (collect_successful (scraped_data st) []) as [| p ps] eqn:Hc; simpl in H.
  - unfold ret in H; injection H as <- <-.
    repeat split; try assumption. left; repeat split; assumption.
  - apply bind_ok_inv in H; destruct H as (dumped & w1 & Hd & H).
    unfold of_try in Hd.
    destruct (json_dumps env (p :: ps)) as [text | e] eqn:Hj; try discriminate.
    injection Hd as -> ->.
    rewrite guarded_llm_call_exact in H; injection H as <- <-; simpl.
    repeat split; try assumption. right; split; [discriminate |].
    exists dumped; rewrite Hl; repeat split.
    unfold reply_or, summary_request.
    destruct (llm_invoke env (llm_log w) _ _); reflexivity.
Qed.

Lemma script_node_ok_exact (env : Env) (st st' : WorkflowState) (w w' : World) :
  script_writer_node env st w = (Ok st', w') ->
  st' = set_video_script
          (reply_or "影片腳本創作過程中出現錯誤："
             (llm_invoke env (llm_log w) (script_prompt (topic st) (summary st))
                (script_request (topic st)))) st
  /\ llm_log w'
     = llm_log w ++ [(script_prompt (topic st) (summary st), script_request (topic st))]
  /\ fetch_log w' = fetch_log w /\ exec_log w' = exec_log w
  /\ progress_log w'
     = progress_log (after_notify (progress_callback st)
                       "🎬 Script Writer 正在創作影片腳本..." w).
Proof.
  intros H; apply notified_ok_exact in H.
  apply with_llm_ok_inv in H; destruct H as [_ H].
  rewrite guarded_llm_call_exact in H; injection H as <- <-; simpl.
  assert (Hl : llm_log (after_notify (progress_callback st)
                          "🎬 Script Writer 正在創作影片腳本..." w) = llm_log w)
    by (destruct (progress_callback st); reflexivity).
  rewrite Hl. unfold reply_or, script_request.
  repeat split; try (destruct (progress_callback st); reflexivity).
  destruct (llm_invoke env (llm_log w) _ _); reflexivity.
Qed.

Lemma social_node_ok_exact (env : Env) (st st' : WorkflowState) (w w' : World) :
  social_media_writer_node env st w = (Ok st', w') ->
  st' = set_social_media
          (reply_or "社群媒體內容創作過程中出現錯誤："
             (llm_invoke env (llm_log w)
                (social_prompt (topic st) (video_script st) (summary st))
                (social_request (topic st)))) st
  /\ llm_log w'
     = llm_log w ++ [(social_prompt (topic st) (video_script st) (summary st),
                      social_request (topic st))]
  /\ fetch_log w' = fetch_log w /\ exec_log w' = exec_log w
  /\ progress_log w'
     = progress_log (after_notify (progress_callback st)
                       "📱 Social Media Writer 正在創作社群媒體內容..." w).
Proof.
  intros H; apply notified_ok_exact in H.
  apply with_llm_ok_inv in H; destruct H as [_ H].
  rewrite guarded_llm_call_exact in H; injection H as <- <-; simpl.
  assert (Hl : llm_log (after_notify (progress_callback st)
                          "📱 Social Media Writer 正在創作社群媒體內容..." w) = llm_log w)
    by (destruct (progress_callback st); reflexivity).
  rewrite Hl. unfold reply_or, social_request.
  repeat split; try (destruct (progress_callback st); reflexivity).
  destruct (llm_invoke env (llm_log w) _ _); reflexivity.
Qed.

(** ** The graph, stage by stage *)

Lemma workflow_invoke_split (env : Env) (st : WorkflowState) (w : World) :
  workflow_invoke env st w = bind (fan_out env st) (text_stages env) w.
Proof.
  unfold workflow_invoke, fan_out, text_stages, bind.
  destruct (analyze_urls_node env st w) as [[s1 | e | | x] w1]; try reflexivity.
  destruct (generate_scraping_code_node env s1 w1) as [[s2 | e | | x] w2]; reflexivity.
Qed.

Lemma fan_out_ok (env : Env) (st s3 : WorkflowState) (w w3 : World) :
  fan_out env st w = (Ok s3, w3) ->
  exists l cs ds calls,
    s3 = set_scraped_data ds (set_scraping_codes cs (set_website_analyses l st))
    /\ Forall2 (fingerprint_of env) (firstn 3 (trend_urls st)) l
    /\ Forall2 code_for l cs
    /\ Forall2 (fun ci d => exists w0, fst (execute_one env ci w0) = Ok d) cs ds
    /\ fetch_log w3 = fetch_log w ++ firstn 3 (trend_urls st)
    /\ llm_log w3 = llm_log w ++ calls
    /\ length calls = length (firstn 3 (trend_urls st))
    /\ exec_log w3 = exec_log w ++ flat_map runnable_entry cs.
Proof.
  intros H; unfold fan_out in H.
  apply bind_ok_inv in H; destruct H as (s1 & w1 & H1 & H).
  apply bind_ok_inv in H; destruct H as (s2 & w2 & H2 & H3).
  destruct (analyze_urls_node_ok_exact _ _ _ _ _ H1) as (l & -> & HF & Hf1 & Hl1 & He1 & _).
  destruct (Forall2_fingerprint_urls env _ _ HF) as [Hm Hp].
  assert (Hall : Forall (fun a => analysis_success a = true) l).
  { eapply Forall_impl; [| exact Hp]. intros a [Hs _]; exact Hs. }
  destruct (generate_node_ok_exact env (set_website_analyses l st) s2 w1 w2
              (Forall_impl _ probed_well_formed Hp) H2)
    as (cs & calls & -> & Hcs & Hl2 & Hn & Hf2 & He2 & _).
  destruct (execute_node_ok_exact _ _ _ _ _ H3) as (ds & -> & Hds & Hf3 & Hl3 & He3 & _).
  fields. exists l, cs, ds, calls.
  repeat split; try assumption; try congruence.
  rewrite Hn, (filter_all_true _ _ Hall), <- Hm; symmetry; apply length_map.
Qed.

Lemma fan_out_llm_available (env : Env) (st s3 : WorkflowState) (w w3 : World) :
  fan_out env st w = (Ok s3, w3) -> llm_available env.
Proof.
  intros H; unfold fan_out in H.
  apply bind_ok_inv in H; destruct H as (s1 & w1 & _ & H).
  apply bind_ok_inv in H; destruct H as (s2 & w2 & H2 & _).
  apply notified_ok_inv in H2; destruct H2 as (w0 & _ & H2).
  apply with_llm_ok_inv in H2; exact (proj1 H2).
Qed.

Lemma text_stages_ok (env : Env) (s3 st' : WorkflowState) (w3 w' : World) :
  text_stages env s3 w3 = (Ok st', w') ->
  exists sm sc so sum_calls,
    st' = set_social_media so (set_video_script sc (set_summary sm s3))
    /\ llm_log w'
       = llm_log w3 ++ sum_calls
         ++ [(script_prompt (topic s3) sm, script_request (topic s3));
             (social_prompt (topic s3) sc sm, social_request (topic s3))]
    /\ length sum_calls
       = (if nonempty_list (collect_successful (scraped_data s3) []) then 1 else 0)
    /\ fetch_log w' = fetch_log w3 /\ exec_log w' = exec_log w3
    /\ sc = reply_or "影片腳本創作過程中出現錯誤："
              (llm_invoke env (llm_log w3 ++ sum_calls) (script_prompt (topic s3) sm)
                 (script_request (topic s3)))
    /\ so = reply_or "社群媒體內容創作過程中出現錯誤："
              (llm_invoke env
                 (llm_log w3 ++ sum_calls
                  ++ [(script_prompt (topic s3) sm, script_request (topic s3))])
                 (social_prompt (topic s3) sc sm) (social_request (topic s3))).
Proof.
  intros H; unfold text_stages in H.
  apply bind_ok_inv in H; destruct H as (s4 & w4 & H4 & H).
  apply bind_ok_inv in H; destruct H as (s5 & w5 & H5 & H6).
  destruct (summary_node_ok_exact _ _ _ _ _ H4) as (Hf4 & He4 & _ & Hsum).
  assert (Hs4 : exists sm sum_calls,
             s4 = set_summary sm s3 /\ llm_log w4 = llm_log w3 ++ sum_calls
             /\ length sum_calls
                = (if nonempty_list (collect_successful (scraped_data s3) [])
                   then 1 else 0)).
  { destruct Hsum as [(Hc & -> & Hl) | (Hc & dumped & _ & -> & Hl)].
    - eexists _, []; rewrite Hc, app_nil_r; repeat split; exact Hl.
    - eexists _, [_]; split; [reflexivity |]. split; [exact Hl |].
      destruct (collect_successful (scraped_data s3) []); [contradiction | reflexivity]. }
  destruct Hs4 as (sm & sum_calls & -> & Hl4 & Hn).
  destruct (script_node_ok_exact _ _ _ _ _ H5) as (-> & Hl5 & Hf5 & He5 & _).
  destruct (social_node_ok_exact _ _ _ _ _ H6) as (-> & Hl6 & Hf6 & He6 & _).
  fields. eexists sm, _, _, sum_calls.
  split; [reflexivity |].
  split; [rewrite Hl6, Hl5, Hl4, <- !app_assoc; reflexivity |].
  split; [exact Hn |].
  split; [congruence |]. split; [congruence |].
  split; [rewrite Hl4; reflexivity |].
  rewrite Hl5, Hl4, <- app_assoc; reflexivity.
Qed.

(** X3. The counts of a returned bundle are consistent: the success count is
    at most the number of processed URLs, which is at most three; and the
    number of payloads the summary was built from is at most the success
    count (a program that returned nothing usable is counted as a success but
    not summarized). *)
Theorem bundle_accounting (env : Env) (topic : string) (urls : list string)
    (cb : option Callback) (w : World) :
  (forall b,
     fst (run_langgraph_workflow env topic urls cb w) = Ok b ->
     scraped_data_count b <= length (processed_urls b)
     /\ length (processed_urls b) <= 3)
  /\ (forall st' w',
        workflow_invoke env (initial_state_of topic urls cb) w = (Ok st', w') ->
        length (collect_successful (scraped_data st') [])
        <= scraped_data_count (result_of st')).
Proof.
  assert (Hgraph : forall st' w0 w',
             workflow_invoke env (initial_state_of topic urls cb) w0 = (Ok st', w') ->
             length (scraped_data st') = length (website_analyses st')
             /\ length (website_analyses st') <= 3).
  { intros st' w0 w' H.
    destruct (workflow_invoke_ok _ _ _ _ _ H) as (HF & _ & Hd & _); fields.
    destruct (Forall2_fingerprint_urls env _ _ HF) as [Ha _].
    rewrite <- (length_map sd_url), <- (length_map wa_url), Hd, Ha.
    split; [reflexivity | apply firstn_le_length]. }
  split.
  - intros b. unfold run_langgraph_workflow, try_catch, ret.
    destruct (run_guarded env topic urls cb w) as [[b' | e | | x] w1] eqn:Hg; simpl;
      intros Hb; try discriminate; injection Hb as <-.
    + destruct (run_guarded_ok _ _ _ _ _ _ _ Hg) as (st' & w0 & w2 & _ & Hw & _ & ->).
      destruct (Hgraph st' w0 w2 Hw) as [Hlen Hle].
      unfold result_of; simpl. rewrite length_map.
      split; [| exact Hle].
      rewrite <- Hlen. apply filter_length_le.
    + simpl; split; lia.
  - intros st' w' _. unfold result_of; simpl.
    rewrite collect_successful_filter; simpl. rewrite length_map.
    induction (scraped_data st') as [| d rest IH]; simpl; [lia |].
    destruct (execution_success d); simpl; [| exact IH].
    destruct (truthy (sd_data d)); simpl; lia.
Qed.

Lemma bundle_accounting_witness :
  exists b,
    fst (run_langgraph_workflow Demo.env "AI" Demo.seven_urls None empty_world) = Ok b
    /\ scraped_data_count b <= length (processed_urls b)
    /\ length (processed_urls b) <= 3
    /\ scraped_data_count b = 3.
Proof.
  eexists; split; [reflexivity |].
  destruct (bundle_accounting Demo.env "AI" Demo.seven_urls None empty_world) as [H _].
  destruct (H _ eq_refl) as [H1 H2].
  split; [exact H1 |]. split; [exact H2 | reflexivity].
Defined.

(** X4. When the callback returns and the backend client can be built, and
    there is at least one usable payload that [json.dumps] accepts, the
    summary stage serializes exactly the URL and data of the items that
    succeeded with data that counts, in input order, and calls the backend
    once with the prompt built from the topic and that text; the summary is
    the backend's reply, or the error text with the backend's message when
    the call raises. *)
Theorem summary_from_usable_payloads (env : Env) (st : WorkflowState) (w : World)
    (dumped : string) :
  callback_returns (progress_callback st) ->
  llm_available env ->
  usable_payloads (scraped_data st) <> [] ->
  json_dumps env (usable_payloads (scraped_data st)) = Returns dumped ->
  exists s4 w4,
    summary_agent_node env st w = (Ok s4, w4)
    /\ llm_log w4
       = llm_log w ++ [(summary_prompt (topic st) dumped, summary_request (topic st))]
    /\ summary s4
       = reply_or "摘要生成過程中出現錯誤："
           (llm_invoke env (llm_log w) (summary_prompt (topic st) dumped)
              (summary_request (topic st)))
    /\ scraped_data s4 = scraped_data st.
Proof.
  intros Hcb Hllm Hne Hd.
  assert (Hc : collect_successful (scraped_data st) [] = usable_payloads (scraped_data st))
    by (rewrite collect_successful_filter; reflexivity).
  unfold summary_agent_node; cbv zeta.
  rewrite (notified_returns_exact _ _ _ w Hcb), (with_llm_ready _ _ _ Hllm), Hc.
  destruct (usable_payloads (scraped_data st)) as [| p ps] eqn:Hu; [contradiction |].
  cbn [nonempty_list negb].
  erewrite bind_ok; [| unfold of_try; rewrite Hd; reflexivity].
  rewrite guarded_llm_call_exact.
  assert (Hl : llm_log (after_notify (progress_callback st)
                          "📋 Summary Agent 正在整合爬蟲結果..." w) = llm_log w)
    by (destruct (progress_callback st); reflexivity).
  eexists _, _; split; [reflexivity |].
  unfold log_llm, reply_or, summary_request; cbn [llm_log]; rewrite Hl.
  split; [reflexivity |].
  destruct (llm_invoke env (llm_log w) _ _); split; reflexivity.
Qed.

Lemma summary_from_usable_payloads_witness :
  exists s4 w4,
    summary_agent_node Demo.env_backend_down Cases.fruitful_state empty_world = (Ok s4, w4)
    /\ length (llm_log w4) = 1
    /\ summary s4 = "摘要生成過程中出現錯誤：backend timeout".
Proof.
  destruct (summary_from_usable_payloads Demo.env_backend_down Cases.fruitful_state
              empty_world "[...]" no_callback_returns eq_refl)
    as (s4 & w4 & H & Hl & Hs & _).
  - discriminate.
  - reflexivity.
  - exists s4, w4; split; [exact H |]. split; [rewrite Hl; reflexivity | exact Hs].
Defined.

(** X5. [json.dumps] is called outside the guard of the summary stage: when
    it rejects the usable payloads, the whole run ends in the failure bundle
    with that message, count 0 and no processed URL, although the pages were
    fetched and the programs were run, and no summary, script or social call
    reaches the backend. *)
Theorem unserializable_payload_voids_run (env : Env) (topic : string)
    (urls : list string) (cb : option Callback) (w w3 : World) (s3 : WorkflowState)
    (e : string) :
  callback_returns cb ->
  fan_out env (initial_state_of topic urls cb)
    (after_notify cb "🚀 啟動 LangGraph 工作流程..." w) = (Ok s3, w3) ->
  usable_payloads (scraped_data s3) <> [] ->
  json_dumps env (usable_payloads (scraped_data s3)) = Raises e ->
  fst (run_langgraph_workflow env topic urls cb w) = Ok (failure_result e)
  /\ fetch_log (snd (run_langgraph_workflow env topic urls cb w))
     = fetch_log w ++ firstn 3 urls
  /\ llm_log (snd (run_langgraph_workflow env topic urls cb w)) = llm_log w3.
Proof.
  intros Hcb Hfan Hne Hd.
  assert (Hc : collect_successful (scraped_data s3) [] = usable_payloads (scraped_data s3))
    by (rewrite collect_successful_filter; reflexivity).
  assert (Hcb3 : progress_callback s3 = cb).
  { destruct (fan_out_ok _ _ _ _ _ Hfan) as (l & cs & ds & calls & -> & _); reflexivity. }
  assert (Hllm : llm_available env) by exact (fan_out_llm_available _ _ _ _ _ Hfan).
  assert (Hsum : exists w4, summary_agent_node env s3 w3 = (Exc e, w4)
                            /\ llm_log w4 = llm_log w3 /\ fetch_log w4 = fetch_log w3).
  { unfold summary_agent_node; cbv zeta.
    rewrite notified_returns_exact by (rewrite Hcb3; exact Hcb).
    rewrite (with_llm_ready _ _ _ Hllm), Hc.
    destruct (usable_payloads (scraped_data s3)) as [| p ps]; [contradiction |].
    cbn [nonempty_list negb].
    erewrite bind_exc; [| unfold of_try; rewrite Hd; reflexivity].
    eexists; split; [reflexivity |].
    rewrite Hcb3; destruct cb; split; reflexivity. }
  destruct Hsum as (w4 & Hsum & Hl4 & Hf4).
  assert (Hrun : run_guarded env topic urls cb w = (Exc e, w4)).
  { unfold run_guarded. rewrite (notified_returns_exact _ _ _ w Hcb).
    erewrite bind_exc; [reflexivity |].
    rewrite workflow_invoke_split. rewrite (bind_ok _ _ _ _ _ Hfan).
    unfold text_stages. erewrite bind_exc; [reflexivity | exact Hsum]. }
  unfold run_langgraph_workflow, try_catch; rewrite Hrun; simpl.
  split; [reflexivity |]. split; [| exact Hl4].
  rewrite Hf4.
  destruct (fan_out_ok _ _ _ _ _ Hfan) as (l & cs & ds & calls & _ & _ & _ & _ & Hf & _).
  fields. rewrite Hf; destruct cb; reflexivity.
Qed.

Lemma unserializable_payload_voids_run_witness :
  fst (run_langgraph_workflow Demo.env_unserializable "AI" ["https://a.example/1"] None
         empty_world)
  = Ok (failure_result "Object of type set is not JSON serializable")
  /\ length (llm_log (snd (run_langgraph_workflow Demo.env_unserializable "AI"
                             ["https://a.example/1"] None empty_world))) = 1.
Proof.
  destruct (unserializable_payload_voids_run Demo.env_unserializable "AI"
              ["https://a.example/1"] None empty_world
              (snd (fan_out Demo.env_unserializable
                      (initial_state_of "AI" ["https://a.example/1"] None) empty_world))
              _ "Object of type set is not JSON serializable"
              no_callback_returns eq_refl) as (H & _ & Hl).
  - discriminate.
  - reflexivity.
  - split; [exact H | rewrite Hl; reflexivity].
Defined.

(** X6. A run of the graph that reaches its end has called the generation
    backend once per processed URL, once more for the summary when there was
    a usable payload, and once each for the script and the social copy, in
    that order; failed calls are not repeated. *)
Theorem backend_calls_of_a_run (env : Env) (st st' : WorkflowState) (w w' : World) :
  workflow_invoke env st w = (Ok st', w') ->
  exists gen_calls sum_calls script_call social_call,
    llm_log w' = llm_log w ++ gen_calls ++ sum_calls ++ [script_call; social_call]
    /\ length gen_calls = length (firstn 3 (trend_urls st))
    /\ length sum_calls
       = (if nonempty_list (usable_payloads (scraped_data st')) then 1 else 0)
    /\ snd script_call = script_request (topic st)
    /\ snd social_call = social_request (topic st)
    /\ length (llm_log w')
       = length (llm_log w) + Nat.min 3 (length (trend_urls st))
         + (if nonempty_list (usable_payloads (scraped_data st')) then 1 else 0) + 2.
Proof.
  intros H; rewrite workflow_invoke_split in H.
  apply bind_ok_inv in H; destruct H as (s3 & w3 & H3 & H).
  destruct (fan_out_ok _ _ _ _ _ H3)
    as (l & cs & ds & calls & -> & _ & _ & _ & _ & Hl3 & Hn3 & _).
  destruct (text_stages_ok _ _ _ _ _ H) as (sm & sc & so & sum_calls & -> & Hl & Hn & _).
  fields. rewrite collect_successful_filter in Hn; simpl in Hn.
  eexists calls, sum_calls, _, _.
  split; [rewrite Hl, Hl3, <- app_assoc; reflexivity |].
  split; [exact Hn3 |]. split; [exact Hn |].
  split; [reflexivity |]. split; [reflexivity |].
  rewrite Hl, Hl3, !length_app, Hn3, length_firstn; fold (usable_payloads ds) in Hn.
  rewrite Hn; simpl; lia.
Qed.

Lemma backend_calls_of_a_run_witness :
  exists st' w',
    workflow_invoke Demo.env (initial_state_of "AI" Demo.seven_urls None) empty_world
    = (Ok st', w')
    /\ length (llm_log w') = 6.
Proof.
  eexists _, _; split; [reflexivity |].
  destruct (backend_calls_of_a_run Demo.env (initial_state_of "AI" Demo.seven_urls None)
              _ empty_world _ eq_refl) as (_ & _ & _ & _ & _ & _ & _ & _ & _ & Hlen).
  exact Hlen.
Defined.

(** X7. The graph never writes [topic], [trend_urls], the callback or the
    diagnostic list [error_messages]: at the end of a run they are what they
    were at the start, so [error_messages] is still empty even when every item
    failed at every stage. *)
Theorem graph_leaves_inputs_alone (env : Env) (st st' : WorkflowState) (w w' : World) :
  workflow_invoke env st w = (Ok st', w') ->
  topic st' = topic st /\ trend_urls st' = trend_urls st
  /\ progress_callback st' = progress_callback st
  /\ error_messages st' = error_messages st.
Proof.
  intros H; rewrite workflow_invoke_split in H.
  apply bind_ok_inv in H; destruct H as (s3 & w3 & H3 & H).
  destruct (fan_out_ok _ _ _ _ _ H3) as (l & cs & ds & calls & -> & _).
  destruct (text_stages_ok _ _ _ _ _ H) as (sm & sc & so & sum_calls & -> & _).
  repeat split.
Qed.

Lemma graph_leaves_inputs_alone_witness :
  exists st' w',
    workflow_invoke Demo.env_backend_down
      (initial_state_of "AI" ["https://down.example"] None) empty_world = (Ok st', w')
    /\ map generation_success (scraping_codes st') = [false]
    /\ map execution_success (scraped_data st') = [false]
    /\ error_messages st' = [].
Proof.
  eexists _, _; split; [reflexivity |].
  destruct (graph_leaves_inputs_alone Demo.env_backend_down
              (initial_state_of "AI" ["https://down.example"] None) _ empty_world _ eq_refl)
    as (_ & _ & _ & He).
  split; [reflexivity |]. split; [reflexivity | exact He].
Defined.

(** X8. When the callback returns and the backend client can be built, the
    social stage does not depend on the backend call of the script stage
    having succeeded: after the script stage the social stage runs, and its
    prompt embeds whatever text the script stage left, the error text
    included; the two stages make one backend call each and leave the summary
    as it was. *)
Theorem social_copy_is_written_from_the_script_text (env : Env) (st : WorkflowState)
    (w : World) :
  callback_returns (progress_callback st) ->
  llm_available env ->
  exists s5 w5 s6 w6,
    script_writer_node env st w = (Ok s5, w5)
    /\ social_media_writer_node env s5 w5 = (Ok s6, w6)
    /\ video_script s6
       = reply_or "影片腳本創作過程中出現錯誤："
           (llm_invoke env (llm_log w) (script_prompt (topic st) (summary st))
              (script_request (topic st)))
    /\ llm_log w6
       = llm_log w
         ++ [(script_prompt (topic st) (summary st), script_request (topic st));
             (social_prompt (topic st) (video_script s6) (summary st),
              social_request (topic st))]
    /\ summary s6 = summary st.
Proof.
  intros Hcb Hllm.
  destruct (script_node_total env st w Hcb Hllm) as (s & w5 & H5 & _).
  destruct (script_node_ok_exact _ _ _ _ _ H5) as (Hs5 & Hl5 & _).
  destruct (social_node_total env (set_video_script s st) w5 Hcb Hllm)
    as (so & w6 & H6 & _).
  destruct (social_node_ok_exact _ _ _ _ _ H6) as (Hs6 & Hl6 & _).
  exists (set_video_script s st), w5, (set_social_media so (set_video_script s st)), w6.
  split; [exact H5 |]. split; [exact H6 |].
  fields. injection Hs5 as Hs. clear Hs6.
  split; [exact Hs |].
  split; [rewrite Hl6, Hl5, <- app_assoc; reflexivity | reflexivity].
Qed.

Lemma social_copy_is_written_from_the_script_text_witness :
  exists s5 w5 s6 w6,
    script_writer_node Demo.env_backend_down Cases.fruitful_state empty_world = (Ok s5, w5)
    /\ social_media_writer_node Demo.env_backend_down s5 w5 = (Ok s6, w6)
    /\ video_script s6 = "影片腳本創作過程中出現錯誤：backend timeout"
    /\ map fst (llm_log w6)
       = [script_prompt "AI" EmptyString;
          social_prompt "AI" "影片腳本創作過程中出現錯誤：backend timeout" EmptyString].
Proof.
  destruct (social_copy_is_written_from_the_script_text Demo.env_backend_down
              Cases.fruitful_state empty_world no_callback_returns eq_refl)
    as (s5 & w5 & s6 & w6 & H5 & H6 & Hv & Hl & _).
  exists s5, w5, s6, w6; split; [exact H5 |]. split; [exact H6 |].
  split; [exact Hv |]. rewrite Hl, Hv; reflexivity.
Defined.

(** ** Where the executed programs come from *)

Lemma generate_one_came_from_backend (env : Env) (a : Analysis) (w w' : World)
    (c : ScrapingCode) :
  generate_one env a w = (Ok c, w') -> came_from_backend env c.
Proof.
  unfold generate_one, try_catch, bind, llm_call, of_try, ret.
  destruct (negb (analysis_success a)).
  - intros H; injection H as <- <-; intros code Hc; discriminate.
  - destruct (wa_structure a) as [ws |].
    + destruct (llm_invoke env (llm_log w) _ _) as [reply | e] eqn:Hr;
        intros H; injection H as <- <-; intros code Hc; simpl in Hc; [| discriminate].
      injection Hc as <-. eexists _, _, _, reply; split; [exact Hr | reflexivity].
    + intros H; injection H as <- <-; intros code Hc; discriminate.
Qed.

Lemma generate_loop_came_from_backend (env : Env) (l : list Analysis)
    (acc cs : list ScrapingCode) (w w' : World) :
  Forall (came_from_backend env) acc ->
  generate_loop env l acc w = (Ok cs, w') ->
  Forall (came_from_backend env) cs.
Proof.
  revert acc w; induction l as [| a rest IH]; intros acc w Hacc; simpl.
  - unfold ret; intros H; injection H as <- <-; exact Hacc.
  - intros H; apply bind_ok_inv in H; destruct H as (c & w1 & H1 & H).
    apply (IH (acc ++ [c]) w1); [| exact H].
    apply Forall_app; split; [exact Hacc |].
    constructor; [| constructor]. exact (generate_one_came_from_backend _ _ _ _ _ H1).
Qed.

Lemma runnable_entry_inv (ci : ScrapingCode) (code url : string) :
  In (code, url) (runnable_entry ci) ->
  sc_code ci = Some code /\ url = sc_url ci /\ code <> EmptyString.
Proof.
  unfold runnable_entry, runnable_code.
  destruct (generation_success ci); [| intros []].
  destruct (sc_code ci) as [c |]; [| intros []].
  destruct c as [| ch rest]; simpl; [intros [] |].
  intros [H | []]; injection H as <- <-; repeat split; discriminate.
Qed.

(** X9. Every program the execution stage has run in a completed run of the
    graph is the non-empty body extracted from a reply of the generation
    backend, and was run on one of the first three seed URLs. *)
Theorem executed_programs_come_from_the_backend (env : Env) (st st' : WorkflowState)
    (w w' : World) :
  workflow_invoke env st w = (Ok st', w') ->
  exists runs,
    exec_log w' = exec_log w ++ runs
    /\ length runs <= 3
    /\ forall code url,
         In (code, url) runs ->
         In url (firstn 3 (trend_urls st))
         /\ code <> EmptyString
         /\ exists history sys human reply,
              llm_invoke env history sys human = Returns reply
              /\ code = extract_code reply.
Proof.
  intros H; rewrite workflow_invoke_split in H.
  apply bind_ok_inv in H; destruct H as (s3 & w3 & H3 & H).
  destruct (text_stages_ok _ _ _ _ _ H) as (sm & sc & so & sum_calls & _ & _ & _ & _ & He & _).
  assert (Hcs : exists cs, exec_log w3 = exec_log w ++ flat_map runnable_entry cs
                           /\ map sc_url cs = firstn 3 (trend_urls st)
                           /\ Forall (came_from_backend env) cs).
  { unfold fan_out in H3.
    apply bind_ok_inv in H3; destruct H3 as (s1 & w1 & H1 & H3).
    apply bind_ok_inv in H3; destruct H3 as (s2 & w2 & H2 & H3).
    destruct (analyze_urls_node_ok_exact _ _ _ _ _ H1) as (l & -> & HF & _ & _ & He1 & _).
    destruct (Forall2_fingerprint_urls env _ _ HF) as [Hm Hp].
    pose proof H2 as H2'. apply notified_ok_exact in H2'.
    apply with_llm_ok_inv in H2'; destruct H2' as [_ H2'].
    apply bind_ok_inv in H2'; destruct H2' as (cs & w2' & Hloop & Hret).
    unfold ret in Hret; injection Hret as <- <-.
    destruct (generate_node_ok_exact env (set_website_analyses l st) _ w1 _
                (Forall_impl _ probed_well_formed Hp) H2)
      as (cs' & calls & Heq & Hcode & _ & _ & _ & He2 & _).
    assert (cs' = cs) as -> by (injection Heq as ->; reflexivity).
    destruct (execute_node_ok_exact _ _ _ _ _ H3) as (ds & _ & _ & _ & _ & He3 & _).
    fields. exists cs. split; [congruence |].
    split; [rewrite (code_for_probed_urls l cs Hp Hcode); exact Hm |].
    exact (generate_loop_came_from_backend env _ [] cs _ _ (Forall_nil _) Hloop). }
  destruct Hcs as (cs & Hex & Hurls & Hback).
  exists (flat_map runnable_entry cs); split; [congruence |].
  split.
  - assert (Hlen : length cs <= 3)
      by (rewrite <- (length_map sc_url), Hurls; apply firstn_le_length).
    assert (Hle : forall l, length (flat_map runnable_entry l) <= length l).
    { induction l as [| c l IH]; simpl; [lia |].
      rewrite length_app. unfold runnable_entry at 1.
      destruct (runnable_code c); simpl; lia. }
    specialize (Hle cs); lia.
  - intros code url Hin. apply in_flat_map in Hin; destruct Hin as (ci & Hci & Hin).
    destruct (runnable_entry_inv ci code url Hin) as (Hcode & -> & Hne).
    split; [rewrite <- Hurls; apply in_map; exact Hci |].
    split; [exact Hne |].
    exact (proj1 (Forall_forall _ _) Hback ci Hci code Hcode).
Qed.

Lemma executed_programs_come_from_the_backend_witness :
  exists st' w',
    workflow_invoke Demo.env (initial_state_of "AI" Demo.seven_urls None) empty_world
    = (Ok st', w')
    /\ map fst (exec_log w')
       = [extract_code Demo.reply; extract_code Demo.reply; extract_code Demo.reply].
Proof.
  eexists _, _; split; [reflexivity |].
  destruct (executed_programs_come_from_the_backend Demo.env
              (initial_state_of "AI" Demo.seven_urls None) _ empty_world _ eq_refl)
    as (runs & Hruns & _).
  simpl in Hruns. subst runs. reflexivity.
Defined.

(** ** The messages handed to the callback *)

Section ProgressFrames.

Context {A B : Type}.

Lemma keeps_progress_log_bind (m : M A) (k : A -> M B) :
  keeps_progress_log m -> (forall a, keeps_progress_log (k a)) ->
  keeps_progress_log (bind m k).
Proof.
  intros Hm Hk w; unfold bind; specialize (Hm w).
  destruct (m w) as [[a | e | | x] w1]; simpl in *; try exact Hm.
  now rewrite Hk.
Qed.

Lemma keeps_progress_log_try (m : M A) (h : string -> M A) :
  keeps_progress_log m -> (forall e, keeps_progress_log (h e)) ->
  keeps_progress_log (try_catch m h).
Proof.
  intros Hm Hh w; unfold try_catch; specialize (Hm w).
  destruct (m w) as [[a | e | | x] w1]; simpl in *; try exact Hm.
  now rewrite Hh.
Qed.

Lemma emits_bind (l1 l2 : list string) (P : A -> Prop) (m : M A) (k : A -> M B) :
  emits l1 m ->
  (forall w a, fst (m w) = Ok a -> P a) ->
  (forall a, P a -> emits l2 (k a)) ->
  emits (l1 ++ l2) (bind m k).
Proof.
  intros Hm HP Hk w; unfold bind.
  destruct (Hm w) as (n1 & Hlog & Hle & Hfull). specialize (HP w).
  destruct (m w) as [[a | e | | x] w1]; simpl in *.
  - rewrite (Hfull (ex_intro _ a eq_refl)) in Hlog. rewrite firstn_all in Hlog.
    destruct (Hk a (HP a eq_refl) w1) as (n2 & Hlog2 & Hle2 & Hfull2).
    exists (length l1 + n2). rewrite Hlog2, Hlog, <- app_assoc, firstn_app_2.
    split; [reflexivity |]. rewrite length_app.
    split; [lia |]. intros Hok; rewrite (Hfull2 Hok); reflexivity.
  - exists n1. rewrite firstn_app.
    replace (n1 - length l1) with 0 by lia. rewrite firstn_O, app_nil_r.
    split; [exact Hlog |]. rewrite length_app.
    split; [lia |]. intros (a & Ha); discriminate.
  - exists n1. rewrite firstn_app.
    replace (n1 - length l1) with 0 by lia. rewrite firstn_O, app_nil_r.
    split; [exact Hlog |]. rewrite length_app.
    split; [lia |]. intros (a & Ha); discriminate.
  - exists n1. rewrite firstn_app.
    replace (n1 - length l1) with 0 by lia. rewrite firstn_O, app_nil_r.
    split; [exact Hlog |]. rewrite length_app.
    split; [lia |]. intros (a & Ha); discriminate.
Qed.

End ProgressFrames.

Lemma keeps_progress_log_ret {A : Type} (a : A) : keeps_progress_log (ret a).
Proof. intros w; reflexivity. Qed.

Lemma keeps_progress_log_of_try {A : Type} (t : Try A) : keeps_progress_log (of_try t).
Proof. intros w; destruct t; reflexivity. Qed.

Lemma keeps_progress_log_http_get (env : Env) (url : string) :
  keeps_progress_log (http_get env url).
Proof. intros w; unfold http_get; destruct (requests_get env url); reflexivity. Qed.

Lemma keeps_progress_log_llm (env : Env) (sys human : string) :
  keeps_progress_log (llm_call env sys human).
Proof. intros w; unfold llm_call; destruct (llm_invoke env _ _ _); reflexivity. Qed.

Lemma keeps_progress_log_exec (env : Env) (code url : string) :
  keeps_progress_log (exec_call env code url).
Proof. intros w; unfold exec_call; destruct (run_program env _ code url); reflexivity. Qed.

#[local] Hint Resolve keeps_progress_log_ret keeps_progress_log_of_try
  keeps_progress_log_http_get keeps_progress_log_llm keeps_progress_log_exec : frames.

Ltac quiet :=
  repeat first
    [ apply keeps_progress_log_bind | apply keeps_progress_log_try
    | match goal with |- forall _, _ => intro end
    | match goal with
      | |- keeps_progress_log (match ?x with _ => _ end) => destruct x
      end ];
  auto with frames.

Lemma keeps_progress_log_analyze_loop (env : Env) (urls : list string) (acc : list Analysis) :
  keeps_progress_log (analyze_loop env urls acc).
Proof.
  intros w; destruct (analyze_loop_ok env urls acc w) as (l & -> & _); reflexivity.
Qed.

Lemma keeps_progress_log_generate_loop (env : Env) (l : list Analysis)
    (acc : list ScrapingCode) :
  keeps_progress_log (generate_loop env l acc).
Proof.
  revert acc; induction l as [| a rest IH]; intros acc; simpl; [quiet |].
  apply keeps_progress_log_bind; [| intros c; apply IH].
  unfold generate_one; quiet.
Qed.

Lemma keeps_progress_log_execute_loop (env : Env) (l : list ScrapingCode)
    (acc : list ScrapedData) :
  keeps_progress_log (execute_loop env l acc).
Proof.
  revert acc; induction l as [| ci rest IH]; intros acc; simpl; [quiet |].
  apply keeps_progress_log_bind; [| intros d; apply IH].
  unfold execute_one; quiet.
Qed.

#[local] Hint Resolve keeps_progress_log_analyze_loop keeps_progress_log_generate_loop
  keeps_progress_log_execute_loop : frames.

Lemma emits_notified {A : Type} (cb : option Callback) (msg : string) (body : M A) :
  keeps_progress_log body -> emits (delivered cb [msg]) (notify cb msg ;;; body).
Proof.
  intros Hb w; unfold bind; destruct cb as [f |]; simpl.
  - destruct (f (progress_log w) msg) as [[] | e]; simpl.
    + exists 1; rewrite Hb; simpl. repeat split; lia.
    + exists 1; simpl. repeat split; lia.
  - exists 0; rewrite Hb, app_nil_r; simpl. repeat split; lia.
Qed.

Lemma delivered_app (cb : option Callback) (l1 l2 : list string) :
  delivered cb (l1 ++ l2) = delivered cb l1 ++ delivered cb l2.
Proof. destruct cb; reflexivity. Qed.

(** Each node hands its one message to the callback of its state. *)
Ltac node_body H :=
  unfold analyze_urls_node, generate_scraping_code_node, execute_scraping_code_node,
    summary_agent_node, script_writer_node, social_media_writer_node; cbv zeta;
  rewrite H; apply emits_notified; quiet.

Lemma graph_emits (env : Env) (cb : option Callback) (st : WorkflowState) :
  progress_callback st = cb ->
  emits (delivered cb (firstn 6 (skipn 1 milestones))) (workflow_invoke env st).
Proof.
  intros Hcb. unfold workflow_invoke.
  set (P := fun s : WorkflowState => progress_callback s = cb).
  change (firstn 6 (skipn 1 milestones))
    with (["🔍 正在分析趨勢網站結構..."]
          ++ ["🤖 Code Agent 正在生成爬蟲程式碼..."]
          ++ ["⚙️ Code Executor 正在執行爬蟲程式碼..."]
          ++ ["📋 Summary Agent 正在整合爬蟲結果..."]
          ++ ["🎬 Script Writer 正在創作影片腳本..."]
          ++ ["📱 Social Media Writer 正在創作社群媒體內容..."]).
  rewrite !delivered_app.
  apply (emits_bind _ _ P); [node_body Hcb | |].
  { intros w a Ha. destruct (analyze_urls_node env st w) as [r w1] eqn:H; simpl in Ha; subst r.
    destruct (analyze_urls_node_ok _ _ _ _ _ H) as (l & -> & _); exact Hcb. }
  intros s1 H1; unfold P in H1. apply (emits_bind _ _ P); [node_body H1 | |].
  { intros w a Ha.
    destruct (generate_scraping_code_node env s1 w) as [r w1] eqn:H; simpl in Ha; subst r.
    apply notified_ok_exact in H. apply with_llm_ok_inv in H; destruct H as [_ H].
    apply bind_ok_inv in H.
    destruct H as (cs & w2 & _ & H). unfold ret in H; injection H as <- <-; exact H1. }
  intros s2 H2; unfold P in H2. apply (emits_bind _ _ P); [node_body H2 | |].
  { intros w a Ha.
    destruct (execute_scraping_code_node env s2 w) as [r w1] eqn:H; simpl in Ha; subst r.
    destruct (execute_node_ok _ _ _ _ _ H) as (ds & -> & _); exact H2. }
  intros s3 H3; unfold P in H3. apply (emits_bind _ _ P); [node_body H3 | |].
  { intros w a Ha.
    destruct (summary_agent_node env s3 w) as [r w1] eqn:H; simpl in Ha; subst r.
    destruct (summary_node_ok _ _ _ _ _ H) as (sm & ->); exact H3. }
  intros s4 H4; unfold P in H4. apply (emits_bind _ _ P); [node_body H4 | |].
  { intros w a Ha.
    destruct (script_writer_node env s4 w) as [r w1] eqn:H; simpl in Ha; subst r.
    destruct (script_node_ok _ _ _ _ _ H) as (sc & ->); exact H4. }
  intros s5 H5; unfold P in H5. node_body H5.
Qed.

Lemma after_launch_emits (env : Env) (topic : string) (urls : list string)
    (cb : option Callback) :
  emits (delivered cb (skipn 1 milestones))
    (final_state <- workflow_invoke env (initial_state_of topic urls cb) ;;
     notify cb "✅ LangGraph 工作流程執行完成！" ;;;
     ret (result_of final_state)).
Proof.
  change (skipn 1 milestones)
    with (firstn 6 (skipn 1 milestones) ++ ["✅ LangGraph 工作流程執行完成！"]).
  rewrite delivered_app.
  apply (emits_bind _ _ (fun _ => True)); [| intros; exact I | intros st' _].
  - apply graph_emits; reflexivity.
  - apply emits_notified; quiet.
Qed.

(** X10. The callback gets the eight milestone messages in the order of the
    stages and nothing else: whatever happens, what it has been handed is a
    prefix of the eight that starts with the launch message, and it is all
    eight when the guarded body of the run completes.  Without a callback the
    progress log does not change. *)
Theorem milestones_in_order (env : Env) (topic : string) (urls : list string)
    (w : World) :
  (forall f,
     exists n,
       progress_log (snd (run_langgraph_workflow env topic urls (Some f) w))
       = progress_log w ++ firstn n milestones
       /\ 1 <= n <= 8
       /\ ((exists b, fst (run_guarded env topic urls (Some f) w) = Ok b) -> n = 8))
  /\ progress_log (snd (run_langgraph_workflow env topic urls None w)) = progress_log w.
Proof.
  split.
  - intros f. rewrite run_world. unfold run_guarded.
    destruct (f (progress_log w) "🚀 啟動 LangGraph 工作流程...") as [[] | e] eqn:Hf.
    + erewrite bind_ok; [| simpl; rewrite Hf; reflexivity].
      destruct (after_launch_emits env topic urls (Some f)
                  (log_progress "🚀 啟動 LangGraph 工作流程..." w))
        as (k & Hlog & Hle & Hfull).
      simpl delivered in Hlog. simpl in Hle, Hfull.
      exists (S k). rewrite Hlog. simpl progress_log. rewrite <- app_assoc.
      split; [reflexivity |]. split; [lia |].
      intros Hok; rewrite (Hfull Hok); reflexivity.
    + erewrite bind_exc; [| simpl; rewrite Hf; reflexivity].
      exists 1; simpl. split; [reflexivity |]. split; [lia |].
      intros (b & Hb); discriminate.
  - rewrite run_world. unfold run_guarded.
    erewrite bind_ok; [| reflexivity].
    destruct (after_launch_emits env topic urls None w) as (k & Hlog & _).
    simpl delivered in Hlog. rewrite firstn_nil, app_nil_r in Hlog. exact Hlog.
Qed.

Lemma milestones_in_order_witness :
  progress_log (snd (run_langgraph_workflow Demo.env "AI" Demo.seven_urls
                       (Some Demo.quiet_callback) empty_world)) = milestones
  /\ progress_log (snd (run_langgraph_workflow Demo.env "AI" Demo.seven_urls
                          (Some Demo.raising_callback) empty_world))
     = firstn 1 milestones.
Proof.
  destruct (milestones_in_order Demo.env "AI" Demo.seven_urls empty_world) as [H _].
  split.
  - destruct (H Demo.quiet_callback) as (n & Hlog & _ & Hfull).
    rewrite Hlog, Hfull; [reflexivity |]. eexists; reflexivity.
  - reflexivity.
Defined.

(** ** Strings: occurrences, slices and [strip] *)

Lemma append_assoc (a b c : string) : ((a ++ b) ++ c = a ++ b ++ c)%string.
Proof. induction a as [| ch a IH]; simpl; [reflexivity | now rewrite IH]. Qed.

Lemma append_nil_r (a : string) : (a ++ EmptyString)%string = a.
Proof. induction a as [| ch a IH]; simpl; [reflexivity | now rewrite IH]. Qed.

Lemma length_append (a b : string) : String.length (a ++ b)%string = String.length a + String.length b.
Proof. induction a as [| ch a IH]; simpl; [reflexivity | now rewrite IH]. Qed.

Lemma substring_take_drop (n m : nat) (s : string) : substring n m s = string_take m (string_drop n s).
Proof.
  revert n m; induction s as [| c r IH]; intros [| n] [| m]; simpl; try reflexivity.
  - now rewrite IH.
  - apply IH.
  - apply IH.
Qed.

Lemma take_drop (n : nat) (s : string) : (string_take n s ++ string_drop n s)%string = s.
Proof.
  revert s; induction n as [| n IH]; intros [| c r]; simpl; try reflexivity.
  now rewrite IH.
Qed.

Lemma length_take_le (n : nat) (s : string) : String.length (string_take n s) <= n.
Proof.
  revert s; induction n as [| n IH]; intros [| c r]; simpl; try lia.
  specialize (IH r); lia.
Qed.

Lemma drop_add (n m : nat) (s : string) : string_drop (n + m) s = string_drop m (string_drop n s).
Proof.
  revert s; induction n as [| n IH]; intros [| c r]; simpl; try reflexivity.
  - destruct m; reflexivity.
  - apply IH.
Qed.

Lemma drop_app_length (a x : string) : string_drop (String.length a) (a ++ x)%string = x.
Proof. induction a as [| ch a IH]; simpl; [reflexivity | exact IH]. Qed.

Lemma take_app_length (u y : string) : string_take (String.length u) (u ++ y)%string = u.
Proof. induction u as [| ch u IH]; simpl; [reflexivity | now rewrite IH]. Qed.

Lemma occurs_at (a u b : string) :
  substring (String.length a) (String.length u) (a ++ u ++ b)%string = u.
Proof. now rewrite substring_take_drop, drop_app_length, take_app_length. Qed.

Lemma substring_occurs (p : nat) (u s : string) :
  substring p (String.length u) s = u -> occurs u s.
Proof.
  rewrite substring_take_drop; intros H.
  exists (string_take p s), (string_drop (String.length u) (string_drop p s)).
  rewrite <- H at 1. now rewrite take_drop, take_drop.
Qed.

Lemma occurs_take (u t : string) (n : nat) : occurs u (string_take n t) -> occurs u t.
Proof.
  intros (a & b & H). exists a, (b ++ string_drop n t)%string.
  rewrite <- (take_drop n t) at 1. rewrite H, !append_assoc. reflexivity.
Qed.

Lemma occurs_drop (u t : string) (n : nat) : occurs u (string_drop n t) -> occurs u t.
Proof.
  intros (a & b & H). exists (string_take n t ++ a)%string, b.
  rewrite <- (take_drop n t) at 1. rewrite H, !append_assoc. reflexivity.
Qed.

Lemma index_ge (n m : nat) (s1 s2 : string) : index n s1 s2 = Some m -> n <= m.
Proof.
  revert n m; induction s2 as [| b s2 IH]; intros [| n] m; simpl; try lia.
  - discriminate.
  - destruct (index n s1 s2) as [k |] eqn:Hk; intros H; [| discriminate].
    injection H as <-. specialize (IH n k Hk). lia.
Qed.

Lemma index_none_not_occurs (u s : string) :
  u <> EmptyString -> (index 0 u s = None <-> ~ occurs u s).
Proof.
  intros Hu; split.
  - intros Hn (a & b & ->).
    apply (index_correct3 0 (String.length a) u _ Hn Hu); [lia | apply occurs_at].
  - intros Hno. destruct (index 0 u s) as [p |] eqn:Hp; [| reflexivity].
    exfalso; apply Hno. eapply substring_occurs, index_correct1; exact Hp.
Qed.

(** The text between a position and the first later occurrence of [u] holds
    no occurrence of [u]. *)
Lemma no_occurrence_before_index (u s : string) (start e : nat) :
  u <> EmptyString ->
  index start u s = Some e ->
  ~ occurs u (slice start e s).
Proof.
  intros Hu He (a & b & Hbody). unfold slice in Hbody.
  assert (Hpos : 1 <= String.length u) by (destruct u; [contradiction | simpl; lia]).
  rewrite substring_take_drop in Hbody.
  pose proof (index_ge _ _ _ _ He) as Hge.
  pose proof (length_take_le (e - start) (string_drop start s)) as Hlen.
  rewrite Hbody, !length_append in Hlen.
  apply (index_correct2 _ _ _ _ He (start + String.length a)); [lia | lia |].
  rewrite substring_take_drop, drop_add.
  rewrite <- (take_drop (e - start) (string_drop start s)), Hbody, !append_assoc.
  now rewrite drop_app_length, take_app_length.
Qed.

Lemma lstrip_suffix (t : string) : exists ws, t = (ws ++ lstrip t)%string.
Proof.
  assert (H : forall n t, String.length t <= n -> exists ws, t = (ws ++ lstrip t)%string).
  { induction n as [| n IH]; intros [| c1 r1] Hlen;
      try (exists EmptyString; reflexivity); [simpl in Hlen; lia |].
    simpl in Hlen. cbn [lstrip]. destruct (is_space c1).
    - destruct (IH r1) as (ws & Hws); [lia |].
      exists (String c1 ws); simpl; now rewrite <- Hws.
    - destruct r1 as [| c2 r2]; [exists EmptyString; reflexivity |].
      simpl in Hlen. destruct (is_space2 c1 c2).
      + destruct (IH r2) as (ws & Hws); [lia |].
        exists (String c1 (String c2 ws)); simpl; now rewrite <- Hws.
      + destruct r2 as [| c3 r3]; [exists EmptyString; reflexivity |].
        simpl in Hlen. destruct (is_space3 c1 c2 c3); [| exists EmptyString; reflexivity].
        destruct (IH r3) as (ws & Hws); [lia |].
        exists (String c1 (String c2 (String c3 ws))); simpl; now rewrite <- Hws. }
  exact (H (String.length t) t (le_n _)).
Qed.

Lemma rstrip_prefix (t : string) : exists ws, t = (rstrip t ++ ws)%string.
Proof.
  induction t as [| c r (ws & IH)]; [exists EmptyString; reflexivity |].
  change (rstrip (String c r))
    with (if blank (String c r) then EmptyString else String c (rstrip r)).
  destruct (blank (String c r)).
  - exists (String c r); reflexivity.
  - exists ws; simpl; now rewrite <- IH.
Qed.

Lemma strip_infix (t : string) : exists ws1 ws2, t = (ws1 ++ strip t ++ ws2)%string.
Proof.
  destruct (lstrip_suffix t) as (ws1 & H1).
  destruct (rstrip_prefix (lstrip t)) as (ws2 & H2).
  exists ws1, ws2. unfold strip. rewrite <- H2. exact H1.
Qed.

(** [strip] removes the white space outside ASCII as well, and leaves other
    characters of several bytes alone. *)
Example strip_removes_unicode_white_space :
  strip (Demo.no_break_space ++ Demo.ideographic_space ++ "x = 1" ++ Demo.next_line ++ " ")
  = "x = 1"
  /\ strip ("  無標題" ++ Demo.no_break_space) = "無標題"
  /\ extract_code ("```python" ++ Demo.no_break_space ++ "x = 1" ++ Demo.ideographic_space
                   ++ "```")
     = "x = 1".
Proof. repeat split. Qed.

Lemma occurs_strip (u t : string) : occurs u (strip t) -> occurs u t.
Proof.
  intros (a & b & H). destruct (strip_infix t) as (ws1 & ws2 & Ht).
  exists (ws1 ++ a)%string, (b ++ ws2)%string. rewrite Ht at 1. rewrite H, !append_assoc. reflexivity.
Qed.

Lemma occurs_fence_prefix (s : string) : occurs "```python" s -> occurs "```" s.
Proof.
  intros (a & b & ->). exists a, ("python" ++ b)%string. reflexivity.
Qed.

Lemma extract_code_unfenced (s : string) : ~ occurs "```" s -> extract_code s = s.
Proof.
  intros Hno. unfold extract_code, contains.
  destruct (index 0 "```python" s) as [p |] eqn:Hp; [| reflexivity].
  exfalso; apply Hno, occurs_fence_prefix.
  eapply substring_occurs, index_correct1; exact Hp.
Qed.

(** X11. What [extract_code] keeps of a reply.  With a python fence that is
    closed, the program is the stripped text between the opening fence and the
    next fence, and holds no fence marker; with an opening fence that is never
    closed, or with no python fence, the reply is kept whole (an unclosed
    opening fence stays in the program); and extracting twice is extracting
    once. *)
Theorem extract_code_fence_free (s : string) :
  (forall found e,
     index 0 "```python" s = Some found ->
     index (found + 9) "```" s = Some e ->
     extract_code s = strip (slice (found + 9) e s)
     /\ contains "```" (extract_code s) = false)
  /\ (forall found,
        index 0 "```python" s = Some found ->
        index (found + 9) "```" s = None ->
        extract_code s = s)
  /\ (index 0 "```python" s = None -> extract_code s = s)
  /\ extract_code (extract_code s) = extract_code s.
Proof.
  assert (Hfence : "```" <> EmptyString) by discriminate.
  assert (Hfenced : forall found e,
             index 0 "```python" s = Some found ->
             index (found + 9) "```" s = Some e ->
             extract_code s = strip (slice (found + 9) e s)
             /\ ~ occurs "```" (extract_code s)).
  { intros found e Hf He.
    assert (Heq : extract_code s = strip (slice (found + 9) e s)).
    { unfold extract_code, contains; rewrite Hf, He; reflexivity. }
    split; [exact Heq |]. rewrite Heq. intros Ho.
    apply occurs_strip in Ho. exact (no_occurrence_before_index _ _ _ _ Hfence He Ho). }
  split; [| split; [| split]].
  - intros found e Hf He. destruct (Hfenced found e Hf He) as [Heq Hno].
    split; [exact Heq |]. unfold contains.
    rewrite (proj2 (index_none_not_occurs "```" _ Hfence) Hno). reflexivity.
  - intros found Hf He. unfold extract_code, contains; rewrite Hf, He; reflexivity.
  - intros Hf. unfold extract_code, contains; rewrite Hf; reflexivity.
  - destruct (index 0 "```python" s) as [found |] eqn:Hf.
    + destruct (index (found + 9) "```" s) as [e |] eqn:He.
      * destruct (Hfenced found e eq_refl He) as [_ Hno].
        apply extract_code_unfenced; exact Hno.
      * assert (Hs : extract_code s = s)
          by (unfold extract_code, contains; rewrite Hf, He; reflexivity).
        now rewrite !Hs.
    + assert (Hs : extract_code s = s)
        by (unfold extract_code, contains; rewrite Hf; reflexivity).
      now rewrite !Hs.
Qed.

Lemma extract_code_fence_free_witness :
  extract_code Demo.reply = "def main(url):
    return {'title': 'AI news'}"
  /\ contains "```" (extract_code Demo.reply) = false.
Proof.
  destruct (extract_code_fence_free Demo.reply) as (H & _).
  exact (H 13 70 eq_refl eq_refl).
Defined.

(** ** The caller *)

Lemma available_urls_nonempty (news_items : list App.NewsItem) :
  Forall (fun url => nonempty url = true) (App.available_urls news_items).
Proof.
  induction news_items as [| news rest IH]; simpl; [constructor |].
  destruct (App.news_url news) as [url |]; [| exact IH].
  destruct (nonempty url) eqn:Hu; [constructor; assumption | exact IH].
Qed.

Lemma firstn_firstn_same {A : Type} (n : nat) (l : list A) :
  firstn n (firstn n l) = firstn n l.
Proof. rewrite firstn_firstn, Nat.min_id; reflexivity. Qed.

(** X12. The caller hands the pipeline the first three non-empty URLs of the
    topic's news items, so the pipeline's own cap drops nothing: a run that
    meets no escaping fault (the callback returns, the backend client can be
    built, the programs come back, [json.dumps] accepts the payloads)
    processes exactly those URLs, in order, none of them empty, and fetches
    exactly their pages. *)
Theorem caller_urls_are_all_processed (env : Env) (title : string)
    (news_items : list App.NewsItem) (cb : option Callback) (w : World) :
  callback_returns cb -> llm_available env -> programs_halt env -> dumps_returns env ->
  exists b,
    fst (App.generate env title news_items cb w) = Ok b
    /\ processed_urls b = App.trend_urls_of news_items
    /\ fetch_log (snd (App.generate env title news_items cb w))
       = fetch_log w ++ App.trend_urls_of news_items
    /\ Forall (fun url => nonempty url = true) (processed_urls b)
    /\ length (processed_urls b) = Nat.min 3 (length (App.available_urls news_items)).
Proof.
  intros Hcb Hllm Hh Hd. unfold App.generate.
  destruct (run_guarded_total env title (App.trend_urls_of news_items) cb w Hcb Hllm Hh Hd)
    as (b & w' & H).
  destruct (run_guarded_ok _ _ _ _ _ _ _ H)
    as (st' & w0 & w1 & (Hf0 & _) & Hw & (Hf1 & _) & ->).
  destruct (workflow_invoke_ok _ _ _ _ _ Hw) as (HF & _ & _ & Hf); fields.
  destruct (Forall2_fingerprint_urls env _ _ HF) as [Ha _].
  unfold App.trend_urls_of in *. rewrite firstn_firstn_same in Ha, Hf.
  assert (Hp : processed_urls (result_of st') = firstn 3 (App.available_urls news_items))
    by exact Ha.
  exists (result_of st').
  unfold run_langgraph_workflow, try_catch; rewrite H; cbn [fst snd]. rewrite Hp.
  split; [reflexivity |]. split; [reflexivity |].
  split; [congruence |].
  split; [| apply length_firstn].
  apply Forall_forall; intros url Hin.
  apply (proj1 (Forall_forall _ _) (available_urls_nonempty news_items)).
  rewrite <- (firstn_skipn 3 (App.available_urls news_items)).
  apply in_or_app; left; exact Hin.
Qed.

Lemma caller_urls_are_all_processed_witness :
  exists b,
    fst (App.generate Demo.env "AI" AppCases.news_items (Some Demo.quiet_callback)
           empty_world) = Ok b
    /\ processed_urls b
       = ["https://a.example/1"; "https://down.example"; "https://a.example/5"].
Proof.
  destruct (caller_urls_are_all_processed Demo.env "AI" AppCases.news_items
              (Some Demo.quiet_callback) empty_world quiet_callback_returns eq_refl
              demo_programs_halt demo_dumps_returns) as (b & Hb & Hp & _).
  exists b; split; [exact Hb | exact Hp].
Defined.

Lemma reply_or_empty (prefix : string) (t : Try string) :
  nonempty prefix = true ->
  nonempty (reply_or prefix t) = false ->
  t = Returns EmptyString.
Proof.
  intros Hp; destruct t as [content | e]; simpl.
  - destruct content; [reflexivity | discriminate].
  - destruct prefix; [discriminate | simpl; discriminate].
Qed.

(** X13. The caller's test of the returned bundle (script and social copy
    both non-empty) lets every failure through as content: the failure bundle
    of the outer guard passes it, and a returned bundle fails it only when the
    backend itself answered the script or the social request with an empty
    text. *)
Theorem caller_rejects_only_empty_replies (env : Env) (topic : string)
    (urls : list string) (cb : option Callback) (w : World) :
  (forall e, App.accepted (failure_result e) = true)
  /\ (forall b,
        fst (run_langgraph_workflow env topic urls cb w) = Ok b ->
        App.accepted b = false ->
        exists history sys human,
          llm_invoke env history sys human = Returns EmptyString
          /\ (human = script_request topic \/ human = social_request topic)).
Proof.
  split; [intros e; reflexivity |].
  intros b. unfold run_langgraph_workflow, try_catch, ret.
  destruct (run_guarded env topic urls cb w) as [[b' | e | | x] w1] eqn:Hg; simpl;
    intros Hb; try discriminate; injection Hb as <-; [| discriminate].
  destruct (run_guarded_ok _ _ _ _ _ _ _ Hg) as (st' & w0 & w2 & _ & Hw & _ & ->).
  rewrite workflow_invoke_split in Hw.
  apply bind_ok_inv in Hw; destruct Hw as (s3 & w3 & H3 & Ht).
  destruct (fan_out_ok _ _ _ _ _ H3) as (l & cs & ds & calls & -> & _).
  destruct (text_stages_ok _ _ _ _ _ Ht)
    as (sm & sc & so & sum_calls & -> & _ & _ & _ & _ & Hsc & Hso).
  fields. unfold App.accepted, result_of; simpl.
  intros Hacc. apply andb_false_iff in Hacc. destruct Hacc as [Hacc | Hacc].
  - rewrite Hsc in Hacc. apply reply_or_empty in Hacc; [| reflexivity].
    eexists _, _, _; split; [exact Hacc | left; reflexivity].
  - rewrite Hso in Hacc. apply reply_or_empty in Hacc; [| reflexivity].
    eexists _, _, _; split; [exact Hacc | right; reflexivity].
Qed.

Lemma caller_rejects_only_empty_replies_witness :
  exists b,
    fst (run_langgraph_workflow AppCases.env_empty_script "AI" ["https://a.example/1"]
           None empty_world) = Ok b
    /\ App.accepted b = false
    /\ exists history sys human,
         llm_invoke AppCases.env_empty_script history sys human = Returns EmptyString.
Proof.
  eexists; split; [reflexivity |]. split; [reflexivity |].
  destruct (caller_rejects_only_empty_replies AppCases.env_empty_script "AI"
              ["https://a.example/1"] None empty_world) as [_ H].
  destruct (H _ eq_refl eq_refl) as (history & sys & human & Hr & _).
  exists history, sys, human; exact Hr.
Defined.

(** ** What the synthesis stage records *)

Lemma generate_one_recorded (env : Env) (a : Analysis) (w : World) :
  well_formed a ->
  exists c, fst (generate_one env a w) = Ok c /\ recorded env a c.
Proof.
  intros Hwf. unfold generate_one, try_catch, bind, llm_call, of_try, ret.
  destruct (analysis_success a) eqn:Hs; simpl.
  - destruct (Hwf Hs) as (ws & Hw); rewrite Hw.
    destruct (llm_invoke env (llm_log w) (code_agent_prompt (analysis_text_of env ws))
                (code_request ws)) as [reply | e] eqn:Hr; simpl.
    + eexists; split; [reflexivity |]. split; simpl; [| discriminate].
      intros _. exists ws, reply, (llm_log w). repeat split; assumption.
    + eexists; split; [reflexivity |]. split; simpl; [discriminate |].
      intros _. repeat split. exists e; split; [reflexivity |].
      intros _. exists ws, (llm_log w); split; assumption.
  - eexists; split; [reflexivity |]. split; simpl; [discriminate |].
    intros _. repeat split. eexists; split; [reflexivity | congruence].
Qed.

Lemma generate_loop_recorded (env : Env) (l : list Analysis) (acc cs : list ScrapingCode)
    (w w' : World) :
  Forall well_formed l ->
  generate_loop env l acc w = (Ok cs, w') ->
  exists cs', cs = acc ++ cs' /\ Forall2 (recorded env) l cs'.
Proof.
  intros Hwf; revert acc w; induction Hwf as [| a l Ha _ IH]; intros acc w; simpl.
  - unfold ret; intros H; injection H as <- <-.
    exists []; rewrite app_nil_r; split; constructor.
  - intros H; apply bind_ok_inv in H; destruct H as (c & w1 & H1 & H).
    destruct (generate_one_recorded env a w Ha) as (c' & Hc & Hrec).
    rewrite H1 in Hc; simpl in Hc; injection Hc as <-.
    destruct (IH _ _ H) as (cs' & -> & HF).
    exists (c :: cs'); rewrite <- app_assoc; split; [reflexivity |].
    constructor; assumption.
Qed.

(** X14. Once the callback has returned and the backend client is built,
    the synthesis stage turns every fault of a backend call into data: on a
    well-formed list it completes whatever the backend answers, and each
    record is either a success holding the body extracted from a reply to the
    prompt built from the item's own structure, or a failure with no code
    that keeps the item's URL and an error text, the backend's message when
    the backend was called. *)
Theorem synthesis_faults_are_recorded (env : Env) (st : WorkflowState) (w : World) :
  Forall well_formed (website_analyses st) ->
  callback_returns (progress_callback st) ->
  llm_available env ->
  exists st' w',
    generate_scraping_code_node env st w = (Ok st', w')
    /\ Forall2 (recorded env) (website_analyses st) (scraping_codes st').
Proof.
  intros Hwf Hcb Hllm.
  destruct (generate_node_total env st w Hwf Hcb Hllm) as (st' & w' & H).
  exists st', w'; split; [exact H |].
  apply notified_ok_exact in H. apply with_llm_ok_inv in H; destruct H as [_ H].
  apply bind_ok_inv in H.
  destruct H as (cs & w1 & Hloop & Hret). unfold ret in Hret; injection Hret as <- <-.
  destruct (generate_loop_recorded _ _ _ _ _ _ Hwf Hloop) as (cs' & -> & HF).
  exact HF.
Qed.

Lemma synthesis_faults_are_recorded_witness :
  exists st' w',
    generate_scraping_code_node Demo.env_backend_down Demo.mixed_state empty_world
    = (Ok st', w')
    /\ Forall2 (recorded Demo.env_backend_down) (website_analyses Demo.mixed_state)
         (scraping_codes st').
Proof.
  apply (synthesis_faults_are_recorded Demo.env_backend_down Demo.mixed_state empty_world).
  - repeat constructor; intros Hs; [discriminate | eexists; reflexivity].
  - exact no_callback_returns.
  - reflexivity.
Defined.

(** ** The trend fetcher *)

Lemma nth_error_firstn_some {A : Type} (n : nat) (l : list A) (k : nat) (x : A) :
  nth_error (firstn n l) k = Some x -> nth_error l k = Some x /\ k < n.
Proof.
  revert l k; induction n as [|n IH]; intros l k H.
  - destruct k; discriminate.
  - destruct l as [|a l]; [destruct k; discriminate|].
    destruct k as [|k]; simpl in *.
    + split; [assumption | lia].
    + apply IH in H. destruct H; split; [assumption | lia].
Qed.

Lemma item_loop_app (items : list TrendFetcher.FeedItem) (trends : list TrendFetcher.Trend) :
  TrendFetcher.item_loop items trends = trends ++ TrendFetcher.item_loop items [].
Proof.
  revert trends; induction items as [|item rest IH]; intro trends; simpl.
  - now rewrite app_nil_r.
  - destruct (TrendFetcher.truthy_text _).
    + rewrite IH. rewrite (IH [_]). now rewrite <- app_assoc.
    + apply IH.
Qed.

Lemma item_loop_titles (items : list TrendFetcher.FeedItem) :
  map TrendFetcher.t_title (TrendFetcher.item_loop items [])
  = map (fun item => TrendFetcher.text_or_blank (TrendFetcher.fi_title item)) (titled_items items).
Proof.
  induction items as [|item rest IH]; simpl; [reflexivity|].
  destruct (TrendFetcher.truthy_text _) eqn:Ht.
  - rewrite item_loop_app. simpl. now rewrite IH.
  - exact IH.
Qed.

Lemma item_loop_titled (items : list TrendFetcher.FeedItem) :
  all_titled (TrendFetcher.item_loop items []).
Proof.
  intros t Hin.
  apply (in_map TrendFetcher.t_title) in Hin. rewrite item_loop_titles in Hin.
  apply in_map_iff in Hin. destruct Hin as (item & Heq & Hin).
  apply filter_In in Hin. destruct Hin as [_ Ht]. now rewrite <- Heq.
Qed.

Lemma firstn_In_of {A : Type} (n : nat) (l : list A) (x : A) :
  In x (firstn n l) -> In x l.
Proof.
  intro H. rewrite <- (firstn_skipn n l). apply in_or_app. now left.
Qed.

Lemma get_google_trends_titled (feed : Res (list TrendFetcher.FeedItem)) (r : list TrendFetcher.Trend) :
  TrendFetcher.get_google_trends feed = Ok r -> all_titled r /\ length r <= 10.
Proof.
  destruct feed as [items|e| |x]; unfold TrendFetcher.get_google_trends; intro H;
    [| |discriminate|discriminate].
  - assert (r = firstn 10 (TrendFetcher.item_loop items [])) as -> by congruence. split.
    + intros t Hin. apply (item_loop_titled items). eapply firstn_In_of; eassumption.
    + apply firstn_le_length.
  - injection H as <-. split; [intros t []| simpl; lia].
Qed.

Lemma rank_loop_entries (google_trends : list TrendFetcher.Trend) :
  forall (all_trends : list TrendFetcher.Ranked) (P : nat -> TrendFetcher.Ranked -> Prop),
    (forall i x, nth_error all_trends i = Some x -> P i x) ->
    (forall i trend_data,
        In trend_data google_trends ->
        P i (TrendFetcher.mkRanked (TrendFetcher.t_title trend_data)
               (TrendFetcher.text_or (TrendFetcher.t_description trend_data)
                  ("Google 熱搜趨勢第 " ++ str_nat (i + 1) ++ " 名")%string)
               "Google Trends" (TrendFetcher.t_url trend_data)
               (TrendFetcher.t_pub_date trend_data)
               (TrendFetcher.t_approx_traffic trend_data)
               (TrendFetcher.t_picture trend_data)
               (TrendFetcher.t_picture_source trend_data)
               (TrendFetcher.t_news_items trend_data)
               (100 - Z.of_nat i * 5)%Z)) ->
    forall i x,
      nth_error (TrendFetcher.rank_loop google_trends (length all_trends) all_trends) i = Some x ->
      P i x.
Proof.
  induction google_trends as [|t rest IH]; intros acc P Hacc Hnew i x H; simpl in H.
  - now apply Hacc.
  - set (e := TrendFetcher.mkRanked _ _ _ _ _ _ _ _ _ _) in H.
    replace (S (length acc)) with (length (acc ++ [e])) in H
      by (rewrite length_app; simpl; lia).
    revert H. apply IH.
    + intros j y Hj.
      destruct (Nat.lt_ge_cases j (length acc)) as [Hlt|Hge].
      * rewrite nth_error_app1 in Hj by assumption. now apply Hacc.
      * rewrite nth_error_app2 in Hj by assumption.
        destruct (j - length acc) as [|d] eqn:Hd; simpl in Hj.
        -- injection Hj as <-. assert (j = length acc) as -> by lia.
           apply Hnew. now left.
        -- destruct d; discriminate.
    + intros j td Hin. apply Hnew. now right.
Qed.

Lemma rank_loop_length (google_trends : list TrendFetcher.Trend) :
  forall (i : nat) (all_trends : list TrendFetcher.Ranked),
    length (TrendFetcher.rank_loop google_trends i all_trends)
    = length all_trends + length google_trends.
Proof.
  induction google_trends as [|t rest IH]; intros i acc; simpl.
  - lia.
  - rewrite IH, length_app. simpl. lia.
Qed.

Lemma default_description_nonempty (t : TrendFetcher.Text) (i : nat) :
  nonempty (TrendFetcher.text_or t ("Google 熱搜趨勢第 " ++ str_nat (i + 1) ++ " 名")%string) = true.
Proof.
  destruct t as [s|]; simpl; [destruct s; reflexivity | reflexivity].
Qed.

Lemma ranked_of_titled (google_trends : list TrendFetcher.Trend) :
  all_titled google_trends ->
  well_ranked (firstn 10
     (if nonempty_list google_trends
      then TrendFetcher.rank_loop google_trends 0 [] else [])).
Proof.
  intro Ht. split; [apply firstn_le_length|].
  intros i x H. apply nth_error_firstn_some in H. destruct H as [H _].
  destruct google_trends as [|t0 rest]; [destruct i; discriminate|].
  cbn [nonempty_list] in H.
  revert i x H.
  apply (rank_loop_entries (t0 :: rest) []
           (fun i x => TrendFetcher.r_score x = (100 - 5 * Z.of_nat i)%Z
                       /\ TrendFetcher.r_source x = "Google Trends"
                       /\ nonempty (TrendFetcher.r_description x) = true
                       /\ TrendFetcher.truthy_text (TrendFetcher.r_title x) = true)).
  - intros i x H; destruct i; discriminate.
  - intros i td Hin. cbn [TrendFetcher.r_score TrendFetcher.r_source TrendFetcher.r_description TrendFetcher.r_title].
    repeat split.
    + lia.
    + apply default_description_nonempty.
    + now apply Ht.
Qed.

Lemma well_ranked_nil : well_ranked [].
Proof.
  split; [simpl; lia|]. intros i x H; destruct i; discriminate.
Qed.

(** X15 ([get_google_trends]).  Reading the feed never raises.  When it
    returns, the list has at most ten trends, each with a non-empty title;
    their titles are those of the first ten feed items that have a non-empty
    title, in feed order; and a request or a parse that raised gives the
    empty list. *)
Theorem trends_are_the_first_titled_items (feed : Res (list TrendFetcher.FeedItem)) :
  (forall e, TrendFetcher.get_google_trends feed <> Exc e)
  /\ forall r,
       TrendFetcher.get_google_trends feed = Ok r ->
       length r <= 10
       /\ all_titled r
       /\ (forall items,
              feed = Ok items ->
              map TrendFetcher.t_title r
              = firstn 10 (map (fun item => TrendFetcher.text_or_blank (TrendFetcher.fi_title item))
                             (titled_items items)))
       /\ (forall e, feed = Exc e -> r = []).
Proof.
  split.
  - intros e. destruct feed; discriminate.
  - intros r H. destruct (get_google_trends_titled feed r H) as [Ht Hlen].
    repeat split; try assumption.
    + intros items ->. unfold TrendFetcher.get_google_trends in H.
      assert (r = firstn 10 (TrendFetcher.item_loop items [])) as -> by congruence.
      rewrite <- firstn_map. now rewrite item_loop_titles.
    + intros e ->. unfold TrendFetcher.get_google_trends in H. congruence.
Qed.

Lemma trends_are_the_first_titled_items_witness :
  map TrendFetcher.t_title
    (firstn 10 (TrendFetcher.item_loop TrendFetcher.sample_items []))
  = [Some "AI"; Some "Chips"].
Proof.
  destruct (trends_are_the_first_titled_items (Ok TrendFetcher.sample_items)) as [_ H].
  destruct (H _ eq_refl) as (_ & _ & Heq & _).
  rewrite (Heq _ eq_refl). reflexivity.
Defined.

(** X16 ([get_aggregated_trends]).  The cache of a new fetcher is a
    ranking, and a call keeps it one: the list a call returns is the cached
    list after the call, has at most ten entries, and the entry at position
    [i] has the score [100 - 5 i] (so between 55 and 100), the source
    [Google Trends], a non-empty title and a non-empty description. *)
Theorem aggregated_trends_are_ranked :
  (forall h, well_ranked (TrendFetcher.cached_trends (TrendFetcher.init h)))
  /\ forall feeds self fetches force_refresh now r self1 n1,
       well_ranked (TrendFetcher.cached_trends self) ->
       TrendFetcher.get_aggregated_trends feeds self fetches force_refresh now = (Ok r, self1, n1) ->
       TrendFetcher.cached_trends self1 = r
       /\ well_ranked r
       /\ forall x, In x r -> (55 <= TrendFetcher.r_score x <= 100)%Z.
Proof.
  split; [intro h; exact well_ranked_nil|].
  intros feeds self fetches force now r self1 n1 Hinv H.
  assert (Hr : TrendFetcher.cached_trends self1 = r /\ well_ranked r).
  { unfold TrendFetcher.get_aggregated_trends in H.
    destruct (TrendFetcher.cache_is_fresh self force now).
    - assert (r = TrendFetcher.cached_trends self) as -> by congruence.
      assert (self1 = self) as -> by congruence. now split.
    - destruct (TrendFetcher.get_google_trends (feeds fetches)) as [g|e| |x] eqn:Hg;
        try discriminate.
      cbv zeta in H.
      set (c := firstn 10 _) in H.
      assert (r = c) as -> by congruence.
      assert (self1 = TrendFetcher.mkFetcher (TrendFetcher.cache_duration self) (Some now) c)
        as -> by congruence.
      split; [reflexivity|].
      apply ranked_of_titled. exact (proj1 (get_google_trends_titled _ _ Hg)). }
  destruct Hr as [Hc Hw]. split; [assumption|]. split; [assumption|].
  intros x Hin. destruct Hw as [Hlen Hw]. destruct (In_nth_error _ _ Hin) as [i Hi].
  destruct (Hw i x Hi) as (Hs & _). rewrite Hs.
  assert (i < length r) by (apply nth_error_Some; congruence). lia.
Qed.

Lemma aggregated_trends_are_ranked_witness :
  well_ranked
    (TrendFetcher.cached_trends
       (snd (fst (TrendFetcher.get_aggregated_trends TrendFetcher.feeds_once
                    (TrendFetcher.init 1) 0 false 0%Z)))).
Proof.
  destruct aggregated_trends_are_ranked as [Hinit Hstep].
  destruct (Hstep TrendFetcher.feeds_once (TrendFetcher.init 1) 0 false 0%Z _ _ _
              (Hinit 1%Z) eq_refl) as (Hc & Hw & _).
  exact Hw.
Defined.

(** X17 ([get_aggregated_trends]).  After a call that requested the feed at
    time [t1] and returned, a call without [force_refresh] at a time [t2]
    less than the cache duration after [t1] requests nothing: it returns the
    same list and leaves the fetcher as it was, whatever the feed would
    answer. *)
Theorem fresh_cache_is_served_without_a_request
    (feeds feeds2 : nat -> Res (list TrendFetcher.FeedItem)) (self self1 : TrendFetcher.Fetcher)
    (fetches n1 : nat) (force_refresh : bool) (t1 t2 : Z) (r1 : list TrendFetcher.Ranked) :
  TrendFetcher.cache_is_fresh self force_refresh t1 = false ->
  TrendFetcher.get_aggregated_trends feeds self fetches force_refresh t1 = (Ok r1, self1, n1) ->
  (t2 - t1 < TrendFetcher.cache_duration self)%Z ->
  n1 = S fetches
  /\ TrendFetcher.get_aggregated_trends feeds2 self1 n1 false t2 = (Ok r1, self1, n1).
Proof.
  intros Hstale H Hnear.
  unfold TrendFetcher.get_aggregated_trends in H. rewrite Hstale in H.
  destruct (TrendFetcher.get_google_trends (feeds fetches)) as [g|e| |x]; try discriminate.
  cbv zeta in H. set (c := firstn 10 _) in H.
  assert (r1 = c) as -> by congruence.
  assert (self1 = TrendFetcher.mkFetcher (TrendFetcher.cache_duration self) (Some t1) c)
    as -> by congruence.
  assert (n1 = S fetches) as -> by congruence.
  split; [reflexivity|].
  unfold TrendFetcher.get_aggregated_trends, TrendFetcher.cache_is_fresh.
  cbn [TrendFetcher.last_fetch_time TrendFetcher.cache_duration TrendFetcher.cached_trends negb andb].
  apply Z.ltb_lt in Hnear. now rewrite Hnear.
Qed.

Lemma fresh_cache_is_served_without_a_request_witness :
  1 = 1
  /\ TrendFetcher.get_aggregated_trends (fun _ => Hang)
       (snd (fst (TrendFetcher.get_aggregated_trends TrendFetcher.feeds_once
                    (TrendFetcher.init 1) 0 false 0%Z)))
       1 false 3599999999%Z
     = (fst (fst (TrendFetcher.get_aggregated_trends TrendFetcher.feeds_once
                    (TrendFetcher.init 1) 0 false 0%Z)),
        snd (fst (TrendFetcher.get_aggregated_trends TrendFetcher.feeds_once
                    (TrendFetcher.init 1) 0 false 0%Z)),
        1).
Proof.
  apply (fresh_cache_is_served_without_a_request TrendFetcher.feeds_once (fun _ => Hang)
           (TrendFetcher.init 1) _ 0 1 false 0%Z 3599999999%Z _).
  - reflexivity.
  - reflexivity.
  - cbn. lia.
Defined.

(** X18 ([get_aggregated_trends], [get_google_trends]).  A request that
    raises is not reported: the call returns the empty list, and the empty
    list replaces whatever was cached, so that for the cache duration later
    calls without [force_refresh] return the empty list too, whatever the feed
    would answer. *)
Theorem failed_fetch_replaces_the_cache
    (feeds feeds2 : nat -> Res (list TrendFetcher.FeedItem)) (self : TrendFetcher.Fetcher)
    (fetches : nat) (force_refresh : bool) (now t2 : Z) (e : string) :
  TrendFetcher.cache_is_fresh self force_refresh now = false ->
  feeds fetches = Exc e ->
  (t2 - now < TrendFetcher.cache_duration self)%Z ->
  exists self1,
    TrendFetcher.get_aggregated_trends feeds self fetches force_refresh now
    = (Ok [], self1, S fetches)
    /\ TrendFetcher.cached_trends self1 = []
    /\ TrendFetcher.get_aggregated_trends feeds2 self1 (S fetches) false t2
       = (Ok [], self1, S fetches).
Proof.
  intros Hstale Hdown Hnear.
  exists (TrendFetcher.mkFetcher (TrendFetcher.cache_duration self) (Some now) []).
  unfold TrendFetcher.get_aggregated_trends at 1. rewrite Hstale, Hdown.
  repeat split.
  unfold TrendFetcher.get_aggregated_trends, TrendFetcher.cache_is_fresh.
  cbn [TrendFetcher.last_fetch_time TrendFetcher.cache_duration TrendFetcher.cached_trends negb andb].
  apply Z.ltb_lt in Hnear. now rewrite Hnear.
Qed.

Lemma failed_fetch_replaces_the_cache_witness :
  exists self1,
    TrendFetcher.get_aggregated_trends TrendFetcher.feeds_once
      (snd (fst (TrendFetcher.get_aggregated_trends TrendFetcher.feeds_once
                   (TrendFetcher.init 1) 0 false 0%Z)))
      1 true 10%Z
    = (Ok [], self1, 2)
    /\ TrendFetcher.cached_trends self1 = []
    /\ TrendFetcher.get_aggregated_trends TrendFetcher.feeds_later self1 2 false 20%Z
       = (Ok [], self1, 2).
Proof.
  apply (failed_fetch_replaces_the_cache TrendFetcher.feeds_once TrendFetcher.feeds_later
           _ 1 true 10%Z 20%Z "ConnectionError").
  - reflexivity.
  - reflexivity.
  - cbn. lia.
Defined.

(** ** The web search *)

Lemma chars_take_chars (n : nat) (s : string) :
  WebSearch.chars (WebSearch.take_chars n s) <= n.
Proof.
  revert n; induction s as [|c r IH]; intro n; simpl; [lia|].
  destruct (WebSearch.is_continuation c) eqn:Hc; simpl; rewrite ?Hc.
  - apply IH.
  - destruct n as [|m]; simpl; rewrite ?Hc; [lia|]. specialize (IH m). lia.
Qed.

Lemma scrape_url_content_url (page : Try WebSearch.Soup) (url : string) (p : WebSearch.Page) :
  WebSearch.scrape_url_content page url = Some p -> WebSearch.pg_url p = url.
Proof.
  destruct page as [soup|e]; unfold WebSearch.scrape_url_content; intro H;
    [|discriminate].
  cbv zeta in H. injection H as <-. reflexivity.
Qed.

Lemma class_loop_first_found (soup : WebSearch.Soup) (before after : list string)
    (name t d : string) :
  (forall n, In n before -> WebSearch.class_div_text soup n = None) ->
  WebSearch.class_div_text soup name = Some t ->
  WebSearch.class_loop soup (before ++ name :: after) d = t.
Proof.
  intros Hb Hn. induction before as [|b rest IH]; simpl.
  - now rewrite Hn.
  - rewrite (Hb b) by now left. apply IH. intros n Hin. apply Hb. now right.
Qed.

Lemma scrape_loop_spec (fetch : nat -> string -> Try WebSearch.Soup) (urls : list string) :
  forall (i total : nat) (results : list WebSearch.Page) (net : WebSearch.Net),
    i + length urls = S total ->
    WebSearch.requested (snd (WebSearch.scrape_loop fetch urls i total results net))
    = WebSearch.requested net ++ urls
    /\ WebSearch.slept (snd (WebSearch.scrape_loop fetch urls i total results net))
       = WebSearch.slept net + (length urls - 1)
    /\ length (fst (WebSearch.scrape_loop fetch urls i total results net))
       <= length results + length urls
    /\ (forall p, In p (fst (WebSearch.scrape_loop fetch urls i total results net)) ->
          In p results \/ In (WebSearch.pg_url p) urls)
    /\ (always_answers fetch ->
        map WebSearch.pg_url (fst (WebSearch.scrape_loop fetch urls i total results net))
        = map WebSearch.pg_url results ++ urls).
Proof.
  induction urls as [|url rest IH]; intros i total results net Hi.
  - simpl. rewrite !app_nil_r. repeat split; try lia. intros p Hp; now left.
  - cbn [WebSearch.scrape_loop]. cbv zeta.
    cbn [WebSearch.requested WebSearch.slept].
    set (content := WebSearch.scrape_url_content _ url).
    set (results1 := match content with Some c => results ++ [c] | None => results end).
    set (net1 := if (i <? total)%nat then _ else _).
    assert (Hreq : WebSearch.requested net1 = WebSearch.requested net ++ [url])
      by (unfold net1; destruct (i <? total)%nat; reflexivity).
    assert (Hslept : WebSearch.slept net1 + (length rest - 1)
                     = WebSearch.slept net + (length (url :: rest) - 1)).
    { unfold net1. simpl in Hi. destruct (Nat.ltb_spec i total); simpl; lia. }
    assert (Hi1 : S i + length rest = S total) by (simpl in Hi; lia).
    destruct (IH (S i) total results1 net1 Hi1) as (H1 & H2 & H3 & H4 & H5).
    assert (Hlen1 : length results1 <= length results + 1).
    { unfold results1. destruct content; [rewrite length_app; simpl|]; lia. }
    assert (Hin1 : forall p, In p results1 -> In p results \/ WebSearch.pg_url p = url).
    { unfold results1. intros p Hp. destruct content as [c|] eqn:Hc; [|now left].
      apply in_app_or in Hp. destruct Hp as [Hp|[<-|[]]]; [now left|].
      right. eapply scrape_url_content_url. exact Hc. }
    repeat split.
    + rewrite H1, Hreq, <- app_assoc. reflexivity.
    + rewrite H2. exact Hslept.
    + simpl. lia.
    + intros p Hp. destruct (H4 p Hp) as [Hp1|Hp1].
      * destruct (Hin1 p Hp1) as [Hr|Hu]; [now left | right; now left].
      * right. now right.
    + intro Hok. rewrite (H5 Hok).
      assert (Hmap : map WebSearch.pg_url results1 = map WebSearch.pg_url results ++ [url]).
      { unfold results1. destruct content as [c|] eqn:Hc.
        - rewrite map_app. simpl. now rewrite (scrape_url_content_url _ _ _ Hc).
        - exfalso. unfold content in Hc.
          destruct (Hok (length (WebSearch.requested net)) url) as [soup Hs].
          rewrite Hs in Hc. discriminate. }
      rewrite Hmap, <- app_assoc. reflexivity.
Qed.

Lemma scrape_multiple_urls_spec (fetch : nat -> string -> Try WebSearch.Soup)
    (urls : list string) (max_urls : nat) (net : WebSearch.Net) :
  WebSearch.requested (snd (WebSearch.scrape_multiple_urls fetch urls max_urls net))
  = WebSearch.requested net ++ firstn max_urls urls
  /\ WebSearch.slept (snd (WebSearch.scrape_multiple_urls fetch urls max_urls net))
     = WebSearch.slept net + (length (firstn max_urls urls) - 1)
  /\ length (fst (WebSearch.scrape_multiple_urls fetch urls max_urls net))
     <= length (firstn max_urls urls)
  /\ (forall p, In p (fst (WebSearch.scrape_multiple_urls fetch urls max_urls net)) ->
        In (WebSearch.pg_url p) (firstn max_urls urls))
  /\ (always_answers fetch ->
      map WebSearch.pg_url (fst (WebSearch.scrape_multiple_urls fetch urls max_urls net))
      = firstn max_urls urls).
Proof.
  unfold WebSearch.scrape_multiple_urls. cbv zeta.
  destruct (scrape_loop_spec fetch (firstn max_urls urls) 1
              (length (firstn max_urls urls)) [] net) as (H1 & H2 & H3 & H4 & H5);
    [lia|].
  repeat split; try assumption.
  intros p Hp. destruct (H4 p Hp) as [[]|H]; assumption.
Qed.

Lemma mark_source_of_page (p : WebSearch.Page) :
  WebSearch.sr_source (WebSearch.mark_source (WebSearch.of_page p)) = Some "Trending News"
  /\ WebSearch.sr_url (WebSearch.mark_source (WebSearch.of_page p)) = Some (WebSearch.pg_url p).
Proof.
  split; reflexivity.
Qed.

Lemma mark_source_of_tavily (res : WebSearch.TavilyRes) :
  WebSearch.mark_source (WebSearch.of_tavily res) = WebSearch.of_tavily res.
Proof.
  reflexivity.
Qed.

Lemma search_unfold (fetch : nat -> string -> Try WebSearch.Soup) (tavily_enabled : bool)
    (client_search : string -> nat -> Try (list WebSearch.TavilyRes))
    (query : string) (max_results : nat) (trend_urls : option (list string))
    (net : WebSearch.Net) :
  WebSearch.search fetch tavily_enabled client_search query max_results trend_urls net
  = (map WebSearch.mark_source
       (map WebSearch.of_page
          (fst (WebSearch.scrape_multiple_urls fetch (urls_of trend_urls) 3 net)))
     ++ (if tavily_enabled
         then match client_search query max_results with
              | Returns results => map WebSearch.of_tavily results
              | Raises _ => []
              end
         else []),
     snd (WebSearch.scrape_multiple_urls fetch (urls_of trend_urls) 3 net)).
Proof.
  assert (Hmark : forall (pages : list WebSearch.SearchResult) rs,
             map WebSearch.mark_source (pages ++ map WebSearch.of_tavily rs)
             = map WebSearch.mark_source pages ++ map WebSearch.of_tavily rs).
  { intros pages rs. rewrite map_app. f_equal. rewrite map_map. apply map_ext.
    exact mark_source_of_tavily. }
  unfold WebSearch.search. destruct trend_urls as [[|u rest]|]; cbn [urls_of].
  - cbn. destruct tavily_enabled; [|reflexivity].
    destruct (client_search query max_results) as [rs|e]; [|reflexivity].
    now rewrite map_map.
  - destruct (WebSearch.scrape_multiple_urls fetch (u :: rest) 3 net) as [tr net0].
    cbn [fst snd app]. destruct tavily_enabled; [|now rewrite app_nil_r].
    destruct (client_search query max_results) as [rs|e]; [|now rewrite app_nil_r].
    now rewrite Hmark.
  - cbn. destruct tavily_enabled; [|reflexivity].
    destruct (client_search query max_results) as [rs|e]; [|reflexivity].
    now rewrite map_map.
Qed.

(** X19 ([scrape_url_content]).  The call returns [None] exactly when the
    request or the parser raised.  A page it returns carries the url it was
    asked for, a non-empty title, and a non-empty content of at most 2000
    code points. *)
Theorem scraped_page_is_complete (page : Try WebSearch.Soup) (url : string) :
  (WebSearch.scrape_url_content page url = None <-> exists e, page = Raises e)
  /\ forall p,
       WebSearch.scrape_url_content page url = Some p ->
       WebSearch.pg_url p = url
       /\ nonempty (WebSearch.pg_title p) = true
       /\ nonempty (WebSearch.pg_content p) = true
       /\ WebSearch.chars (WebSearch.pg_content p) <= 2000.
Proof.
  split.
  - destruct page as [soup|e]; split; intro H.
    + discriminate.
    + destruct H as [e He]; discriminate.
    + now exists e.
    + reflexivity.
  - intros p H. split; [eapply scrape_url_content_url; eassumption|].
    destruct page as [soup|e]; unfold WebSearch.scrape_url_content in H; [|discriminate].
    cbv zeta in H.
    set (title := match WebSearch.title_text soup with Some t => strip t | None => _ end) in H.
    set (c3 := if nonempty _ then _ else match WebSearch.body_text soup with
                                          | Some t => t | None => _ end) in H.
    injection H as <-. cbn [WebSearch.pg_title WebSearch.pg_content].
    split; [destruct (nonempty title) eqn:Ht; [exact Ht | reflexivity]|].
    destruct (nonempty c3) eqn:Hc3.
    + destruct (nonempty (WebSearch.take_chars 2000 c3)) eqn:Hk.
      * split; [exact Hk | apply chars_take_chars].
      * split; [reflexivity | vm_compute; lia].
    + rewrite Hc3. split; [reflexivity | vm_compute; lia].
Qed.

Lemma scraped_page_is_complete_witness :
  WebSearch.pg_url
    (WebSearch.mkPage "News" "https://a.example/1" "the body") = "https://a.example/1"
  /\ nonempty "News" = true
  /\ nonempty "the body" = true
  /\ WebSearch.chars "the body" <= 2000.
Proof.
  exact (proj2 (scraped_page_is_complete (Returns WebSearch.soup_empty_div)
                  "https://a.example/1")
           (WebSearch.mkPage "News" "https://a.example/1" "the body") eq_refl).
Defined.

(** X20 ([scrape_url_content]).  The search through the class names ends
    at the first name for which a [div] is found, also when that [div] has
    no text: two pages that answer alike up to that [div] give the same
    result, whatever [div]s they have for the later class names. *)
Theorem first_div_found_ends_the_class_search
    (soup soup' : WebSearch.Soup) (name url : string) :
  same_up_to_div soup soup' name ->
  WebSearch.scrape_url_content (Returns soup) url
  = WebSearch.scrape_url_content (Returns soup') url.
Proof.
  intros (Ht & Ha & Hm & Hb & before & after & t & Hnames & Hbefore & Hn & Hn').
  unfold WebSearch.scrape_url_content.
  rewrite Hnames, <- Ht, <- Ha, <- Hm, <- Hb.
  rewrite (class_loop_first_found soup before after name t)
    by (try assumption; intros n Hin; apply (Hbefore n Hin)).
  rewrite (class_loop_first_found soup' before after name t)
    by (try assumption; intros n Hin; apply (Hbefore n Hin)).
  reflexivity.
Qed.

Lemma first_div_found_ends_the_class_search_witness :
  WebSearch.scrape_url_content (Returns WebSearch.soup_empty_div) "https://a.example/1"
  = WebSearch.scrape_url_content (Returns WebSearch.soup_empty_div') "https://a.example/1".
Proof.
  apply (first_div_found_ends_the_class_search WebSearch.soup_empty_div
           WebSearch.soup_empty_div' "content").
  do 4 (split; [reflexivity|]).
  exists [], ["main-content"; "article-content"; "post-content"; "entry-content"],
    EmptyString.
  split; [reflexivity|]. split; [intros m []|]. split; reflexivity.
Defined.

(** X21 ([scrape_multiple_urls]).  The call requests the first [max_urls]
    urls, each once and in order, and nothing else; it sleeps one second
    between two requests and not after the last; it returns at most one page
    per request, each for one of the requested urls; and when every request
    is answered the pages are those of the requested urls, in order. *)
Theorem scrape_multiple_urls_requests_first_urls
    (fetch : nat -> string -> Try WebSearch.Soup) (urls : list string) (max_urls : nat)
    (net net' : WebSearch.Net) (results : list WebSearch.Page) :
  WebSearch.scrape_multiple_urls fetch urls max_urls net = (results, net') ->
  WebSearch.requested net' = WebSearch.requested net ++ firstn max_urls urls
  /\ WebSearch.slept net' = WebSearch.slept net + (length (firstn max_urls urls) - 1)
  /\ length results <= length (firstn max_urls urls)
  /\ (forall p, In p results -> In (WebSearch.pg_url p) (firstn max_urls urls))
  /\ (always_answers fetch -> map WebSearch.pg_url results = firstn max_urls urls).
Proof.
  intro H. pose proof (scrape_multiple_urls_spec fetch urls max_urls net) as Hs.
  rewrite H in Hs. exact Hs.
Qed.

Lemma scrape_multiple_urls_requests_first_urls_witness :
  WebSearch.requested
    (snd (WebSearch.scrape_multiple_urls WebSearch.fetch_second_fails WebSearch.four_urls 3
            (WebSearch.mkNet [] 0)))
  = firstn 3 WebSearch.four_urls.
Proof.
  exact (proj1 (scrape_multiple_urls_requests_first_urls WebSearch.fetch_second_fails
                  WebSearch.four_urls 3 (WebSearch.mkNet [] 0) _ _ eq_refl)).
Defined.

(** X22 ([search]).  The list [search] returns is the pages scraped from
    the trend urls followed by the Tavily results.  At most three pages are
    scraped, each from one of the first three trend urls, and each is
    labelled [Trending News]; every Tavily result is labelled [Tavily]; when
    Tavily is disabled or its client raises, the pages alone are returned;
    and only the first three trend urls are requested. *)
Theorem search_results_order_and_labels
    (fetch : nat -> string -> Try WebSearch.Soup) (tavily_enabled : bool)
    (client_search : string -> nat -> Try (list WebSearch.TavilyRes))
    (query : string) (max_results : nat) (trend_urls : option (list string))
    (net net' : WebSearch.Net) (results : list WebSearch.SearchResult) :
  WebSearch.search fetch tavily_enabled client_search query max_results trend_urls net
  = (results, net') ->
  exists pages found,
    results = pages ++ found
    /\ length pages <= 3
    /\ (forall r, In r pages ->
          WebSearch.sr_source r = Some "Trending News"
          /\ exists u, WebSearch.sr_url r = Some u /\ In u (firstn 3 (urls_of trend_urls)))
    /\ (forall r, In r found -> WebSearch.sr_source r = Some "Tavily")
    /\ (tavily_enabled = false -> found = [])
    /\ (forall e, client_search query max_results = Raises e -> found = [])
    /\ WebSearch.requested net'
       = WebSearch.requested net ++ firstn 3 (urls_of trend_urls).
Proof.
  intro H. rewrite search_unfold in H.
  destruct (scrape_multiple_urls_spec fetch (urls_of trend_urls) 3 net)
    as (H1 & _ & H3 & H4 & _).
  set (scraped := WebSearch.scrape_multiple_urls fetch (urls_of trend_urls) 3 net) in *.
  set (found := if tavily_enabled then _ else _) in H.
  exists (map WebSearch.mark_source (map WebSearch.of_page (fst scraped))), found.
  split; [congruence|].
  split.
  { rewrite !length_map.
    pose proof (firstn_le_length 3 (urls_of trend_urls)). lia. }
  split.
  { intros r Hr. rewrite map_map in Hr. apply in_map_iff in Hr.
    destruct Hr as (p & <- & Hp). split; [reflexivity|].
    exists (WebSearch.pg_url p). split; [reflexivity | now apply H4]. }
  split.
  { intros r Hr. unfold found in Hr. destruct tavily_enabled; [|destruct Hr].
    destruct (client_search query max_results) as [rs|e]; [|destruct Hr].
    apply in_map_iff in Hr. destruct Hr as (res & <- & _). reflexivity. }
  split; [intros ->; reflexivity|].
  split.
  { intros e He. unfold found. rewrite He. now destruct tavily_enabled. }
  rewrite <- H1. congruence.
Qed.

Lemma search_results_order_and_labels_witness :
  exists pages found,
    fst (WebSearch.search WebSearch.fetch_second_fails true WebSearch.tavily_two "AI" 5
           (Some WebSearch.four_urls) (WebSearch.mkNet [] 0))
    = pages ++ found
    /\ length pages <= 3
    /\ (forall r, In r pages ->
          WebSearch.sr_source r = Some "Trending News"
          /\ exists u, WebSearch.sr_url r = Some u
                       /\ In u (firstn 3 (urls_of (Some WebSearch.four_urls))))
    /\ (forall r, In r found -> WebSearch.sr_source r = Some "Tavily")
    /\ (true = false -> found = [])
    /\ (forall e, WebSearch.tavily_two "AI" 5 = Raises e -> found = [])
    /\ WebSearch.requested
         (snd (WebSearch.search WebSearch.fetch_second_fails true WebSearch.tavily_two "AI" 5
                 (Some WebSearch.four_urls) (WebSearch.mkNet [] 0)))
       = WebSearch.requested (WebSearch.mkNet [] 0)
         ++ firstn 3 (urls_of (Some WebSearch.four_urls)).
Proof.
  exact (search_results_order_and_labels WebSearch.fetch_second_fails true
           WebSearch.tavily_two "AI" 5 (Some WebSearch.four_urls) (WebSearch.mkNet [] 0)
           _ _ eq_refl).
Defined.
